(** * DeepCombDTI: data parsing, parameter building and result writing

    A shallow embedding of [DeepCombDTI/utils.py] and the properties of
    its parser ([parse_data]), parameter builder ([get_args],
    [get_params], [print_parameter_summary]), result writer
    ([run_prediction]) and validation runner ([run_validation]).

    Python dictionaries that are only looked up are [gmap]s; dictionaries
    whose order is observable are association lists in insertion order.
    Exceptions are the [Raise] results of an error monad that also carries
    the trace of input/output events (lines printed, files read, files
    written). *)

From Stdlib Require Import Ascii ZArith Lia.
From stdpp Require Import base option list gmap strings pretty numbers.

Set Warnings "-register-all".

Local Open Scope string_scope.
Local Open Scope Z_scope.

(** ** Python strings and integers *)

Module Py.

(** The exceptions the embedded code can raise. *)
Inductive exn : Set :=
| FileNotFoundError
| KeyError
| AttributeError
| ValueError
| TypeError
| OverflowError
| SystemExit.

Inductive result (A : Type) : Type :=
| Ok (a : A)
| Raise (e : exn).
Arguments Ok {A} a.
Arguments Raise {A} e.

Definition of_option {A} (e : exn) (o : option A) : result A :=
  match o with Some a => Ok a | None => Raise e end.

Definition rbind {A B} (r : result A) (k : A -> result B) : result B :=
  match r with Ok a => k a | Raise e => Raise e end.

(** [[f(x) for x in l]] where [f] may raise: left to right, the first
    exception wins. *)
Fixpoint rmap {A B} (f : A -> result B) (l : list A) : result (list B) :=
  match l with
  | [] => Ok []
  | x :: l' =>
      rbind (f x) (fun y => rbind (rmap f l') (fun ys => Ok (y :: ys)))
  end.

Definition TAB : ascii := "009"%char.
Definition COMMA : ascii := ","%char.

(** [s.split(sep)] for a one-character separator: never empty, and the
    empty string splits to [[""]]. *)
Fixpoint str_split (sep : ascii) (s : string) : list string :=
  match s with
  | EmptyString => [EmptyString]
  | String c s' =>
      if Ascii.eqb c sep then EmptyString :: str_split sep s'
      else match str_split sep s' with
           | h :: t => String c h :: t
           | [] => [String c EmptyString]
           end
  end.

(** [sep.join(l)] for a one-character separator. *)
Fixpoint str_join (sep : ascii) (l : list string) : string :=
  match l with
  | [] => EmptyString
  | [s] => s
  | s :: l' => s +:+ String sep (str_join sep l')
  end.

(** Text has 8-bit characters here, the code points U+0000 to U+00FF.
    The white space [int] skips around a number: tab to carriage return
    and the space, which is all the white space of ASCII text it skips
    (the separators U+001C to U+001F are refused), and the two white
    space characters above U+007F, next line and no-break space, which
    it reads as spaces. *)
Definition is_space (c : ascii) : bool :=
  let n := nat_of_ascii c in
  ((9 <=? n)%nat && (n <=? 13)%nat) || (n =? 32)%nat
  || (n =? 133)%nat || (n =? 160)%nat.

Fixpoint lstrip (s : string) : string :=
  match s with
  | EmptyString => EmptyString
  | String c s' => if is_space c then lstrip s' else s
  end.

Fixpoint rstrip (s : string) : string :=
  match s with
  | EmptyString => EmptyString
  | String c s' =>
      match rstrip s' with
      | EmptyString => if is_space c then EmptyString else String c EmptyString
      | r => String c r
      end
  end.

Definition strip (s : string) : string := rstrip (lstrip s).

Definition digit_of (c : ascii) : option Z :=
  let n := Z.of_nat (nat_of_ascii c) in
  if (48 <=? n) && (n <=? 57) then Some (n - 48) else None.

(** The digits of a decimal integer, with single underscores allowed
    between digits; [prev] tells whether the previous character was a
    digit. *)
Fixpoint int_digits (acc : Z) (prev : bool) (s : string) : option Z :=
  match s with
  | EmptyString => if prev then Some acc else None
  | String c s' =>
      if Ascii.eqb c "_"%char then
        if prev then int_digits acc false s' else None
      else match digit_of c with
           | Some d => int_digits (10 * acc + d) true s'
           | None => None
           end
  end.

(** The number of digits of a string, underscores and sign left out. *)
Fixpoint count_digits (s : string) : nat :=
  match s with
  | EmptyString => O
  | String c s' =>
      match digit_of c with
      | Some _ => S (count_digits s')
      | None => count_digits s'
      end
  end.

(** [sys.int_max_str_digits], as Python sets it when nothing changes
    it: a string of more digits is refused. *)
Definition int_max_str_digits : nat := 4300.

(** The built-in [int(s)], base ten: surrounding white space is
    dropped, one sign is allowed, then digits, no more of them than the
    limit allows.  Python integers are unbounded, hence [Z]. *)
Definition int (s : string) : result Z :=
  of_option ValueError
    (if (int_max_str_digits <? count_digits (strip s))%nat then None
     else match strip s with
          | String "-"%char r => Z.opp <$> int_digits 0 false r
          | String "+"%char r => int_digits 0 false r
          | t => int_digits 0 false t
          end).

(** ['%d' % z] for a Python integer. *)
Definition fmt_d (z : Z) : string := pretty z.

(** ['{:Ns}'.format(s)]: left-justified in a field of [n] characters. *)
Fixpoint spaces (n : nat) : string :=
  match n with O => EmptyString | S n' => String " "%char (spaces n') end.

Definition ljust (n : nat) (s : string) : string :=
  s +:+ spaces (n - String.length s).

(** Truthiness of a string: [bool(s)]. *)
Definition truthy (s : string) : bool :=
  match s with EmptyString => false | _ => true end.

End Py.

Import Py.

Notation "x <~ c ;; k" := (rbind c (fun x => k))
  (at level 100, c at next level, right associativity).

(** ** Effects: printing, reading and writing files *)

Section Effects.
(** What a written table holds is fixed later, by the result writer. *)
Context {T : Type}.

Inductive event : Type :=
| EPrint (line : string)
| ERead (path : string)
| EWrite (path : string) (table : T).

(** A computation runs on the events so far and gives a result or an
    exception, and the events extended: an exception keeps what
    happened before it. *)
Definition M (A : Type) : Type := list event -> result A * list event.

Definition ret {A} (a : A) : M A := fun tr => (Ok a, tr).

Definition bind {A B} (m : M A) (k : A -> M B) : M B :=
  fun tr =>
    match m tr with
    | (Ok a, tr') => k a tr'
    | (Raise e, tr') => (Raise e, tr')
    end.

Definition lift {A} (r : result A) : M A := fun tr => (r, tr).

Definition emit (e : event) : M unit := fun tr => (Ok tt, (tr ++ [e])%list).

Definition print (line : string) : M unit := emit (EPrint line).
End Effects.

Arguments event T : clear implicits.
Arguments M T A : clear implicits.

Notation "x <- c ;; k" := (bind c (fun x => k))
  (at level 100, c at next level, right associativity).
Notation "c ;;; k" := (bind c (fun _ => k))
  (at level 100, right associativity).

(** ** Tables and values *)

(** A cell of the label column as pandas read it, and as iterating the
    column gives it: an integer, a float (NaN for a missing cell), a
    truth value, or text. *)
Inductive label_cell (F : Type) : Type :=
| LInt (z : Z)
| LFloat (x : F)
| LBool (b : bool)
| LText (s : string).
Arguments LInt {F} z.
Arguments LFloat {F} x.
Arguments LBool {F} b.
Arguments LText {F} s.

(** A row of the interaction table, under the columns [Compound_ID],
    [Protein_ID] and [Label]. *)
Record interaction (F : Type) : Type := {
  Compound_ID : string;
  Protein_ID : string;
  Label : label_cell F;
}.
Arguments Compound_ID {F} _.
Arguments Protein_ID {F} _.
Arguments Label {F} _.

(** The interaction table as [pd.read_csv] gives it: its rows, and
    whether the file has a column [Label].  The label of a row is read
    only when the file has that column. *)
Record dti_frame (F : Type) : Type := {
  rows : list (interaction F);
  has_Label : bool;
}.
Arguments rows {F} _.
Arguments has_Label {F} _.

(** A cell of a feature column as pandas read it: text, or a number
    when pandas parsed the cell as one (a missing cell is NaN). *)
Inductive cell (F : Type) : Type :=
| CStr (s : string)
| CNum (x : F).
Arguments CStr {F} s.
Arguments CNum {F} x.

(** A column with its index labels, in file order; labels can repeat. *)
Abbreviation Series F := (list (string * cell F)).

(** The mapping [{"features": ..., "label": ...}] the parser returns: a
    list of float arrays, each a list of rows, and the values of the
    label column. *)
Record parsed (F : Type) : Type := {
  features : list (list (list F));
  label : list (label_cell F);
}.
Arguments Build_parsed {F} _ _.
Arguments features {F} _.
Arguments label {F} _.

(** A Python value as [str] prints it in the parameter summary. *)
Inductive pyval (F : Type) : Type :=
| PNone
| PBool (b : bool)
| PInt (z : Z)
| PFloat (x : F)
| PStr (s : string)
| PList (l : list (pyval F)).
Arguments PNone {F}.
Arguments PBool {F} b.
Arguments PInt {F} z.
Arguments PFloat {F} x.
Arguments PStr {F} s.
Arguments PList {F} l.

(** A Python number: an integer or a float. *)
Inductive pynum (F : Type) : Type :=
| NInt (z : Z)
| NFloat (x : F).
Arguments NInt {F} z.
Arguments NFloat {F} x.

(** What [int(x)] makes of a float: the float without its fraction;
    NaN and the infinities have no integer. *)
Inductive truncated : Set :=
| Whole (z : Z)
| NotANumber
| Infinite.

(** What the code takes from Python, numpy and pandas without defining
    it: 64-bit floats; the two ways a float is read from text, numpy's
    conversion of a string to [np.float64] and the built-in [float(s)]
    ([None] is their [ValueError]); the value of a float literal of the
    program text; the sum and the difference of two floats, the float
    of an integer, and the integer of a float; [str(v)]; and the file
    system as [pd.read_csv] sees it: the interaction table at a path,
    and the drug or protein table at a path indexed by a column, as a
    map from column name to column. *)
Class Platform : Type := {
  F : Type;
  np_float64 : string -> option F;
  py_float : string -> option F;
  float_literal : string -> F;
  float_add : F -> F -> F;
  float_sub : F -> F -> F;
  float_of_int : Z -> F;
  float_trunc : F -> truncated;
  py_str : pyval F -> string;
  read_dti : string -> result (dti_frame F);
  read_indexed : string -> string -> result (gmap string (Series F));
}.

(** An array of 64-bit floats, a list of rows; the empty array has no
    rows. *)
Abbreviation ndarray := (list (list F)).

(** ** The data parser *)

Section Parser.
Context `{P : Platform} {T : Type}.
Local Abbreviation M := (M T).

Definition read_csv (path : string) : M (dti_frame F) :=
  emit (ERead path) ;;; lift (read_dti path).

Definition read_csv_indexed (path index_col : string)
  : M (gmap string (Series F)) :=
  emit (ERead path) ;;; lift (read_indexed path index_col).

(** [df[col]] *)
Definition df_getitem (df : gmap string (Series F)) (col : string)
  : result (Series F) :=
  of_option KeyError (df !! col).

(** [series.map(f)] *)
Definition series_map {A} (f : cell F -> result A) (s : Series F)
  : result (list (string * A)) :=
  rmap (fun ic => v <~ f ic.2 ;; Ok (ic.1, v)) s.

(** [series.to_dict()]: a repeated label keeps its last value. *)
Definition to_dict {A} (s : list (string * A)) : gmap string A :=
  fold_left (fun d kv => <[kv.1 := kv.2]> d) s ∅.

(** [dic[key]] *)
Definition dict_getitem {A} (d : gmap string A) (key : string) : result A :=
  of_option KeyError (d !! key).

(** [np.array(rows, dtype=np.float64)] on a list of rows: the rows
    must have one length, and every element must convert. *)
Definition rectangular {A} (rows : list (list A)) : bool :=
  match rows with
  | [] => true
  | r :: rs => forallb (fun r' => Nat.eqb (length r') (length r)) rs
  end.

Definition np_array {A} (conv : A -> option F) (rows : list (list A))
  : result ndarray :=
  if rectangular rows
  then of_option ValueError (mapM (mapM conv) rows)
  else Raise ValueError.

(** [lambda fp: fp.split("\t")] *)
Definition split_fp (fp : cell F) : result (list string) :=
  match fp with
  | CStr s => Ok (str_split TAB s)
  | CNum _ => Raise AttributeError
  end.

(** [lambda seq: [float(i) for i in seq.split("\t")]] *)
Definition floats_of_seq (seq : cell F) : result (list F) :=
  match seq with
  | CStr s => rmap (fun i => of_option ValueError (py_float i)) (str_split TAB s)
  | CNum _ => Raise AttributeError
  end.

(** Lines 39-40: the drug feature array of one feature name. *)
Definition drug_feature (dti_df : dti_frame F)
    (drug_df : gmap string (Series F)) (drug_vec : string) : result ndarray :=
  col <~ df_getitem drug_df drug_vec ;;
  splits <~ series_map split_fp col ;;
  let drug_dic := to_dict splits in
  found <~ rmap (dict_getitem drug_dic) (Compound_ID <$> rows dti_df) ;;
  np_array np_float64 found.

(** Lines 43-44: the protein feature array. *)
Definition protein_feature (dti_df : dti_frame F)
    (protein_df : gmap string (Series F)) (prot_vec : string) : result ndarray :=
  col <~ df_getitem protein_df prot_vec ;;
  vecs <~ series_map floats_of_seq col ;;
  let prot_dic := to_dict vecs in
  found <~ rmap (dict_getitem prot_dic) (Protein_ID <$> rows dti_df) ;;
  np_array Some found.

(** Lines 37-47: the loop over the requested drug feature names,
    appending to [features]. *)
Fixpoint feature_loop (dti_df : dti_frame F)
    (drug_df protein_df : gmap string (Series F))
    (drug_vecs : list string) (prot_vec : string)
    (features : list ndarray) : result (list ndarray) :=
  match drug_vecs with
  | [] => Ok features
  | drug_vec :: rest =>
      drug <~ drug_feature dti_df drug_df drug_vec ;;
      protein <~ protein_feature dti_df protein_df prot_vec ;;
      feature_loop dti_df drug_df protein_df rest prot_vec
        (features ++ [drug; protein])%list
  end.

(** [dti_df[label_col]]: the cells of the label column, and [KeyError]
    in a table without one. *)
Definition label_column (dti_df : dti_frame F) : result (list (label_cell F)) :=
  if has_Label dti_df then Ok (Label <$> rows dti_df) else Raise KeyError.

(** [acc + cell] as the built-in [sum] adds the next cell of a column:
    integers and truth values add up as integers, a float makes the
    sum a float, and text cannot be added to a number. *)
Definition num_add (acc : pynum F) (cell : label_cell F) : result (pynum F) :=
  match cell, acc with
  | LInt y, NInt z => Ok (NInt (z + y))
  | LInt y, NFloat x => Ok (NFloat (float_add x (float_of_int y)))
  | LBool b, NInt z => Ok (NInt (z + Z.b2z b))
  | LBool b, NFloat x => Ok (NFloat (float_add x (float_of_int (Z.b2z b))))
  | LFloat y, NInt z => Ok (NFloat (float_add (float_of_int z) y))
  | LFloat y, NFloat x => Ok (NFloat (float_add x y))
  | LText _, _ => Raise TypeError
  end.

(** The built-in [sum] over a column, from the accumulator [acc]. *)
Fixpoint sum_from (acc : pynum F) (cells : list (label_cell F))
  : result (pynum F) :=
  match cells with
  | [] => Ok acc
  | cell :: rest => acc' <~ num_add acc cell ;; sum_from acc' rest
  end.

(** [sum(column)]: the sum starts at the integer 0. *)
Definition py_sum (cells : list (label_cell F)) : result (pynum F) :=
  sum_from (NInt 0) cells.

(** [n - v] for the integer [n]. *)
Definition num_rsub (n : Z) (v : pynum F) : pynum F :=
  match v with
  | NInt z => NInt (n - z)
  | NFloat x => NFloat (float_sub (float_of_int n) x)
  end.

(** The integer ['%d' % v] prints: a float is cut to an integer, NaN
    is a [ValueError] and an infinity an [OverflowError]. *)
Definition num_int (v : pynum F) : result Z :=
  match v with
  | NInt z => Ok z
  | NFloat x =>
      match float_trunc x with
      | Whole z => Ok z
      | NotANumber => Raise ValueError
      | Infinite => Raise OverflowError
      end
  end.

Definition parsing_line (dti_dir drug_dir : string) : string :=
  "Parsing " +:+ dti_dir +:+ ", " +:+ drug_dir.
Definition positive_line (n : Z) : string :=
  String TAB "Positive data : " +:+ fmt_d n.
Definition negative_line (n : Z) : string :=
  String TAB "Negative data : " +:+ fmt_d n.

Definition parse_data (dti_dir drug_dir protein_dir : string)
    (drug_vecs : list string) (drug_lens : option (list Z))
    (prot_vec : string) (prot_len : Z) (parsing : bool) : M (parsed F) :=
  if negb parsing then ret {| features := []; label := [] |} else
  print (parsing_line dti_dir drug_dir) ;;;
  dti_df <- read_csv dti_dir ;;
  drug_df <- read_csv_indexed drug_dir "Compound_ID" ;;
  protein_df <- read_csv_indexed protein_dir "Protein_ID" ;;
  features <- lift (feature_loop dti_df drug_df protein_df drug_vecs prot_vec []) ;;
  label <- lift (label_column dti_df) ;;
  positive <- lift (column <~ label_column dti_df ;;
                    total <~ py_sum column ;;
                    num_int total) ;;
  print (positive_line positive) ;;;
  negative <- lift (column <~ label_column dti_df ;;
                    total <~ py_sum column ;;
                    num_int (num_rsub (Z.of_nat (length (rows dti_df))) total)) ;;
  print (negative_line negative) ;;;
  ret {| features := features; label := label |}.

End Parser.

(** ** The argument and parameter builder *)

(** The command line after [argparse] has grouped it: the positional
    words, for every option given its destination and the words after
    its flag, and the names of the switches given. *)
Record cmdline : Type := {
  positionals : list string;
  options : gmap string (list string);
  switches : list string;
}.

Set Implicit Arguments.

(** The namespace [parser.parse_args()] returns.  An option declared
    without a default, or with [default=None], is [None] when it is not
    given.  [drug_vecs] defaults to the empty string, which the code
    only iterates: it is the empty list here. *)
Record Args (F : Type) : Type := {
  dti_dir : string;
  drug_dir : string;
  protein_dir : string;
  parsing_train : bool;
  test_name : option (list string);
  test_dti_dir : option (list string);
  test_drug_dir : option (list string);
  test_protein_dir : option (list string);
  with_label : option string;
  drug_vecs : list string;
  drug_lens : option (list Z);
  drug_layers_list : option (list string);
  prot_vec : string;
  prot_len : Z;
  protein_layers_list : option (list string);
  fc_layers_list : option (list string);
  learning_rate : F;
  n_epoch : Z;
  activation : option string;
  dropout : F;
  batch_size : Z;
  decay : F;
  validation : bool;
  predict : bool;
  model_output : option string;
  output : option string;
}.

Record train_params_t : Type := {
  tp_n_epoch : Z;
  tp_batch_size : Z;
}.

Record type_params_t : Type := {
  ty_drug_vecs : list string;
  ty_drug_lens : option (list Z);
  ty_prot_vec : string;
  ty_prot_len : Z;
}.

(** [model_params] after [model_params.update(type_params)]. *)
Record model_params_t (F : Type) : Type := {
  mp_drug_layers_list : list (list Z);
  mp_protein_layers_list : list (list Z);
  mp_fc_layers_list : list (list Z);
  mp_learning_rate : F;
  mp_decay : F;
  mp_activation : option string;
  mp_dropout : F;
  mp_model_output : option string;
  mp_type : type_params_t;
}.

Unset Implicit Arguments.

Section Builder.
Context `{P : Platform} {T : Type}.
Local Abbreviation M := (M T).

(** An option that takes one word ([nargs] not set): [None] when not
    given; [argparse] exits when it is given without exactly one word. *)
Definition opt_one (c : cmdline) (dest : string) : result (option string) :=
  match options c !! dest with
  | None => Ok None
  | Some [w] => Ok (Some w)
  | Some _ => Raise SystemExit
  end.

(** An option with [nargs="*"]: [None] when not given. *)
Definition opt_many (c : cmdline) (dest : string) : option (list string) :=
  options c !! dest.

(** [type=...]: a word the conversion rejects makes [argparse] exit. *)
Definition typed {A} (conv : string -> option A) (w : string) : result A :=
  of_option SystemExit (conv w).

Definition conv_int (w : string) : option Z :=
  match int w with Ok z => Some z | Raise _ => None end.

Definition opt_typed {A} (c : cmdline) (dest : string)
    (conv : string -> option A) (default : A) : result A :=
  o <~ opt_one c dest ;;
  match o with
  | None => Ok default
  | Some w => typed conv w
  end.

Definition get_args (c : cmdline) : result (Args F) :=
  match positionals c with
  | [dti; drug; protein] =>
      (* [type=bool]: [bool(w)], true for every non-empty word *)
      pt <~ opt_typed c "parsing_train" (fun w => Some (truthy w)) true ;;
      wl <~ opt_one c "with_label" ;;
      dl <~ match opt_many c "drug_lens" with
            | None => Ok None
            | Some ws => l <~ rmap (typed conv_int) ws ;; Ok (Some l)
            end ;;
      pv <~ opt_typed c "prot_vec" Some "" ;;
      pl <~ opt_typed c "prot_len" conv_int 2500 ;;
      lr <~ opt_typed c "learning_rate" py_float (float_literal "1e-4") ;;
      ne <~ opt_typed c "n_epoch" conv_int 10 ;;
      act <~ opt_one c "activation" ;;
      dr <~ opt_typed c "dropout" py_float (float_literal "0.2") ;;
      bs <~ opt_typed c "batch_size" conv_int 32 ;;
      dc <~ opt_typed c "decay" py_float (float_literal "0.0") ;;
      mo <~ opt_one c "model_output" ;;
      out <~ opt_one c "output" ;;
      Ok {| dti_dir := dti;
            drug_dir := drug;
            protein_dir := protein;
            parsing_train := pt;
            test_name := opt_many c "test_name";
            test_dti_dir := opt_many c "test_dti_dir";
            test_drug_dir := opt_many c "test_drug_dir";
            test_protein_dir := opt_many c "test_protein_dir";
            with_label := wl;
            drug_vecs := default [] (opt_many c "drug_vecs");
            drug_lens := dl;
            drug_layers_list := opt_many c "drug_layers_list";
            prot_vec := pv;
            prot_len := pl;
            protein_layers_list := opt_many c "protein_layers_list";
            fc_layers_list := opt_many c "fc_layers_list";
            learning_rate := lr;
            n_epoch := ne;
            activation := act;
            dropout := dr;
            batch_size := bs;
            decay := dc;
            validation := bool_decide ("validation" ∈ switches c);
            predict := bool_decide ("predict" ∈ switches c);
            model_output := mo;
            output := out |}
  | _ => Raise SystemExit
  end.

Definition p_opt {A} (f : A -> pyval F) (o : option A) : pyval F :=
  match o with None => PNone | Some a => f a end.
Definition p_ints (l : list Z) : pyval F := PList (PInt <$> l).
Definition p_strs (l : list string) : pyval F := PList (PStr <$> l).

(** [model_params.items()], in insertion order. *)
Definition model_items (m : model_params_t F) : list (string * pyval F) :=
  [ ("drug_layers_list", PList (p_ints <$> mp_drug_layers_list m));
    ("protein_layers_list", PList (p_ints <$> mp_protein_layers_list m));
    ("fc_layers_list", PList (p_ints <$> mp_fc_layers_list m));
    ("learning_rate", PFloat (mp_learning_rate m));
    ("decay", PFloat (mp_decay m));
    ("activation", p_opt PStr (mp_activation m));
    ("dropout", PFloat (mp_dropout m));
    ("model_output", p_opt PStr (mp_model_output m));
    ("drug_vecs", p_strs (ty_drug_vecs (mp_type m)));
    ("drug_lens", p_opt p_ints (ty_drug_lens (mp_type m)));
    ("prot_vec", PStr (ty_prot_vec (mp_type m)));
    ("prot_len", PInt (ty_prot_len (mp_type m))) ].

Definition rule : string :=
  "=====================================================".

Fixpoint print_all (lines : list string) : M unit :=
  match lines with
  | [] => ret tt
  | l :: ls => print l ;;; print_all ls
  end.

Definition print_parameter_summary (target : string)
    (params : list (string * pyval F)) : M unit :=
  print rule ;;;
  print (target +:+ " summary") ;;;
  print rule ;;;
  print_all ((fun kv => ljust 20 kv.1 +:+ " : " +:+ ljust 10 (py_str kv.2))
               <$> params) ;;;
  print rule.

(** [[list(map(int, layers.split(','))) for layers in layers_list]];
    iterating [None] is a [TypeError]. *)
Definition parse_layers (layers : string) : result (list Z) :=
  rmap int (str_split COMMA layers).

Definition parse_layers_list (layers_list : option (list string))
  : result (list (list Z)) :=
  match layers_list with
  | None => Raise TypeError
  | Some l => rmap parse_layers l
  end.

(** [zip(a, b, c, d)]: as long as the shortest argument; an argument
    that is [None] is a [TypeError]. *)
Fixpoint zip4 {A B C D} (a : list A) (b : list B) (c : list C) (d : list D)
  : list (A * B * C * D) :=
  match a, b, c, d with
  | x :: a', y :: b', z :: c', w :: d' => (x, y, z, w) :: zip4 a' b' c' d'
  | _, _, _, _ => []
  end.

Definition zip_args (a b c d : option (list string))
  : result (list (string * string * string * string)) :=
  a' <~ of_option TypeError a ;;
  b' <~ of_option TypeError b ;;
  c' <~ of_option TypeError c ;;
  d' <~ of_option TypeError d ;;
  Ok (zip4 a' b' c' d').

(** [d[key] = value] on a dictionary in insertion order: a key that is
    present keeps its place and takes the new value. *)
Fixpoint dict_set {A} (d : list (string * A)) (key : string) (value : A)
  : list (string * A) :=
  match d with
  | [] => [(key, value)]
  | (k, v) :: d' =>
      if String.eqb k key then (k, value) :: d'
      else (k, v) :: dict_set d' key value
  end.

Fixpoint dict_get {A} (d : list (string * A)) (key : string) : option A :=
  match d with
  | [] => None
  | (k, v) :: d' => if String.eqb k key then Some v else dict_get d' key
  end.

(** Lines 179-182: the dictionary comprehension over the test sets. *)
Fixpoint parse_test_sets (ty : type_params_t)
    (test_sets : list (string * string * string * string))
    (test_dic : list (string * parsed F))
  : M (list (string * parsed F)) :=
  match test_sets with
  | [] => ret test_dic
  | (name, test_dti, test_drug, test_protein) :: rest =>
      data <- parse_data test_dti test_drug test_protein
                (ty_drug_vecs ty) (ty_drug_lens ty) (ty_prot_vec ty)
                (ty_prot_len ty) true ;;
      parse_test_sets ty rest (dict_set test_dic name data)
  end.

Definition get_params (args : Args F)
  : M (parsed F * list (string * parsed F) * train_params_t * type_params_t
       * model_params_t F * option string) :=
  let train_params :=
    {| tp_n_epoch := n_epoch args; tp_batch_size := batch_size args |} in
  let type_params :=
    {| ty_drug_vecs := drug_vecs args; ty_drug_lens := drug_lens args;
       ty_prot_vec := prot_vec args; ty_prot_len := prot_len args |} in
  dl <- lift (parse_layers_list (drug_layers_list args)) ;;
  pl <- lift (parse_layers_list (protein_layers_list args)) ;;
  fl <- lift (parse_layers_list (fc_layers_list args)) ;;
  let model_params :=
    {| mp_drug_layers_list := dl;
       mp_protein_layers_list := pl;
       mp_fc_layers_list := fl;
       mp_learning_rate := learning_rate args;
       mp_decay := decay args;
       mp_activation := activation args;
       mp_dropout := dropout args;
       mp_model_output := model_output args;
       mp_type := type_params |} in
  let output_file := output args in
  print_parameter_summary "Model parameters" (model_items model_params) ;;;
  train_dic <- parse_data (dti_dir args) (drug_dir args) (protein_dir args)
                 (ty_drug_vecs type_params) (ty_drug_lens type_params)
                 (ty_prot_vec type_params) (ty_prot_len type_params)
                 (parsing_train args) ;;
  test_sets <- lift (zip_args (test_name args) (test_dti_dir args)
                       (test_drug_dir args) (test_protein_dir args)) ;;
  test_dic <- parse_test_sets type_params test_sets [] ;;
  ret (train_dic, test_dic, train_params, type_params, model_params,
       output_file).

End Builder.

(** ** The result writer *)

(** A numpy array as the model returns it: its shape and its elements in
    row-major order. *)
Record array (V : Type) : Type := {
  shape : list nat;
  data : list V;
}.
Arguments shape {V} a.
Arguments data {V} a.

(** One test set's entry of what [predict] returns. *)
Record prediction (V : Type) : Type := {
  predicted : array V;
  plabel : array V;
}.
Arguments predicted {V} p.
Arguments plabel {V} p.

(** A column label: a position, or a tuple of two strings. *)
Inductive col_label : Set :=
| LPos (n : nat)
| LPair (a b : string).

Global Instance col_label_eq_dec : EqDecision col_label.
Proof. solve_decision. Defined.

(** A pandas data frame on the default row index [0 .. nrows-1]: its
    columns in order, each with [nrows] cells; a cell without a value is
    NaN. *)
Record frame (V : Type) : Type := {
  nrows : nat;
  columns : list (col_label * list (option V));
}.
Arguments nrows {V} f.
Arguments columns {V} f.

Section Frames.
Context {V : Type}.

(** [np.squeeze(a)]: the axes of length one are dropped. *)
Definition np_squeeze (a : array V) : array V :=
  {| shape := filter (fun d => d ≠ 1%nat) (shape a); data := data a |}.

(** [pd.DataFrame()] *)
Definition empty_frame : frame V := {| nrows := 0; columns := [] |}.

Fixpoint set_column (cols : list (col_label * list (option V)))
    (key : col_label) (col : list (option V))
  : list (col_label * list (option V)) :=
  match cols with
  | [] => [(key, col)]
  | (k, c) :: cols' =>
      if decide (k = key) then (k, col) :: cols'
      else (k, c) :: set_column cols' key col
  end.

Definition pad (n : nat) (col : list (option V)) : list (option V) :=
  (col ++ replicate (n - length col) None)%list.

(** [df[key] = value] for an array: a zero-dimensional array fills the
    column, as current pandas does; a one-dimensional array gives the
    frame its rows when the frame has none, and otherwise must have as
    many elements as the frame has rows; an array of more dimensions is
    refused. *)
Definition frame_setitem (df : frame V) (key : col_label) (value : array V)
  : result (frame V) :=
  match shape value, data value with
  | [], [x] =>
      Ok {| nrows := nrows df;
            columns := set_column (columns df) key
                         (replicate (nrows df) (Some x)) |}
  | [n], d =>
      if Nat.eqb (nrows df) 0 && negb (Nat.eqb n 0) then
        Ok {| nrows := n;
              columns := set_column ((fun kc => (kc.1, pad n kc.2))
                                       <$> columns df) key (Some <$> d) |}
      else if Nat.eqb n (nrows df) then
        Ok {| nrows := nrows df;
              columns := set_column (columns df) key (Some <$> d) |}
      else Raise ValueError
  | _, _ => Raise ValueError
  end.

Fixpoint renumber (i : nat) (cols : list (col_label * list (option V)))
  : list (col_label * list (option V)) :=
  match cols with
  | [] => []
  | (_, c) :: cols' => (LPos i, c) :: renumber (S i) cols'
  end.

(** [pd.concat([a, b], ignore_index=True, axis=1)]: the columns of [a]
    then those of [b], renumbered from zero, on the union of the two
    row indexes. *)
Definition concat_columns (a b : frame V) : frame V :=
  let n := Nat.max (nrows a) (nrows b) in
  {| nrows := n;
     columns := renumber 0 ((fun kc => (kc.1, pad n kc.2))
                              <$> (columns a ++ columns b)%list) |}.

(** [df.columns = pd.MultiIndex.from_tuples(tuples)]: an empty list of
    tuples is refused, and so is a list of another length than the
    frame has columns. *)
Definition set_columns (df : frame V) (tuples : list (string * string))
  : result (frame V) :=
  match tuples with
  | [] => Raise TypeError
  | _ =>
      if Nat.eqb (length tuples) (length (columns df)) then
        Ok {| nrows := nrows df;
              columns := zip_with (fun t kc => (LPair t.1 t.2, kc.2))
                           tuples (columns df) |}
      else Raise ValueError
  end.

(** Lines 211-221: the loop over the predicted test sets. *)
Fixpoint collect_results (test_predicted : list (string * prediction V))
    (result_df : frame V) (result_columns : list (string * string))
  : result (frame V * list (string * string)) :=
  match test_predicted with
  | [] => Ok (result_df, result_columns)
  | (dataset, p) :: rest =>
      let value := np_squeeze (predicted p) in
      let temp_df := empty_frame in
      temp_df <~ frame_setitem temp_df (LPair dataset "predicted") value ;;
      temp_df <~ frame_setitem temp_df (LPair dataset "label")
                   (np_squeeze (plabel p)) ;;
      let result_df := concat_columns result_df temp_df in
      collect_results rest result_df
        (result_columns ++ [(dataset, "predicted"); (dataset, "label")])%list
  end.
End Frames.

(** The model orchestrator: an object with [fit] and [predict], defined
    outside this file.  [fit] may change the object. *)
Class Orchestrator `{P : Platform} : Type := {
  Model : Type;
  V : Type;
  model_fit : Model -> parsed F -> Z -> Z -> result Model;
  model_predict : Model -> list (string * parsed F)
                  -> result (list (string * prediction V));
}.

Section Writer.
Context `{O : Orchestrator}.
Local Abbreviation M := (M (frame V)).

(** [result_df.to_csv(output_file, index=False)] *)
Definition to_csv (df : frame V) (path : string) : M unit :=
  emit (EWrite path df).

(** [if output_file:] holds for a string that is not empty. *)
Definition given (output_file : option string) : bool :=
  match output_file with
  | None => false
  | Some s => truthy s
  end.

(** ['Prediction is completed.\n'] *)
Definition completed_line : string :=
  "Prediction is completed." +:+ String "010"%char "".

Definition run_prediction (dti_prediction_model : Model)
    (train_params : train_params_t) (output_file : option string)
    (train_dic : parsed F) (test_dic : list (string * parsed F)) : M unit :=
  print "Prediction" ;;;
  fitted <- lift (model_fit dti_prediction_model train_dic
                    (tp_n_epoch train_params) (tp_batch_size train_params)) ;;
  test_predicted <- lift (model_predict fitted test_dic) ;;
  res <- lift (collect_results test_predicted empty_frame []) ;;
  print completed_line ;;;
  match output_file with
  | Some path =>
      if truthy path then
        print ("save to " +:+ path) ;;;
        result_df <- lift (set_columns res.1 res.2) ;;
        to_csv result_df path
      else ret tt
  | None => ret tt
  end.
End Writer.

(** ** Specification vocabulary *)

(** The entry of a label in a column: the last one, when the label
    repeats. *)
Fixpoint entry_of {A} (s : list (string * A)) (key : string) : option A :=
  match s with
  | [] => None
  | (k, v) :: s' =>
      match entry_of s' key with
      | Some v' => Some v'
      | None => if decide (k = key) then Some v else None
      end
  end.

(** A computation that raises on every trace. *)
Definition fails {T A} (m : M T A) : Prop :=
  forall tr, exists e tr', m tr = (Raise e, tr').

(** A string of decimal digits. *)
Fixpoint all_digits (s : string) : bool :=
  match s with
  | EmptyString => true
  | String c s' => bool_decide (is_Some (digit_of c)) && all_digits s'
  end.

(** Layer sizes written the way the command line takes them: decimal
    numbers with commas between them. *)
Definition render_layers (sizes : list nat) : string :=
  str_join COMMA (pretty <$> sizes).

(** The feature-type descriptor [get_params] builds from the arguments. *)
Definition type_params_of {F} (args : Args F) : type_params_t :=
  {| ty_drug_vecs := drug_vecs args; ty_drug_lens := drug_lens args;
     ty_prot_vec := prot_vec args; ty_prot_len := prot_len args |}.

(** The length of the shortest of four lists. *)
Definition shortest {A B C D} (a : list A) (b : list B) (c : list C)
    (d : list D) : nat :=
  length a `min` (length b `min` (length c `min` length d)).

(** The dictionary that setting the pairs, in order, makes of [acc]. *)
Definition dict_of {A} (acc pairs : list (string * A)) : list (string * A) :=
  foldl (fun d p => dict_set d p.1 p.2) acc pairs.

Section Vocabulary.
Context `{P : Platform}.

(** [vec] is the vector of the entity [key row] names: the text of its
    entry in the column [col] of the table, split at tabs and read as
    floats by [conv]. *)
Definition decoded_row (df : gmap string (Series F)) (col : string)
    (conv : string -> option F) (key : interaction F -> string)
    (row : interaction F) (vec : list F) : Prop :=
  exists series s,
    df !! col = Some series /\
    entry_of series (key row) = Some (CStr s) /\
    mapM conv (str_split TAB s) = Some vec.

(** The feature array of a column: one decoded row per interaction
    row, in the order of the interaction table. *)
Definition decoded_array (df : gmap string (Series F)) (col : string)
    (conv : string -> option F) (key : interaction F -> string)
    (dti_df : dti_frame F) (arr : ndarray) : Prop :=
  Forall2 (decoded_row df col conv key) (rows dti_df) arr.

(** An identifier is in a table when some column has an entry for it. *)
Definition in_table (df : gmap string (Series F)) (id : string) : Prop :=
  exists col series, df !! col = Some series /\ id ∈ series.*1.

(** The sum of a column of integers and truth values. *)
Definition int_total (cells : list (label_cell F)) : Z :=
  foldr (fun cell total =>
           match cell with
           | LInt z => z + total
           | LBool b => Z.b2z b + total
           | _ => total
           end) 0 cells.

(** The events of a parse that gets to its end, on a table whose
    labels are integers or truth values. *)
Definition parse_events {T} (dti_dir drug_dir protein_dir : string)
    (dti_df : dti_frame F) : list (event T) :=
  [ EPrint (parsing_line dti_dir drug_dir);
    ERead dti_dir; ERead drug_dir; ERead protein_dir;
    EPrint (positive_line (int_total (Label <$> rows dti_df)));
    EPrint (negative_line (Z.of_nat (length (rows dti_df))
                           - int_total (Label <$> rows dti_df))) ].

(** Every cell of the column is text. *)
Definition text_column (series : Series F) : Prop :=
  Forall (fun kc => exists s, kc.2 = CStr s) series.

(** Every cell of the column is text whose fields [float] reads. *)
Definition float_column (series : Series F) : Prop :=
  Forall (fun kc => exists s, kc.2 = CStr s /\
                      is_Some (mapM py_float (str_split TAB s))) series.

(** [arr] is the drug feature array of the feature name [drug_vec]. *)
Definition drug_array_of (dti_df : dti_frame F)
    (drug_df : gmap string (Series F)) (drug_vec : string) (arr : ndarray)
  : Prop :=
  (exists series, drug_df !! drug_vec = Some series /\ text_column series) /\
  decoded_array drug_df drug_vec np_float64 Compound_ID dti_df arr /\
  rectangular arr = true.

(** [arr] is the protein feature array of the feature name [prot_vec]. *)
Definition protein_array_of (dti_df : dti_frame F)
    (protein_df : gmap string (Series F)) (prot_vec : string) (arr : ndarray)
  : Prop :=
  (exists series, protein_df !! prot_vec = Some series /\ float_column series) /\
  decoded_array protein_df prot_vec py_float Protein_ID dti_df arr /\
  rectangular arr = true.

Context {T : Type}.

(** One parse per test set, in order, each under its name. *)
Fixpoint parse_each (ty : type_params_t)
    (test_sets : list (string * string * string * string))
  : M T (list (string * parsed F)) :=
  match test_sets with
  | [] => ret []
  | (name, test_dti, test_drug, test_protein) :: rest =>
      data <- parse_data test_dti test_drug test_protein
                (ty_drug_vecs ty) (ty_drug_lens ty) (ty_prot_vec ty)
                (ty_prot_len ty) true ;;
      others <- parse_each ty rest ;;
      ret ((name, data) :: others)
  end.
End Vocabulary.

Section TableVocabulary.
Context {V : Type}.

(** An array that squeezes to one dimension of [n] elements. *)
Definition column_like (a : array V) (n : nat) : Prop :=
  shape (np_squeeze a) = [n] /\ length (data a) = n.

(** The two arrays of a test set squeeze to columns of one length. *)
Definition well_shaped (p : prediction V) : Prop :=
  exists n, column_like (predicted p) n /\ column_like (plabel p) n.

(** The number of rows of the longest test set. *)
Definition most_rows (ps : list (string * prediction V)) : nat :=
  foldr (fun np n => Nat.max (length (data (predicted np.2))) n) 0%nat ps.

(** The wide table: for every test set, in order, its predicted column
    and its label column, named by the test set and the kind, each
    filled up with cells without a value to the longest column. *)
Definition wide_table (ps : list (string * prediction V)) : frame V :=
  {| nrows := most_rows ps;
     columns :=
       ps ≫= fun np =>
         [ (LPair np.1 "predicted",
            pad (most_rows ps) (Some <$> data (predicted np.2)));
           (LPair np.1 "label",
            pad (most_rows ps) (Some <$> data (plabel np.2))) ] |}.

(** The columns of the wide table without their names, on [n] rows. *)
Definition wide_contents (n : nat) (ps : list (string * prediction V))
  : list (list (option V)) :=
  ps ≫= fun np => [ pad n (Some <$> data (predicted np.2));
                    pad n (Some <$> data (plabel np.2)) ].

(** The names of the columns of the wide table. *)
Definition wide_names (ps : list (string * prediction V))
  : list (string * string) :=
  ps ≫= fun np => [ (np.1, "predicted"); (np.1, "label") ].

(** Every column has as many cells as the frame has rows. *)
Definition frame_wf (df : frame V) : Prop :=
  Forall (fun c => length c = nrows df) (columns df).*2.

(** What the writer prints and writes after the prediction, for the
    output path it was given. *)
Definition save_events (output_file : option string) (table : frame V)
  : list (event (frame V)) :=
  match output_file with
  | Some path =>
      if truthy path then [EPrint ("save to " +:+ path); EWrite path table]
      else []
  | None => []
  end.
End TableVocabulary.

(** ** Fixtures: a platform with the files in memory *)

(** Floats are integers here, read from decimal text; [str] is not
    needed by any example. *)
Definition mem_platform (dtis : gmap string (dti_frame Z))
    (tables : gmap string (gmap string (Series Z))) : Platform :=
  {| F := Z;
     np_float64 := conv_int;
     py_float := conv_int;
     float_literal := fun _ => 0;
     float_add := Z.add;
     float_sub := Z.sub;
     float_of_int := fun z => z;
     float_trunc := Whole;
     py_str := fun _ => "";
     read_dti := fun path => of_option FileNotFoundError (dtis !! path);
     read_indexed := fun path _ => of_option FileNotFoundError (tables !! path) |}.

Definition tab_sep (a b : string) : string := a +:+ String TAB b.

Definition row {F} (drug protein : string) (l : label_cell F) : interaction F :=
  {| Compound_ID := drug; Protein_ID := protein; Label := l |}.

(** A table with the column [Label]. *)
Definition labelled {F} (l : list (interaction F)) : dti_frame F :=
  {| rows := l; has_Label := true |}.

Definition demo_dti : dti_frame Z :=
  labelled [row "A" "X" (LInt 1); row "B" "X" (LInt 0)].

Definition demo_drugs : gmap string (Series Z) :=
  {[ "fp1" := [("A", CStr (tab_sep "1" "2")); ("B", CStr (tab_sep "3" "4"))];
     "fp2" := [("A", CStr (tab_sep "5" "6")); ("B", CStr (tab_sep "7" "8"))] ]}.

Definition demo_proteins : gmap string (Series Z) :=
  {[ "seq" := [("X", CStr (tab_sep "7" (tab_sep "8" "9")))] ]}.

Definition demo : Platform :=
  mem_platform {[ "dti.csv" := demo_dti ]}
    {[ "drug.csv" := demo_drugs; "protein.csv" := demo_proteins ]}.

(** An interaction table that names a drug and a protein no table has. *)
Definition stray_dti : dti_frame Z := labelled [row "Z" "Q" (LInt 1)].

Definition stray : Platform :=
  mem_platform {[ "dti.csv" := stray_dti ]}
    {[ "drug.csv" := demo_drugs; "protein.csv" := demo_proteins ]}.




(** The drug table with one more drug, in no interaction, whose text is
    not a number. *)
Definition odd_drugs : gmap string (Series Z) :=
  {[ "fp1" := [("A", CStr (tab_sep "1" "2")); ("B", CStr (tab_sep "3" "4"));
               ("C", CStr "abc")] ]}.

Definition odd : Platform :=
  mem_platform {[ "dti.csv" := demo_dti ]}
    {[ "drug.csv" := odd_drugs; "protein.csv" := demo_proteins ]}.

(** The parsed training data of [demo], and parameter groups. *)
Definition demo_train : parsed Z :=
  {| features := [[[1; 2]; [3; 4]]; [[7; 8; 9]; [7; 8; 9]]];
     label := [LInt 1; LInt 0] |}.

Definition demo_train_params : train_params_t :=
  {| tp_n_epoch := 10; tp_batch_size := 32 |}.

Definition demo_type_params : type_params_t :=
  {| ty_drug_vecs := ["fp1"]; ty_drug_lens := None; ty_prot_vec := "seq";
     ty_prot_len := 2500 |}.

Definition demo_model_params : model_params_t Z :=
  {| mp_drug_layers_list := [[100; 50; 10]];
     mp_protein_layers_list := [[8]];
     mp_fc_layers_list := [[4; 2]; [2]];
     mp_learning_rate := 0; mp_decay := 0; mp_activation := None;
     mp_dropout := 0; mp_model_output := None;
     mp_type := demo_type_params |}.

(** Arguments over the files of [demo], with the test-set lists left
    open. *)
Definition demo_args (names dtis drugs prots : option (list string)) : Args Z :=
  {| dti_dir := "dti.csv"; drug_dir := "drug.csv";
     protein_dir := "protein.csv"; parsing_train := true;
     test_name := names; test_dti_dir := dtis; test_drug_dir := drugs;
     test_protein_dir := prots; with_label := None;
     drug_vecs := ["fp1"]; drug_lens := None;
     drug_layers_list := Some ["100,50,10"];
     prot_vec := "seq"; prot_len := 2500;
     protein_layers_list := Some ["8"];
     fc_layers_list := Some ["4,2"; "2"];
     learning_rate := 0; n_epoch := 10; activation := None; dropout := 0;
     batch_size := 32; decay := 0; validation := false; predict := true;
     model_output := None; output := None |}.

(** Test-set lists of three, two, three and two entries. *)
Definition uneven_args : Args Z :=
  demo_args (Some ["t"; "u"; "v"]) (Some ["dti.csv"; "dti.csv"])
    (Some ["drug.csv"; "drug.csv"; "x"]) (Some ["protein.csv"; "protein.csv"]).

(** A command line with the three positional words only, and the
    namespace it parses to. *)
Definition bare_cmd : cmdline :=
  {| positionals := ["dti.csv"; "drug.csv"; "protein.csv"];
     options := ∅; switches := [] |}.

Definition bare_args : Args Z :=
  {| dti_dir := "dti.csv"; drug_dir := "drug.csv";
     protein_dir := "protein.csv"; parsing_train := true;
     test_name := None; test_dti_dir := None; test_drug_dir := None;
     test_protein_dir := None; with_label := None;
     drug_vecs := []; drug_lens := None; drug_layers_list := None;
     prot_vec := ""; prot_len := 2500;
     protein_layers_list := None; fc_layers_list := None;
     learning_rate := 0; n_epoch := 10; activation := None; dropout := 0;
     batch_size := 32; decay := 0; validation := false; predict := false;
     model_output := None; output := None |}.

(** One-dimensional arrays and arrays of one column. *)
Definition flat (l : list Z) : array Z := {| shape := [length l]; data := l |}.

Definition column (l : list Z) : array Z :=
  {| shape := [length l; 1%nat]; data := l |}.

(** A model whose [predict] returns the given predictions. *)
Definition canned (preds : list (string * prediction Z))
  : Orchestrator (P := demo) :=
  {| Model := unit; V := Z;
     model_fit := fun m _ _ _ => Ok m;
     model_predict := fun _ _ => Ok preds |}.

(** Two test sets of two and three rows; a test set whose arrays
    differ in length. *)
Definition two_sets : list (string * prediction Z) :=
  [ ("A", {| predicted := column [10; 90]; plabel := flat [0; 1] |});
    ("B", {| predicted := column [20; 30; 40]; plabel := flat [0; 0; 1] |}) ].

Definition uneven : list (string * prediction Z) :=
  [ ("A", {| predicted := flat [10; 90]; plabel := flat [0; 1; 1] |}) ].

(** ** The validation runner *)

(** A keyword argument of [validation]: a parameter the summary prints,
    the features or the labels of the training data, or the parsed data
    of a test set. *)
Inductive kwarg (F : Type) : Type :=
| KVal (v : pyval F)
| KFeatures (fs : list (list (list F)))
| KLabel (l : list (label_cell F))
| KData (d : parsed F).
Arguments KVal {F} v.
Arguments KFeatures {F} fs.
Arguments KLabel {F} l.
Arguments KData {F} d.

(** The model orchestrator's [validation], defined outside this file:
    it takes the keyword arguments in the order of the dictionary, and
    what it returns is dropped. *)
Class Validator `{O : Orchestrator} : Type := {
  model_validation : Model -> list (string * kwarg F) -> result unit;
}.

(** [d.update(other)]: the items of [other] set one after the other. *)
Definition dict_update {A} (d other : list (string * A)) : list (string * A) :=
  foldl (fun d kv => dict_set d kv.1 kv.2) d other.

Section Validation.
Context `{W : Validator} {T : Type}.

(** [train_params.items()] *)
Definition train_params_items (train_params : train_params_t)
  : list (string * pyval F) :=
  [ ("n_epoch", PInt (tp_n_epoch train_params));
    ("batch_size", PInt (tp_batch_size train_params)) ].

(** The items of the mapping [parse_data] returns. *)
Definition parsed_items (d : parsed F) : list (string * kwarg F) :=
  [ ("features", KFeatures (features d)); ("label", KLabel (label d)) ].

(** ['Validation is completed.\n'] *)
Definition validation_completed_line : string :=
  "Validation is completed." +:+ String "010"%char "".

Definition run_validation (dti_prediction_model : Model)
    (train_params : train_params_t) (output_file : option string)
    (train_dic : parsed F) (test_dic : list (string * parsed F)) : M T unit :=
  print "Validation" ;;;
  let validation_params := [] in
  let validation_params :=
    dict_update validation_params (train_params_items train_params) in
  let validation_params :=
    dict_set validation_params "output_file" (p_opt PStr output_file) in
  print_parameter_summary "Validation parameters" validation_params ;;;
  let validation_params :=
    (fun kv => (kv.1, KVal kv.2)) <$> validation_params in
  let validation_params :=
    dict_update validation_params (parsed_items train_dic) in
  let validation_params :=
    dict_update validation_params
      ((fun nd => (nd.1, KData nd.2)) <$> test_dic) in
  lift (model_validation dti_prediction_model validation_params) ;;;
  print validation_completed_line.
End Validation.

(** ** Further vocabulary *)

(** The line the summary prints for one parameter. *)
Definition summary_item_line `{P : Platform} (kv : string * pyval F) : string :=
  ljust 20 kv.1 +:+ " : " +:+ ljust 10 (py_str kv.2).

(** The lines of a parameter summary. *)
Definition summary_lines `{P : Platform} (target : string)
    (params : list (string * pyval F)) : list string :=
  ([rule; target +:+ " summary"; rule]
     ++ (summary_item_line <$> params) ++ [rule])%list.

(** The model parameters of the arguments, for the parsed layer lists. *)
Definition model_params_of {F} (args : Args F) (dl pl fl : list (list Z))
  : model_params_t F :=
  {| mp_drug_layers_list := dl;
     mp_protein_layers_list := pl;
     mp_fc_layers_list := fl;
     mp_learning_rate := learning_rate args;
     mp_decay := decay args;
     mp_activation := activation args;
     mp_dropout := dropout args;
     mp_model_output := model_output args;
     mp_type := type_params_of args |}.

(** The members of a list without repetition, each at the place where
    it occurs first. *)
Fixpoint first_occurrences (l : list string) : list string :=
  match l with
  | [] => []
  | x :: l' => x :: filter (fun y => y ≠ x) (first_occurrences l')
  end.

(** The events before the features are built: the line that announces
    the parse, and the three reads. *)
Definition read_events {T} (dti_dir drug_dir protein_dir : string)
  : list (event T) :=
  [ EPrint (parsing_line dti_dir drug_dir);
    ERead dti_dir; ERead drug_dir; ERead protein_dir ].

(** The keyword arguments [run_validation] sets before the test sets. *)
Definition reserved_keys : list string :=
  ["n_epoch"; "batch_size"; "output_file"; "features"; "label"].

(** ** Further fixtures *)

(** A drug table with a column in which the cell of the drug C is
    missing, which pandas reads as a number, and a column with vectors
    of two lengths. *)
Definition faulty_drugs : gmap string (Series Z) :=
  {[ "gap" := [("A", CStr (tab_sep "1" "2")); ("B", CStr (tab_sep "3" "4"));
               ("C", CNum 0)];
     "ragged" := [("A", CStr (tab_sep "1" "2")); ("B", CStr "3")] ]}.

Definition faulty : Platform :=
  mem_platform {[ "dti.csv" := demo_dti ]}
    {[ "drug.csv" := faulty_drugs; "protein.csv" := demo_proteins ]}.

(** A command line over the files of [demo] with one test set and the
    layer strings, to which [extra] adds options, and the namespace it
    parses to for a choice of the parsing switch, the drug feature names
    and the number of epochs. *)
Definition base_options : gmap string (list string) :=
  {[ "test_name" := ["t"]; "test_dti_dir" := ["dti.csv"];
     "test_drug_dir" := ["drug.csv"]; "test_protein_dir" := ["protein.csv"];
     "drug_layers_list" := ["100,50,10"]; "protein_layers_list" := ["8"];
     "fc_layers_list" := ["4,2"; "2"]; "prot_vec" := ["seq"] ]}.

Definition custom_cmd (extra : gmap string (list string)) : cmdline :=
  {| positionals := ["dti.csv"; "drug.csv"; "protein.csv"];
     options := extra ∪ base_options; switches := [] |}.

Definition custom_args (pt : bool) (vecs : list string) (ne : Z) : Args Z :=
  {| dti_dir := "dti.csv"; drug_dir := "drug.csv";
     protein_dir := "protein.csv"; parsing_train := pt;
     test_name := Some ["t"]; test_dti_dir := Some ["dti.csv"];
     test_drug_dir := Some ["drug.csv"];
     test_protein_dir := Some ["protein.csv"]; with_label := None;
     drug_vecs := vecs; drug_lens := None;
     drug_layers_list := Some ["100,50,10"];
     prot_vec := "seq"; prot_len := 2500;
     protein_layers_list := Some ["8"];
     fc_layers_list := Some ["4,2"; "2"];
     learning_rate := 0; n_epoch := ne; activation := None; dropout := 0;
     batch_size := 32; decay := 0; validation := false; predict := false;
     model_output := None; output := None |}.

(** A validation that accepts every call, on a model that predicts
    nothing. *)
Definition accepting : Validator (O := canned []) :=
  {| model_validation := fun _ _ => Ok tt |}.

(** * Properties *)

(** ** Strings and integers on examples *)

Example str_split_tab : str_split TAB (tab_sep "1" "2") = ["1"; "2"].
Proof. reflexivity. Qed.

Example str_split_empty : str_split TAB "" = [""].
Proof. reflexivity. Qed.

Example int_examples :
  int "100" = Ok 100 /\ int " -7 " = Ok (-7) /\ int "1_000" = Ok 1000 /\
  int "" = Raise ValueError /\ int "1__0" = Raise ValueError /\
  int "5_" = Raise ValueError /\ int "1.5" = Raise ValueError.
Proof. repeat split; reflexivity. Qed.

(** A vertical tab and a no-break space before a number are skipped, a
    file separator is not. *)
Example int_white_space :
  int (String "011" "12") = Ok 12 /\ int (String "160" "12") = Ok 12 /\
  int (String "028" "12") = Raise ValueError.
Proof. repeat split; reflexivity. Qed.

(** ** Results, the effect monad and lists *)

Lemma rbind_Ok {A B} (r : result A) (k : A -> result B) b :
  rbind r k = Ok b <-> exists a, r = Ok a /\ k a = Ok b.
Proof.
  destruct r as [a|e]; simpl; split.
  - eauto.
  - by intros (a' & [= <-] & ?).
  - done.
  - by intros (a' & ? & ?).
Qed.

Lemma Forall2_equiv {A B} (R R' : A -> B -> Prop) l k :
  (forall x y, R x y <-> R' x y) -> Forall2 R l k <-> Forall2 R' l k.
Proof. intros HR. split; apply Forall2_impl; intros x y; apply HR. Qed.

Lemma of_option_Ok {A} e (o : option A) a : of_option e o = Ok a <-> o = Some a.
Proof. destruct o; simpl; split; congruence. Qed.

Lemma rmap_Ok {A B} (f : A -> result B) l ys :
  rmap f l = Ok ys <-> Forall2 (fun x y => f x = Ok y) l ys.
Proof.
  revert ys. induction l as [|x l IH]; intros ys; simpl.
  - split; [intros [= <-]; constructor | by inversion 1].
  - rewrite rbind_Ok. split.
    + intros (y & Hx & Hr). apply rbind_Ok in Hr as (ys' & Hl & [= <-]).
      constructor; [done|by apply IH].
    + intros (y & ys' & Hx & Hl & ->)%Forall2_cons_inv_l.
      exists y. split; [done|]. apply IH in Hl. by rewrite Hl.
Qed.

Lemma rmap_of_option {A B} e (f : A -> option B) l ys :
  rmap (fun x => of_option e (f x)) l = Ok ys <-> mapM f l = Some ys.
Proof.
  rewrite rmap_Ok, mapM_Some. apply Forall2_equiv; intros x y.
  apply of_option_Ok.
Qed.

Lemma Forall2_split {A B C} (R : A -> C -> Prop) (Q : A -> B -> Prop)
    (S : B -> C -> Prop) l k :
  (forall x z, R x z -> exists y, Q x y /\ S y z) ->
  Forall2 R l k -> exists m, Forall2 Q l m /\ Forall2 S m k.
Proof.
  intros HR. induction 1 as [|x z l k Hxz _ (m & Hq & Hs)].
  - exists []. by split.
  - destruct (HR x z Hxz) as (y & ? & ?). exists (y :: m).
    split; by constructor.
Qed.

Section MonadFacts.
Context {T : Type}.
Implicit Types tr : list (event T).

Lemma bind_Ok {A B} (m : M T A) (k : A -> M T B) tr b tr' :
  bind m k tr = (Ok b, tr') <->
  exists a tr1, m tr = (Ok a, tr1) /\ k a tr1 = (Ok b, tr').
Proof.
  unfold bind. destruct (m tr) as [[a|e] tr1]; split.
  - eauto.
  - by intros (a' & tr1' & [= <- <-] & ?).
  - done.
  - by intros (a' & tr1' & [=] & _).
Qed.

Lemma lift_Ok {A} (r : result A) tr a tr' :
  lift r tr = (Ok a, tr') <-> r = Ok a /\ tr' = tr.
Proof. unfold lift. split; [by intros [= -> ->]|by intros [-> ->]]. Qed.

Lemma ret_Ok {A} (x : A) tr a tr' :
  ret x tr = (Ok a, tr') <-> a = x /\ tr' = tr.
Proof. unfold ret. split; [by intros [= -> ->]|by intros [-> ->]]. Qed.

Lemma fails_raise {A} e : fails (lift (T := T) (A := A) (Raise e)).
Proof. intros tr. by exists e, tr. Qed.

Lemma fails_bind_l {A B} (m : M T A) (k : A -> M T B) :
  fails m -> fails (bind m k).
Proof.
  intros Hm tr. destruct (Hm tr) as (e & tr' & Hrun).
  exists e, tr'. unfold bind. by rewrite Hrun.
Qed.

Lemma fails_bind_r {A B} (m : M T A) (k : A -> M T B) :
  (forall a, fails (k a)) -> fails (bind m k).
Proof.
  intros Hk tr. unfold bind. destruct (m tr) as [[a|e] tr1]; [|eauto].
  apply Hk.
Qed.
End MonadFacts.

(** ** Columns as dictionaries *)

Lemma fold_insert_lookup {A} (s : list (string * A)) (m : gmap string A) key :
  fold_left (fun d kv => <[kv.1 := kv.2]> d) s m !! key
  = match entry_of s key with Some v => Some v | None => m !! key end.
Proof.
  revert m. induction s as [|[k v] s IH]; intros m; simpl; [done|].
  rewrite IH. destruct (entry_of s key); [done|].
  destruct (decide (k = key)) as [->|Hne].
  - by rewrite lookup_insert_eq.
  - by rewrite lookup_insert_ne.
Qed.

Lemma entry_of_Some_elem {A} (s : list (string * A)) key v :
  entry_of s key = Some v -> key ∈ s.*1.
Proof.
  induction s as [|[k a] s IH]; simpl; [done|].
  destruct (entry_of s key) as [w|].
  - intros [= ->]. apply elem_of_cons. right. by apply IH.
  - destruct (decide (k = key)) as [->|]; [|done]. intros _.
    apply elem_of_cons. by left.
Qed.

Lemma entry_of_fmap {A B} (g : A -> B) (l : list (string * A)) key :
  entry_of ((fun kc => (kc.1, g kc.2)) <$> l) key = g <$> entry_of l key.
Proof.
  induction l as [|[k a] l IH]; [done|]. cbn. rewrite IH.
  destruct (entry_of l key); [done|]. by case_decide.
Qed.

Lemma entry_of_is_Some_Forall2 {A B} (R : A -> B -> Prop)
    (s : list (string * A)) (s' : list (string * B)) key :
  Forall2 (fun a b => a.1 = b.1 /\ R a.2 b.2) s s' ->
  is_Some (entry_of s key) <-> is_Some (entry_of s' key).
Proof.
  induction 1 as [|[k a] [k' b] s s' [Hk HR] _ IH]; simpl; [done|].
  simpl in Hk. subst k'.
  destruct (entry_of s key), (entry_of s' key), (decide (k = key));
    rewrite ?is_Some_alt in *; tauto.
Qed.

Lemma entry_of_Forall2 {A B} (R : A -> B -> Prop)
    (s : list (string * A)) (s' : list (string * B)) key v' :
  Forall2 (fun a b => a.1 = b.1 /\ R a.2 b.2) s s' ->
  entry_of s' key = Some v' ->
  exists v, entry_of s key = Some v /\ R v v'.
Proof.
  induction 1 as [|[k a] [k' b] s s' [Hk HR] Hs IH]; simpl; [done|].
  simpl in Hk, HR. subst k'.
  pose proof (entry_of_is_Some_Forall2 R s s' key Hs) as Hiff.
  destruct (entry_of s' key) as [w|] eqn:Hs'.
  - intros [= ->]. destruct IH as (v & -> & ?); eauto.
  - destruct (decide (k = key)); [|done]. intros [= ->].
    destruct (entry_of s key) as [v|] eqn:Hs0; [|eauto].
    destruct Hiff as [Hiff _]. destruct Hiff as [? [=]]. eauto.
Qed.

(** ** The feature arrays *)

Section FeatureArrays.
Context `{P : Platform}.

Lemma to_dict_lookup {A} (s : list (string * A)) key :
  to_dict s !! key = entry_of s key.
Proof.
  unfold to_dict. rewrite fold_insert_lookup, lookup_empty.
  by destruct (entry_of s key).
Qed.

Lemma series_map_Ok {A} (f : cell F -> result A) s out :
  series_map f s = Ok out <->
  Forall2 (fun a b => a.1 = b.1 /\ f a.2 = Ok b.2) s out.
Proof.
  unfold series_map. rewrite rmap_Ok. apply Forall2_equiv; intros [k c] [k' v]; simpl.
  rewrite rbind_Ok. split.
  - intros (a & Ha & [= <- <-]). done.
  - intros [-> Hf]. eauto.
Qed.

Lemma np_array_Ok {A} (conv : A -> option F) rows arr :
  np_array conv rows = Ok arr <->
  rectangular rows = true /\ mapM (mapM conv) rows = Some arr.
Proof.
  unfold np_array. destruct (rectangular rows); simpl.
  - rewrite of_option_Ok. split; [done|by intros [_ ?]].
  - split; [done|by intros [? _]].
Qed.

Lemma rectangular_lengths {A B} (rows : list (list A)) (arr : list (list B)) :
  Forall2 (fun x y => length x = length y) rows arr ->
  rectangular rows = rectangular arr.
Proof.
  destruct 1 as [|r a rows arr Hra Hrest]; [done|]. simpl. rewrite Hra.
  induction Hrest as [|r' a' rows arr Hra' _ IH]; [done|]. simpl.
  by rewrite Hra', IH.
Qed.

Lemma mapM_rows_lengths {A} (conv : A -> option F) rows arr :
  Forall2 (fun x y => mapM conv x = Some y) rows arr ->
  Forall2 (fun x y => length x = length y) rows arr.
Proof. apply Forall2_impl. intros x y. apply length_mapM. Qed.

Lemma drug_feature_decoded dti_df drug_df drug_vec arr :
  drug_feature dti_df drug_df drug_vec = Ok arr ->
  decoded_array drug_df drug_vec np_float64 Compound_ID dti_df arr.
Proof.
  unfold drug_feature, df_getitem.
  intros (col & Hcol%of_option_Ok & H)%rbind_Ok.
  apply rbind_Ok in H as (splits & Hsp%series_map_Ok & H).
  apply rbind_Ok in H as (found & Hrows%rmap_Ok & [_ Harr]%np_array_Ok).
  apply mapM_Some in Harr.
  unfold decoded_array.
  apply Forall2_fmap_l in Hrows.
  eapply Forall2_trans; [|exact Hrows|exact Harr].
  intros r strs vec Hget Hvec. unfold compose in Hget.
  apply of_option_Ok in Hget. rewrite to_dict_lookup in Hget.
  destruct (entry_of_Forall2 (fun c l => split_fp c = Ok l) col splits _ _ Hsp Hget)
    as (c & Hc & Hsplit).
  destruct c as [s|x]; simpl in Hsplit; [|done]. injection Hsplit as <-.
  exists col, s. done.
Qed.

Lemma protein_feature_decoded dti_df protein_df prot_vec arr :
  protein_feature dti_df protein_df prot_vec = Ok arr ->
  decoded_array protein_df prot_vec py_float Protein_ID dti_df arr.
Proof.
  unfold protein_feature, df_getitem.
  intros (col & Hcol%of_option_Ok & H)%rbind_Ok.
  apply rbind_Ok in H as (vecs & Hsp%series_map_Ok & H).
  apply rbind_Ok in H as (found & Hrows%rmap_Ok & [_ Harr]%np_array_Ok).
  apply mapM_Some in Harr.
  assert (found = arr) as ->.
  { clear -Harr. induction Harr as [|r a found arr Hr _ IH]; [done|].
    f_equal; [|done]. apply mapM_Some in Hr. clear -Hr.
    induction Hr; [done|]. simplify_eq. done. }
  unfold decoded_array.
  apply Forall2_fmap_l in Hrows.
  revert Hrows. apply Forall2_impl.
  intros r vec Hget. unfold compose in Hget.
  apply of_option_Ok in Hget. rewrite to_dict_lookup in Hget.
  destruct (entry_of_Forall2 (fun c l => floats_of_seq c = Ok l) col vecs
              _ _ Hsp Hget)
    as (c & Hc & Hdec).
  destruct c as [s|x]; simpl in Hdec; [|done].
  apply rmap_of_option in Hdec.
  exists col, s. done.
Qed.

Lemma drug_feature_sound dti_df drug_df drug_vec arr :
  drug_feature dti_df drug_df drug_vec = Ok arr ->
  drug_array_of dti_df drug_df drug_vec arr.
Proof.
  intros Hrun. split; [|split; [by apply drug_feature_decoded|]].
  - unfold drug_feature, df_getitem in Hrun.
    apply rbind_Ok in Hrun as (col & Hcol%of_option_Ok & H).
    apply rbind_Ok in H as (splits & Hsp%series_map_Ok & _).
    exists col. split; [done|]. unfold text_column.
    eapply Forall2_Forall_l; [exact Hsp|].
    apply Forall_true. intros [k' l] [k c] [_ Hc]. simpl in Hc |- *.
    destruct c; [eauto|done].
  - unfold drug_feature, df_getitem in Hrun.
    apply rbind_Ok in Hrun as (col & _ & H).
    apply rbind_Ok in H as (splits & _ & H).
    apply rbind_Ok in H as (found & _ & [Hrect Harr%mapM_Some]%np_array_Ok).
    rewrite <-Hrect. symmetry. apply rectangular_lengths.
    by eapply mapM_rows_lengths.
Qed.

Lemma protein_feature_sound dti_df protein_df prot_vec arr :
  protein_feature dti_df protein_df prot_vec = Ok arr ->
  protein_array_of dti_df protein_df prot_vec arr.
Proof.
  intros Hrun. split; [|split; [by apply protein_feature_decoded|]].
  - unfold protein_feature, df_getitem in Hrun.
    apply rbind_Ok in Hrun as (col & Hcol%of_option_Ok & H).
    apply rbind_Ok in H as (vecs & Hsp%series_map_Ok & _).
    exists col. split; [done|]. unfold float_column.
    eapply Forall2_Forall_l; [exact Hsp|].
    apply Forall_true. intros [k' l] [k c] [_ Hc]. simpl in Hc |- *.
    destruct c as [s|]; [|done]. exists s. split; [done|].
    cbn in Hc. apply rmap_of_option in Hc. eauto.
  - unfold protein_feature, df_getitem in Hrun.
    apply rbind_Ok in Hrun as (col & _ & H).
    apply rbind_Ok in H as (vecs & _ & H).
    apply rbind_Ok in H as (found & _ & [Hrect Harr%mapM_Some]%np_array_Ok).
    rewrite <-Hrect. symmetry. apply rectangular_lengths.
    by eapply mapM_rows_lengths.
Qed.

Lemma drug_feature_complete dti_df drug_df drug_vec arr :
  drug_array_of dti_df drug_df drug_vec arr ->
  drug_feature dti_df drug_df drug_vec = Ok arr.
Proof.
  intros ((series & Hcol & Htext) & Harr & Hrect).
  unfold drug_feature, df_getitem. rewrite Hcol. cbn [of_option rbind].
  set (g := fun c : cell F =>
              match c with CStr s => str_split TAB s | CNum _ => [] end).
  set (splits := (fun kc : string * cell F => (kc.1, g kc.2)) <$> series).
  assert (series_map split_fp series = Ok splits) as ->.
  { apply series_map_Ok. unfold splits. apply Forall2_fmap_r.
    apply Forall_Forall2_diag. revert Htext. apply Forall_impl.
    intros [k c] (s & Hs). simpl in Hs. subst c. done. }
  cbn [rbind].
  destruct (Forall2_split
              (decoded_row drug_df drug_vec np_float64 Compound_ID)
              (fun row strs => dict_getitem (to_dict splits) (Compound_ID row)
                               = Ok strs)
              (fun strs vec => mapM np_float64 strs = Some vec)
              (rows dti_df) arr) as (found & Hrows & Hvecs); [|exact Harr|].
  { intros row vec (series' & s & Hcol' & Hentry & Hvec).
    rewrite Hcol in Hcol'. injection Hcol' as <-.
    exists (str_split TAB s). split; [|done].
    unfold dict_getitem. rewrite to_dict_lookup. unfold splits.
    rewrite (entry_of_fmap g), Hentry. done. }
  assert (rmap (dict_getitem (to_dict splits)) (Compound_ID <$> rows dti_df)
          = Ok found) as ->.
  { apply rmap_Ok. by apply Forall2_fmap_l. }
  cbn [rbind]. apply np_array_Ok. split.
  - rewrite <-Hrect. apply rectangular_lengths.
    by eapply mapM_rows_lengths.
  - by apply mapM_Some.
Qed.

Lemma protein_feature_complete dti_df protein_df prot_vec arr :
  protein_array_of dti_df protein_df prot_vec arr ->
  protein_feature dti_df protein_df prot_vec = Ok arr.
Proof.
  intros ((series & Hcol & Htext) & Harr & Hrect).
  unfold protein_feature, df_getitem. rewrite Hcol. cbn [of_option rbind].
  set (g := fun c : cell F =>
              match c with
              | CStr s => default [] (mapM py_float (str_split TAB s))
              | CNum _ => []
              end).
  set (vecs := (fun kc : string * cell F => (kc.1, g kc.2)) <$> series).
  assert (series_map floats_of_seq series = Ok vecs) as ->.
  { apply series_map_Ok. unfold vecs. apply Forall2_fmap_r.
    apply Forall_Forall2_diag. revert Htext. apply Forall_impl.
    intros [k c] (s & Hs & [vec Hvec]). simpl in Hs. subst c.
    split; [done|]. cbn. apply rmap_of_option. by rewrite Hvec. }
  cbn [rbind].
  assert (rmap (dict_getitem (to_dict vecs)) (Protein_ID <$> rows dti_df)
          = Ok arr) as ->.
  { apply rmap_Ok, Forall2_fmap_l. revert Harr. apply Forall2_impl.
    intros row vec (series' & s & Hcol' & Hentry & Hvec).
    rewrite Hcol in Hcol'. injection Hcol' as <-.
    unfold compose, dict_getitem. rewrite to_dict_lookup. unfold vecs.
    rewrite (entry_of_fmap g), Hentry. cbn. by rewrite Hvec. }
  cbn [rbind]. apply np_array_Ok. split; [done|].
  apply mapM_Some. apply Forall_Forall2_diag, Forall_forall.
  intros vec _. apply mapM_Some. apply Forall_Forall2_diag, Forall_forall. done.
Qed.

Lemma decoded_array_row df col conv key dti_df arr row :
  decoded_array df col conv key dti_df arr ->
  row ∈ rows dti_df ->
  exists vec, decoded_row df col conv key row vec.
Proof.
  intros Harr (i & Hi)%list_elem_of_lookup.
  destruct (Forall2_lookup_l _ _ _ _ _ Harr Hi) as (vec & _ & ?). eauto.
Qed.

Lemma decoded_row_in_table df col conv key row vec :
  decoded_row df col conv key row vec -> in_table df (key row).
Proof.
  intros (series & s & Hcol & Hentry & _).
  exists col, series. split; [done|]. by eapply entry_of_Some_elem.
Qed.

Lemma series_map_floats_all col vecs id s :
  series_map floats_of_seq col = Ok vecs ->
  (id, CStr s) ∈ col ->
  is_Some (mapM py_float (str_split TAB s)).
Proof.
  intros Hmap%series_map_Ok (i & Hi)%list_elem_of_lookup.
  destruct (Forall2_lookup_l _ _ _ _ _ Hmap Hi) as ([k v] & _ & _ & Hv).
  simpl in Hv. apply rmap_of_option in Hv. eauto.
Qed.

Lemma feature_loop_Ok dti_df drug_df protein_df drug_vecs prot_vec acc fs :
  feature_loop dti_df drug_df protein_df drug_vecs prot_vec acc = Ok fs ->
  exists drug_arrays,
    Forall2 (fun v d => drug_feature dti_df drug_df v = Ok d)
      drug_vecs drug_arrays /\
    match drug_vecs with
    | [] => fs = acc
    | _ => exists p, protein_feature dti_df protein_df prot_vec = Ok p /\
                     fs = (acc ++ (drug_arrays ≫= fun d => [d; p]))%list
    end.
Proof.
  revert acc. induction drug_vecs as [|v vs IH]; intros acc; simpl.
  - intros [= <-]. exists []. split; [constructor|done].
  - intros (d & Hd & H)%rbind_Ok.
    apply rbind_Ok in H as (p & Hp & H).
    apply IH in H as (ds & Hds & Hfs).
    exists (d :: ds). split; [by constructor|].
    exists p. split; [done|]. simpl.
    destruct vs as [|v' vs'].
    + inversion Hds; subst. done.
    + destruct Hfs as (p' & Hp' & ->). rewrite Hp in Hp'.
      injection Hp' as <-. by rewrite <-app_assoc.
Qed.

Lemma feature_loop_complete dti_df drug_df protein_df drug_vecs prot_vec
    acc drug_arrays p :
  Forall2 (fun v d => drug_feature dti_df drug_df v = Ok d)
    drug_vecs drug_arrays ->
  protein_feature dti_df protein_df prot_vec = Ok p ->
  feature_loop dti_df drug_df protein_df drug_vecs prot_vec acc
  = Ok (acc ++ (drug_arrays ≫= fun d => [d; p]))%list.
Proof.
  intros Hds Hp. revert acc.
  induction Hds as [|v d vs ds Hd _ IH]; intros acc; simpl.
  - by rewrite app_nil_r.
  - rewrite Hd, Hp. simpl. rewrite IH. by rewrite <-app_assoc.
Qed.

Lemma interleaved_lookup_odd {A} (ds : list A) (p : A) i :
  (ds ≫= fun d => [d; p]) !! (2 * i + 1)%nat = (fun _ => p) <$> ds !! i.
Proof.
  revert i. induction ds as [|d ds IH]; intros i; [done|].
  destruct i as [|i]; [done|].
  replace (2 * S i + 1)%nat with (S (S (2 * i + 1))) by lia.
  simpl. apply IH.
Qed.

End FeatureArrays.

(** ** The parser *)

Section ParserClaims.
Context `{P : Platform} {T : Type}.
Implicit Types tr : list (event T).

Lemma parse_data_run dti_dir drug_dir protein_dir drug_vecs drug_lens
    prot_vec prot_len (tr : list (event T)) r tr' :
  parse_data dti_dir drug_dir protein_dir drug_vecs drug_lens prot_vec
    prot_len true tr = (Ok r, tr') <->
  exists dti_df drug_df protein_df fs total positive negative,
    read_dti dti_dir = Ok dti_df /\
    read_indexed drug_dir "Compound_ID" = Ok drug_df /\
    read_indexed protein_dir "Protein_ID" = Ok protein_df /\
    feature_loop dti_df drug_df protein_df drug_vecs prot_vec [] = Ok fs /\
    has_Label dti_df = true /\
    py_sum (Label <$> rows dti_df) = Ok total /\
    num_int total = Ok positive /\
    num_int (num_rsub (Z.of_nat (length (rows dti_df))) total) = Ok negative /\
    r = {| features := fs; label := Label <$> rows dti_df |} /\
    tr' = (tr ++ [ EPrint (parsing_line dti_dir drug_dir);
                   ERead dti_dir; ERead drug_dir; ERead protein_dir;
                   EPrint (positive_line positive);
                   EPrint (negative_line negative) ])%list.
Proof.
  unfold parse_data, read_csv, read_csv_indexed, print, emit, lift, bind, ret.
  simpl.
  destruct (read_dti dti_dir) as [dti_df|e1]; simpl.
  2: { split; [done|]. by intros (? & ? & ? & ? & ? & ? & ? & [=] & _). }
  destruct (read_indexed drug_dir "Compound_ID") as [drug_df|e2]; simpl.
  2: { split; [done|]. by intros (? & ? & ? & ? & ? & ? & ? & _ & [=] & _). }
  destruct (read_indexed protein_dir "Protein_ID") as [protein_df|e3]; simpl.
  2: { split; [done|].
       by intros (? & ? & ? & ? & ? & ? & ? & _ & _ & [=] & _). }
  destruct (feature_loop dti_df drug_df protein_df drug_vecs prot_vec [])
    as [fs|e4] eqn:Hloop; simpl.
  2: { split; [done|].
       intros (? & ? & ? & ? & ? & ? & ? & [= <-] & [= <-] & [= <-] & Hl & _).
       by rewrite Hloop in Hl. }
  unfold label_column.
  destruct (has_Label dti_df) eqn:Hlab; simpl.
  2: { split; [done|].
       intros (? & ? & ? & ? & ? & ? & ? & [= <-] & _ & _ & _ & Hl & _).
       by rewrite Hlab in Hl. }
  destruct (py_sum (Label <$> rows dti_df)) as [total|e5] eqn:Hsum; simpl.
  2: { split; [done|].
       intros (? & ? & ? & ? & ? & ? & ? & [= <-] & _ & _ & _ & _ & Hs & _).
       by rewrite Hsum in Hs. }
  destruct (num_int total) as [positive|e6] eqn:Hpos; simpl.
  2: { split; [done|].
       intros (? & ? & ? & ? & ? & ? & ? & [= <-] & _ & _ & _ & _ & Hs
               & Hp & _).
       rewrite Hsum in Hs. injection Hs as <-. by rewrite Hpos in Hp. }
  destruct (num_int (num_rsub (Z.of_nat (length (rows dti_df))) total))
    as [negative|e7] eqn:Hneg; simpl.
  2: { split; [done|].
       intros (? & ? & ? & ? & ? & ? & ? & [= <-] & _ & _ & _ & _ & Hs
               & _ & Hn & _).
       rewrite Hsum in Hs. injection Hs as <-. by rewrite Hneg in Hn. }
  rewrite <-!app_assoc. simpl. split.
  - intros [= <- <-].
    by exists dti_df, drug_df, protein_df, fs, total, positive, negative.
  - intros (? & ? & ? & ? & ? & ? & ? & [= <-] & [= <-] & [= <-] & Hl & _
            & Hs & Hp & Hn & -> & ->).
    rewrite Hsum in Hs. injection Hs as <-.
    rewrite Hloop in Hl. rewrite Hpos in Hp. rewrite Hneg in Hn.
    by simplify_eq.
Qed.

(** The features of a parse that returns, on the tables the files
    hold. *)
Lemma parse_data_features dti_dir drug_dir protein_dir drug_vecs drug_lens
    prot_vec prot_len tr dti_df drug_df protein_df r tr' :
  read_dti dti_dir = Ok dti_df ->
  read_indexed drug_dir "Compound_ID" = Ok drug_df ->
  read_indexed protein_dir "Protein_ID" = Ok protein_df ->
  parse_data dti_dir drug_dir protein_dir drug_vecs drug_lens prot_vec
    prot_len true tr = (Ok r, tr') ->
  feature_loop dti_df drug_df protein_df drug_vecs prot_vec []
  = Ok (features r) /\
  label r = Label <$> rows dti_df.
Proof.
  intros Hd Hg Hp
    (dti_df' & drug_df' & protein_df' & fs & total & positive & negative
     & Hd' & Hg' & Hp' & Hloop & _ & _ & _ & _ & -> & _)%parse_data_run.
  rewrite Hd in Hd'. rewrite Hg in Hg'. rewrite Hp in Hp'.
  by simplify_eq.
Qed.


(** Claim C3.  With parsing disabled, whatever the other arguments,
    [parse_data] returns the empty features list and the empty label
    array, and the trace is unchanged: no file is read and nothing is
    printed. *)
Theorem parse_data_disabled dti_dir drug_dir protein_dir drug_vecs drug_lens
    prot_vec prot_len tr :
  parse_data dti_dir drug_dir protein_dir drug_vecs drug_lens prot_vec
    prot_len false tr
  = (Ok {| features := []; label := [] |}, tr).
Proof. reflexivity. Qed.

(** Claim C4.  For a drug table whose column holds A:"1\t2" and
    B:"3\t4" and the interaction rows (A,X), (B,X), whatever their
    labels, the drug feature array is [[1,2],[3,4]], rows in the order
    of the interaction rows: [f1] to [f4] are the floats numpy reads
    from "1" to "4".  It is the first entry of the features list of
    every parse that returns. *)
Theorem drug_feature_example (drug_df : gmap string (Series F))
    (drug_vec X : string) (l1 l2 : label_cell F) (with_labels : bool)
    (f1 f2 f3 f4 : F) :
  drug_df !! drug_vec
    = Some [("A", CStr (tab_sep "1" "2")); ("B", CStr (tab_sep "3" "4"))] ->
  np_float64 "1" = Some f1 -> np_float64 "2" = Some f2 ->
  np_float64 "3" = Some f3 -> np_float64 "4" = Some f4 ->
  drug_feature {| rows := [row "A" X l1; row "B" X l2];
                  has_Label := with_labels |} drug_df drug_vec
    = Ok [[f1; f2]; [f3; f4]] /\
  forall dti_dir drug_dir protein_dir rest drug_lens prot_vec prot_len
         tr r tr',
    read_dti dti_dir = Ok {| rows := [row "A" X l1; row "B" X l2];
                             has_Label := with_labels |} ->
    read_indexed drug_dir "Compound_ID" = Ok drug_df ->
    parse_data dti_dir drug_dir protein_dir (drug_vec :: rest) drug_lens
      prot_vec prot_len true tr = (Ok r, tr') ->
    features r !! 0%nat = Some [[f1; f2]; [f3; f4]].
Proof.
  intros Hcol H1 H2 H3 H4.
  set (dti := {| rows := [row "A" X l1; row "B" X l2];
                 has_Label := with_labels |}).
  assert (drug_feature dti drug_df drug_vec = Ok [[f1; f2]; [f3; f4]])
    as Hfeat.
  { unfold drug_feature, df_getitem. rewrite Hcol. simpl.
    unfold dict_getitem. rewrite !to_dict_lookup. simpl.
    unfold np_array. simpl. by rewrite H1, H2, H3, H4. }
  split; [done|].
  intros dti_dir drug_dir protein_dir rest drug_lens prot_vec prot_len
    tr r tr' Hd Hg
    (dti_df & drug_df' & protein_df & fs & total & positive & negative
     & Hd' & Hg' & _ & Hloop & _ & _ & _ & _ & -> & _)%parse_data_run.
  rewrite Hd in Hd'. rewrite Hg in Hg'.
  injection Hd' as <-. injection Hg' as <-.
  apply feature_loop_Ok in Hloop as (ds & Hds & p & _ & ->).
  apply Forall2_cons_inv_l in Hds as (d & ds' & Hdv & _ & ->).
  fold dti in Hdv. rewrite Hfeat in Hdv. by injection Hdv as <-.
Qed.

(** The sum of a column of integers is their sum. *)
Lemma sum_from_ints (ls : list Z) (z : Z) :
  sum_from (NInt z) (LInt <$> ls) = Ok (NInt (z + foldr Z.add 0 ls)).
Proof.
  revert z. induction ls as [|l ls IH]; intros z; simpl.
  - by rewrite Z.add_0_r.
  - rewrite IH. do 2 f_equal. lia.
Qed.


(** Claim C9.  For two or more requested drug feature names, every
    odd-indexed entry of the returned features list is the one protein
    feature array of the fixed protein feature name, so that any two of
    them are equal. *)
Theorem parse_data_protein_entries_equal dti_dir drug_dir protein_dir
    drug_vecs drug_lens prot_vec prot_len tr r tr' :
  (2 <= length drug_vecs)%nat ->
  parse_data dti_dir drug_dir protein_dir drug_vecs drug_lens prot_vec
    prot_len true tr = (Ok r, tr') ->
  exists dti_df protein_df protein_array,
    read_dti dti_dir = Ok dti_df /\
    read_indexed protein_dir "Protein_ID" = Ok protein_df /\
    protein_feature dti_df protein_df prot_vec = Ok protein_array /\
    (forall i, (i < length drug_vecs)%nat ->
               features r !! (2 * i + 1)%nat = Some protein_array) /\
    (forall i j a b,
        features r !! (2 * i + 1)%nat = Some a ->
        features r !! (2 * j + 1)%nat = Some b -> a = b).
Proof.
  intros Hlen
    (dti_df & drug_df & protein_df & fs & total & positive & negative
     & Hd & Hg & Hp & Hloop & _ & _ & _ & _ & -> & _)%parse_data_run.
  apply feature_loop_Ok in Hloop as (ds & Hds & Hfs).
  destruct drug_vecs as [|v vs]; [simpl in Hlen; lia|].
  destruct Hfs as (p & Hprot & ->). cbn [features app].
  exists dti_df, protein_df, p. repeat split; try done.
  - intros i Hi. rewrite interleaved_lookup_odd.
    apply Forall2_length in Hds. rewrite Hds in Hi.
    destruct (lookup_lt_is_Some_2 ds i Hi) as [d ->]. done.
  - intros i j a b. rewrite !interleaved_lookup_odd.
    destruct (ds !! i), (ds !! j); simpl; congruence.
Qed.

(** Claim C2, as amended.  With at least one requested drug feature
    name, [parse_data] raises, and so returns no result, when an
    interaction row names a drug or a protein that its table does not
    have, when the text of a drug that an interaction row names does
    not read as floats under a requested feature name, or when the text
    of any protein of the table does not read as floats under the
    protein feature name. *)
Theorem parse_data_fails_on_bad_input dti_dir drug_dir protein_dir
    drug_vecs drug_lens prot_vec prot_len tr dti_df drug_df protein_df :
  drug_vecs <> [] ->
  read_dti dti_dir = Ok dti_df ->
  read_indexed drug_dir "Compound_ID" = Ok drug_df ->
  read_indexed protein_dir "Protein_ID" = Ok protein_df ->
  (exists row, row ∈ rows dti_df /\
     (~ in_table drug_df (Compound_ID row) \/
      ~ in_table protein_df (Protein_ID row))) \/
  (exists row drug_vec series s,
     row ∈ rows dti_df /\ drug_vec ∈ drug_vecs /\
     drug_df !! drug_vec = Some series /\
     entry_of series (Compound_ID row) = Some (CStr s) /\
     mapM np_float64 (str_split TAB s) = None) \/
  (exists series id s,
     protein_df !! prot_vec = Some series /\
     (id, CStr s) ∈ series /\
     mapM py_float (str_split TAB s) = None) ->
  exists e tr',
    parse_data dti_dir drug_dir protein_dir drug_vecs drug_lens prot_vec
      prot_len true tr = (Raise e, tr').
Proof.
  intros Hne Hd Hg Hp Hbad.
  destruct (parse_data dti_dir drug_dir protein_dir drug_vecs drug_lens
              prot_vec prot_len true tr) as [[r|e] tr'] eqn:Hrun; [|eauto].
  exfalso.
  apply (parse_data_features _ _ _ _ _ _ _ _ _ _ _ _ _ Hd Hg Hp) in Hrun
    as [Hloop _].
  pose proof Hloop as Hloop'.
  apply feature_loop_Ok in Hloop as (ds & Hds & Hfs).
  destruct drug_vecs as [|v vs]; [done|].
  destruct Hfs as (p & Hprot & _).
  destruct Hbad as [(row & Hrow & [Hno|Hno])|[Hbad|Hbad]].
  - apply Forall2_cons_inv_l in Hds as (d & ds' & Hdv & _ & _).
    apply drug_feature_decoded in Hdv.
    destruct (decoded_array_row _ _ _ _ _ _ _ Hdv Hrow) as (vec & Hvec).
    apply Hno. by apply decoded_row_in_table in Hvec.
  - apply protein_feature_decoded in Hprot.
    destruct (decoded_array_row _ _ _ _ _ _ _ Hprot Hrow) as (vec & Hvec).
    apply Hno. by apply decoded_row_in_table in Hvec.
  - destruct Hbad as (row & dv & series & s & Hrow & Hdv & Hcol & Hentry & Hnone).
    apply list_elem_of_lookup in Hdv as (i & Hi).
    destruct (Forall2_lookup_l _ _ _ _ _ Hds Hi) as (d & _ & Hd0).
    apply drug_feature_decoded in Hd0.
    destruct (decoded_array_row _ _ _ _ _ _ _ Hd0 Hrow)
      as (vec & series' & s' & Hcol' & Hentry' & Hvec).
    rewrite Hcol in Hcol'. injection Hcol' as <-.
    rewrite Hentry in Hentry'. injection Hentry' as <-.
    by rewrite Hnone in Hvec.
  - destruct Hbad as (series & id & s & Hcol & Hin & Hnone).
    unfold protein_feature, df_getitem in Hprot.
    apply rbind_Ok in Hprot as (col & Hcol'%of_option_Ok & H).
    apply rbind_Ok in H as (vecs & Hmap & _).
    rewrite Hcol in Hcol'. injection Hcol' as <-.
    destruct (series_map_floats_all _ _ _ _ Hmap Hin) as [x Hx].
    by rewrite Hnone in Hx.
Qed.
End ParserClaims.

(** The parser on the files of [demo]. *)
Example parse_data_demo :
  parse_data (P := demo) (T := unit) "dti.csv" "drug.csv" "protein.csv"
    ["fp1"; "fp2"] None "seq" 2500 true []
  = (Ok {| features := [ [[1; 2]; [3; 4]]; [[7; 8; 9]; [7; 8; 9]];
                         [[5; 6]; [7; 8]]; [[7; 8; 9]; [7; 8; 9]] ];
           label := [LInt 1; LInt 0] |},
     parse_events (P := demo) "dti.csv" "drug.csv" "protein.csv" demo_dti).
Proof. vm_compute. reflexivity. Qed.

(** The parser on the files of [demo] when the interaction file has no
    column of labels: the features are built, the labels are not found,
    and nothing is counted. *)
Example parse_data_without_labels :
  parse_data
    (P := mem_platform
            {[ "dti.csv" := {| rows := rows demo_dti; has_Label := false |} ]}
            {[ "drug.csv" := demo_drugs; "protein.csv" := demo_proteins ]})
    (T := unit) "dti.csv" "drug.csv" "protein.csv" ["fp1"] None "seq" 2500
    true []
  = (Raise KeyError, read_events "dti.csv" "drug.csv" "protein.csv").
Proof. vm_compute. reflexivity. Qed.

(** The parser on the files of [demo] when the labels are text: the sum
    of the column cannot be taken. *)
Example parse_data_text_labels :
  parse_data
    (P := mem_platform
            {[ "dti.csv" := labelled [row "A" "X" (LText "yes");
                                      row "B" "X" (LText "no")] ]}
            {[ "drug.csv" := demo_drugs; "protein.csv" := demo_proteins ]})
    (T := unit) "dti.csv" "drug.csv" "protein.csv" ["fp1"] None "seq" 2500
    true []
  = (Raise TypeError, read_events "dti.csv" "drug.csv" "protein.csv").
Proof. vm_compute. reflexivity. Qed.


(** Claim C4 on the drug table of [demo], where "1" to "4" read as 1 to 4. *)
Lemma drug_feature_example_witness :
  drug_feature (P := demo)
    {| rows := [row "A" "X" (LInt 1); row "B" "X" (LInt 0)];
       has_Label := true |} demo_drugs "fp1"
    = Ok [[1; 2]; [3; 4]] /\
  forall dti_dir drug_dir protein_dir rest drug_lens prot_vec prot_len
         (tr : list (event unit)) r tr',
    read_dti (Platform := demo) dti_dir
    = Ok {| rows := [row "A" "X" (LInt 1); row "B" "X" (LInt 0)];
            has_Label := true |} ->
    read_indexed (Platform := demo) drug_dir "Compound_ID" = Ok demo_drugs ->
    parse_data (P := demo) dti_dir drug_dir protein_dir ("fp1" :: rest) drug_lens
      prot_vec prot_len true tr = (Ok r, tr') ->
    features r !! 0%nat = Some [[1; 2]; [3; 4]].
Proof.
  apply (drug_feature_example (P := demo) (T := unit) demo_drugs "fp1" "X"
           (LInt 1) (LInt 0) true 1 2 3 4); vm_compute; reflexivity.
Defined.



(** Claim C9 on the files of [demo], for the feature names fp1 and fp2. *)
Lemma parse_data_protein_entries_equal_witness :
  exists dti_df protein_df protein_array,
    read_dti (Platform := demo) "dti.csv" = Ok dti_df /\
    read_indexed (Platform := demo) "protein.csv" "Protein_ID" = Ok protein_df /\
    protein_feature (P := demo) dti_df protein_df "seq" = Ok protein_array /\
    (forall i, (i < 2)%nat ->
       [[[1; 2]; [3; 4]]; [[7; 8; 9]; [7; 8; 9]]; [[5; 6]; [7; 8]];
        [[7; 8; 9]; [7; 8; 9]]] !! (2 * i + 1)%nat = Some protein_array) /\
    (forall i j a b,
       [[[1; 2]; [3; 4]]; [[7; 8; 9]; [7; 8; 9]]; [[5; 6]; [7; 8]];
        [[7; 8; 9]; [7; 8; 9]]] !! (2 * i + 1)%nat = Some a ->
       [[[1; 2]; [3; 4]]; [[7; 8; 9]; [7; 8; 9]]; [[5; 6]; [7; 8]];
        [[7; 8; 9]; [7; 8; 9]]] !! (2 * j + 1)%nat = Some b -> a = b).
Proof.
  apply (parse_data_protein_entries_equal (P := demo) (T := unit)
           "dti.csv" "drug.csv" "protein.csv" ["fp1"; "fp2"] None "seq" 2500 []
           (@Build_parsed Z
              [[[1; 2]; [3; 4]]; [[7; 8; 9]; [7; 8; 9]];
               [[5; 6]; [7; 8]]; [[7; 8; 9]; [7; 8; 9]]] [LInt 1; LInt 0])
           [EPrint "Parsing dti.csv, drug.csv"; ERead "dti.csv";
            ERead "drug.csv"; ERead "protein.csv";
            EPrint (positive_line 1); EPrint (negative_line 1)]).
  - simpl. lia.
  - vm_compute. reflexivity.
Defined.

Lemma not_in_demo_drugs_Z : ~ in_table (P := stray) demo_drugs "Z".
Proof.
  intros (col & series & Hcol & Hin). unfold demo_drugs in Hcol.
  apply lookup_insert_Some in Hcol as [[<- <-]|[_ Hcol]].
  - cbn in Hin. repeat (apply elem_of_cons in Hin as [[=]|Hin]).
    by apply elem_of_nil in Hin.
  - apply lookup_singleton_Some in Hcol as [<- <-].
    cbn in Hin. repeat (apply elem_of_cons in Hin as [[=]|Hin]).
    by apply elem_of_nil in Hin.
Qed.

(** Claim C2, as amended, on an interaction table that names the drug
    Z, which the drug table does not have. *)
Lemma parse_data_fails_on_bad_input_witness :
  exists e tr',
    parse_data (P := stray) (T := unit) "dti.csv" "drug.csv" "protein.csv"
      ["fp1"] None "seq" 2500 true [] = (Raise e, tr').
Proof.
  apply (parse_data_fails_on_bad_input (P := stray) (T := unit)
           "dti.csv" "drug.csv" "protein.csv" ["fp1"] None "seq" 2500 []
           stray_dti demo_drugs demo_proteins).
  - discriminate.
  - vm_compute. reflexivity.
  - vm_compute. reflexivity.
  - vm_compute. reflexivity.
  - left. exists (row "Z" "Q" (LInt 1)). split.
    + apply list_elem_of_singleton. reflexivity.
    + left. exact not_in_demo_drugs_Z.
Defined.

(** Claim C2 as stated fails.  With no requested drug feature name the
    loop body never runs: a row that names the drug Z, which the drug
    table does not have, is parsed without an error.  And the text of a
    drug that no interaction row names is never read as floats: the
    drug C with the text "abc" is parsed without an error. *)
Lemma parse_data_accepts_bad_input :
  (row "Z" "Q" (LInt 1) ∈ rows stray_dti /\
   ~ in_table (P := stray) demo_drugs "Z" /\
   read_indexed (Platform := stray) "drug.csv" "Compound_ID" = Ok demo_drugs /\
   (parse_data (P := stray) (T := unit) "dti.csv" "drug.csv" "protein.csv"
      [] None "seq" 2500 true []).1
   = Ok (@Build_parsed Z [] [LInt 1])) /\
  (odd_drugs !! "fp1"
   = Some [("A", CStr (tab_sep "1" "2")); ("B", CStr (tab_sep "3" "4"));
           ("C", CStr "abc")] /\
   mapM (np_float64 (Platform := odd)) (str_split TAB "abc") = None /\
   (parse_data (P := odd) (T := unit) "dti.csv" "drug.csv" "protein.csv"
      ["fp1"] None "seq" 2500 true []).1
   = Ok (@Build_parsed Z [[[1; 2]; [3; 4]]; [[7; 8; 9]; [7; 8; 9]]]
           [LInt 1; LInt 0])).
Proof.
  split; [split; [|split; [|split]]|split; [|split]].
  - apply list_elem_of_singleton. reflexivity.
  - exact not_in_demo_drugs_Z.
  - vm_compute. reflexivity.
  - vm_compute. reflexivity.
  - vm_compute. reflexivity.
  - vm_compute. reflexivity.
  - vm_compute. reflexivity.
Qed.

(** ** Layer sizes *)

Lemma digit_of_pretty_N_char x :
  (x < 10)%N -> digit_of (pretty_N_char x) = Some (Z.of_N x).
Proof.
  intros Hx.
  assert (x = 0 \/ x = 1 \/ x = 2 \/ x = 3 \/ x = 4 \/ x = 5 \/ x = 6
          \/ x = 7 \/ x = 8 \/ x = 9)%N as Hc by lia.
  repeat (destruct Hc as [->|Hc]; [reflexivity|]). by subst.
Qed.

Lemma digit_no_space c : is_Some (digit_of c) -> is_space c = false.
Proof.
  destruct c as [[] [] [] [] [] [] [] []]; vm_compute; intros [? [=]]; reflexivity.
Qed.

Lemma digit_no_sign c :
  is_Some (digit_of c) ->
  Ascii.eqb c "-" = false /\ Ascii.eqb c "+" = false /\
  Ascii.eqb c "_" = false /\ Ascii.eqb c COMMA = false.
Proof.
  destruct c as [[] [] [] [] [] [] [] []]; vm_compute; intros [? [=]]; done.
Qed.

Lemma pretty_N_go_all_digits x s :
  all_digits s = true -> all_digits (pretty_N_go x s) = true.
Proof.
  revert s. induction (N.lt_wf_0 x) as [x _ IH]; intros s Hs.
  destruct (decide (x = 0)%N) as [->|Hx]; [done|].
  rewrite pretty_N_go_step by lia. apply IH.
  - apply N.div_lt; lia.
  - simpl. rewrite Hs, andb_true_r. apply bool_decide_eq_true.
    rewrite digit_of_pretty_N_char; [done|]. apply N.mod_lt. lia.
Qed.

Lemma pretty_N_go_value x :
  (0 < x)%N ->
  exists p, forall acc prev s,
    int_digits acc prev (pretty_N_go x s)
    = int_digits (acc * p + Z.of_N x) true s.
Proof.
  induction (N.lt_wf_0 x) as [x _ IH]; intros Hx.
  assert (forall acc prev s,
    int_digits acc prev (String (pretty_N_char (x `mod` 10)) s)
    = int_digits (10 * acc + Z.of_N (x `mod` 10)) true s) as Hlast.
  { intros acc prev s. simpl.
    assert (is_Some (digit_of (pretty_N_char (x `mod` 10)))) as Hd.
    { rewrite digit_of_pretty_N_char; [done|]. by apply N.mod_lt. }
    destruct (digit_no_sign _ Hd) as (_ & _ & -> & _).
    rewrite digit_of_pretty_N_char; [done|]. by apply N.mod_lt. }
  destruct (decide (x `div` 10 = 0)%N) as [Hq|Hq].
  - exists 10. intros acc prev s.
    rewrite pretty_N_go_step, Hq, pretty_N_go_0, Hlast by done.
    f_equal. pose proof (N.div_mod x 10 ltac:(done)) as Hdm.
    revert Hdm Hq. generalize (x `div` 10)%N (x `mod` 10)%N.
    clear. intros q r -> ->. lia.
  - destruct (IH (x `div` 10)%N) as (p & Hp);
      [apply N.div_lt; [done|reflexivity]|by apply N.neq_0_lt_0|].
    exists (10 * p). intros acc prev s.
    rewrite pretty_N_go_step, Hp, Hlast by done.
    f_equal. pose proof (N.div_mod x 10 ltac:(done)) as Hdm.
    revert Hdm. generalize (x `div` 10)%N (x `mod` 10)%N.
    clear. intros q r ->. lia.
Qed.

Lemma pretty_nat_all_digits (n : nat) : all_digits (pretty n) = true.
Proof.
  unfold pretty, pretty_nat, pretty, pretty_N.
  case_decide; [done|]. by apply pretty_N_go_all_digits.
Qed.

Lemma pretty_nat_value (n : nat) :
  int_digits 0 false (pretty n) = Some (Z.of_nat n).
Proof.
  unfold pretty, pretty_nat, pretty, pretty_N.
  case_decide as Hn.
  - assert (n = 0%nat) as -> by lia. reflexivity.
  - destruct (pretty_N_go_value (N.of_nat n)) as (p & Hp); [lia|].
    rewrite Hp. simpl. f_equal. lia.
Qed.

Lemma all_digits_lstrip s : all_digits s = true -> lstrip s = s.
Proof.
  destruct s as [|c s]; [done|]. simpl.
  intros [Hc%bool_decide_eq_true _]%andb_true_iff.
  by rewrite digit_no_space.
Qed.

Lemma all_digits_rstrip s : all_digits s = true -> rstrip s = s.
Proof.
  induction s as [|c s IH]; [done|]. simpl.
  intros [Hc%bool_decide_eq_true Hs]%andb_true_iff.
  rewrite IH by done. destruct s; [|done]. by rewrite digit_no_space.
Qed.

Lemma count_digits_all s :
  all_digits s = true -> count_digits s = String.length s.
Proof.
  induction s as [|c s IH]; [done|]. simpl.
  intros [[d Hc]%bool_decide_eq_true Hs]%andb_true_iff.
  by rewrite Hc, IH.
Qed.

(** On a string of digits, [int] gives the number when the digits are
    no more than the limit allows, and is refused otherwise. *)
Lemma int_all_digits_limit s :
  all_digits s = true ->
  int s = if (int_max_str_digits <? String.length s)%nat then Raise ValueError
          else of_option ValueError (int_digits 0 false s).
Proof.
  intros Hs. unfold int, strip.
  rewrite all_digits_lstrip, all_digits_rstrip by done.
  rewrite count_digits_all by done.
  destruct (int_max_str_digits <? String.length s)%nat; [done|].
  destruct s as [|c s]; [done|].
  simpl in Hs. apply andb_true_iff in Hs as [Hc%bool_decide_eq_true _].
  destruct (digit_no_sign _ Hc) as (Hm%Ascii.eqb_neq & Hp%Ascii.eqb_neq & _).
  assert (match String c s with
          | String "-"%char r => Z.opp <$> int_digits 0 false r
          | String "+"%char r => int_digits 0 false r
          | t => int_digits 0 false t
          end = int_digits 0 false (String c s)) as ->; [|done].
  destruct c as [[] [] [] [] [] [] [] []]; done.
Qed.

Lemma int_pretty (n : nat) :
  (String.length (pretty n) <= int_max_str_digits)%nat ->
  int (pretty n) = Ok (Z.of_nat n).
Proof.
  intros Hlen. rewrite int_all_digits_limit by apply pretty_nat_all_digits.
  apply Nat.ltb_ge in Hlen. rewrite Hlen. by rewrite pretty_nat_value.
Qed.

Lemma int_pretty_Ok (n : nat) z : int (pretty n) = Ok z -> z = Z.of_nat n.
Proof.
  rewrite int_all_digits_limit by apply pretty_nat_all_digits.
  destruct (int_max_str_digits <? String.length (pretty n))%nat; [done|].
  rewrite pretty_nat_value. by intros [= <-].
Qed.

Lemma str_split_digits s :
  all_digits s = true -> str_split COMMA s = [s].
Proof.
  induction s as [|c s IH]; [done|]. simpl.
  intros [Hc%bool_decide_eq_true Hs]%andb_true_iff.
  destruct (digit_no_sign _ Hc) as (_ & _ & _ & ->). by rewrite IH.
Qed.

Lemma str_split_digits_app s t :
  all_digits s = true ->
  str_split COMMA (s +:+ String COMMA t) = s :: str_split COMMA t.
Proof.
  induction s as [|c s IH]; [done|]. simpl.
  intros [Hc%bool_decide_eq_true Hs]%andb_true_iff.
  destruct (digit_no_sign _ Hc) as (_ & _ & _ & ->). by rewrite IH.
Qed.

Lemma str_split_join (l : list string) :
  l <> [] -> Forall (fun s => all_digits s = true) l ->
  str_split COMMA (str_join COMMA l) = l.
Proof.
  induction l as [|s l IH]; [done|]. intros _ Hl.
  apply Forall_cons_1 in Hl as [Hs Hl].
  destruct l as [|s' l].
  - simpl. by apply str_split_digits.
  - change (str_join COMMA (s :: s' :: l))
      with (s +:+ String COMMA (str_join COMMA (s' :: l))).
    rewrite str_split_digits_app by done. f_equal. by apply IH.
Qed.

Lemma parse_layers_render (sizes : list nat) :
  sizes <> [] ->
  Forall (fun n => (String.length (pretty n) <= int_max_str_digits)%nat)
    sizes ->
  parse_layers (render_layers sizes) = Ok (Z.of_nat <$> sizes).
Proof.
  intros Hne Hlen. unfold parse_layers, render_layers.
  rewrite str_split_join.
  - apply rmap_Ok. apply Forall2_fmap. apply Forall_Forall2_diag.
    revert Hlen. apply Forall_impl. intros n. apply int_pretty.
  - by destruct sizes.
  - apply Forall_fmap, Forall_forall. intros n _. apply pretty_nat_all_digits.
Qed.

(** ** Dictionaries in insertion order, and zipping *)

Section DictFacts.
Context {A : Type}.
Implicit Types d acc pairs : list (string * A).

Lemma string_eqb_decide (k k' : string) :
  String.eqb k k' = bool_decide (k = k').
Proof.
  destruct (String.eqb_spec k k').
  - by rewrite bool_decide_eq_true_2.
  - by rewrite bool_decide_eq_false_2.
Qed.

Lemma dict_set_fresh d k v : k ∉ d.*1 -> dict_set d k v = (d ++ [(k, v)])%list.
Proof.
  induction d as [|[k' v'] d IH]; simpl; [done|].
  intros [Hne Hd]%not_elem_of_cons.
  rewrite string_eqb_decide, bool_decide_eq_false_2 by done.
  by rewrite IH.
Qed.

Lemma dict_set_keys_elem d k v n : n ∈ (dict_set d k v).*1 <-> n = k \/ n ∈ d.*1.
Proof.
  induction d as [|[k' v'] d IH]; simpl.
  - rewrite elem_of_cons, elem_of_nil. tauto.
  - rewrite string_eqb_decide. case_bool_decide as Hk; simpl.
    + subst k'. rewrite !elem_of_cons. tauto.
    + rewrite !elem_of_cons, IH. tauto.
Qed.

Lemma dict_set_NoDup d k v : NoDup d.*1 -> NoDup (dict_set d k v).*1.
Proof.
  induction d as [|[k' v'] d IH]; simpl.
  - intros _. apply NoDup_singleton.
  - intros Hnd. pose proof (NoDup_cons_1_1 _ _ Hnd) as Hk.
    pose proof (NoDup_cons_1_2 _ _ Hnd) as Hd.
    rewrite string_eqb_decide.
    case_bool_decide as Hkk; simpl.
    + by apply NoDup_cons_2.
    + apply NoDup_cons_2; [|by apply IH].
      rewrite dict_set_keys_elem. intros [->|?]; done.
Qed.

Lemma dict_get_set d k v n :
  dict_get (dict_set d k v) n = if decide (k = n) then Some v else dict_get d n.
Proof.
  induction d as [|[k' v'] d IH]; simpl.
  - rewrite string_eqb_decide. by repeat case_decide; case_bool_decide.
  - rewrite !string_eqb_decide.
    repeat (case_bool_decide || case_decide || simpl || rewrite IH
            || rewrite string_eqb_decide); congruence.
Qed.

Lemma dict_of_get acc pairs n :
  dict_get (dict_of acc pairs) n
  = match entry_of pairs n with Some v => Some v | None => dict_get acc n end.
Proof.
  revert acc. induction pairs as [|[k v] pairs IH]; intros acc; simpl; [done|].
  rewrite IH. destruct (entry_of pairs n); [done|].
  rewrite dict_get_set. by case_decide.
Qed.

Lemma dict_of_keys_elem acc pairs n :
  n ∈ (dict_of acc pairs).*1 <-> n ∈ acc.*1 \/ n ∈ pairs.*1.
Proof.
  revert acc. induction pairs as [|[k v] pairs IH]; intros acc; simpl.
  - rewrite elem_of_nil. tauto.
  - rewrite IH, dict_set_keys_elem, elem_of_cons. tauto.
Qed.

Lemma dict_of_NoDup acc pairs : NoDup acc.*1 -> NoDup (dict_of acc pairs).*1.
Proof.
  revert acc. induction pairs as [|[k v] pairs IH]; intros acc; simpl; [done|].
  intros Hacc. by apply IH, dict_set_NoDup.
Qed.

Lemma dict_of_distinct acc pairs :
  NoDup (acc.*1 ++ pairs.*1) -> dict_of acc pairs = (acc ++ pairs)%list.
Proof.
  revert acc. induction pairs as [|[k v] pairs IH]; intros acc; simpl.
  - intros _. by rewrite app_nil_r.
  - intros Hnd. rewrite dict_set_fresh.
    + rewrite IH; [by rewrite <-app_assoc|].
      rewrite fmap_app. simpl. rewrite <-app_assoc. done.
    + apply list.NoDup_app in Hnd as (_ & Hnd & _).
      intros Hin. apply (Hnd k Hin). apply elem_of_cons. by left.
Qed.
End DictFacts.

Section ZipFacts.
Context {A B C D : Type}.
Implicit Types (a : list A) (b : list B) (c : list C) (d : list D).

Lemma zip4_take a b c d :
  zip4 (take (shortest a b c d) a) (take (shortest a b c d) b)
       (take (shortest a b c d) c) (take (shortest a b c d) d)
  = zip4 a b c d.
Proof.
  unfold shortest. revert b c d.
  induction a as [|x a IH]; intros [|y b] [|z c] [|w d]; simpl;
    rewrite ?Nat.min_0_r; simpl; try done.
  by rewrite IH.
Qed.

Lemma zip4_names a b c d :
  (fun s : A * B * C * D => s.1.1.1) <$> zip4 a b c d
  = take (shortest a b c d) a.
Proof.
  unfold shortest. revert b c d.
  induction a as [|x a IH]; intros [|y b] [|z c] [|w d]; simpl;
    rewrite ?Nat.min_0_r; simpl; try done.
  by rewrite IH.
Qed.
End ZipFacts.

(** ** The parameter builder *)

Section BuilderClaims.
Context `{P : Platform} {T : Type}.
Implicit Types tr : list (event T).

Lemma get_params_run (args : Args F) tr train test tp ty mp out tr' :
  get_params args tr = (Ok (train, test, tp, ty, mp, out), tr') ->
  exists tr1 tr2 sets,
    parse_layers_list (drug_layers_list args) = Ok (mp_drug_layers_list mp) /\
    parse_layers_list (protein_layers_list args)
      = Ok (mp_protein_layers_list mp) /\
    parse_layers_list (fc_layers_list args) = Ok (mp_fc_layers_list mp) /\
    ty = type_params_of args /\
    mp_type mp = ty /\
    tp = {| tp_n_epoch := n_epoch args; tp_batch_size := batch_size args |} /\
    out = output args /\
    parse_data (dti_dir args) (drug_dir args) (protein_dir args)
      (ty_drug_vecs ty) (ty_drug_lens ty) (ty_prot_vec ty) (ty_prot_len ty)
      (parsing_train args) tr1 = (Ok train, tr2) /\
    zip_args (test_name args) (test_dti_dir args) (test_drug_dir args)
      (test_protein_dir args) = Ok sets /\
    parse_test_sets ty sets [] tr2 = (Ok test, tr').
Proof.
  unfold get_params. intros H.
  apply bind_Ok in H as (dl & ? & [Hdl ->]%lift_Ok & H).
  apply bind_Ok in H as (pl & ? & [Hpl ->]%lift_Ok & H).
  apply bind_Ok in H as (fl & ? & [Hfl ->]%lift_Ok & H).
  apply bind_Ok in H as ([] & tr1 & _ & H).
  apply bind_Ok in H as (train' & tr2 & Htrain & H).
  apply bind_Ok in H as (sets & ? & [Hsets ->]%lift_Ok & H).
  apply bind_Ok in H as (test' & tr3 & Htest & H).
  apply ret_Ok in H as [[= -> -> -> -> -> ->] ->].
  exists tr1, tr2, sets. simpl. done.
Qed.

(** Claim C5.  The layer-size string "100,50,10" parses to
    [100,50,10]; every non-empty list of sizes of no more decimal
    digits than [int] takes, written as decimal numbers with commas
    between them, parses back to itself; and the three layer lists of
    the model parameters that [get_params] returns hold, string by
    string, what the strings given for the drug sub-network, the
    protein sub-network and the fully connected stack parse to. *)
Theorem get_params_parses_layers :
  parse_layers "100,50,10" = Ok [100; 50; 10] /\
  (forall sizes : list nat,
      sizes <> [] ->
      Forall (fun n => (String.length (pretty n) <= int_max_str_digits)%nat)
        sizes ->
      parse_layers (render_layers sizes) = Ok (Z.of_nat <$> sizes)) /\
  (forall (args : Args F) tr train test tp ty mp out tr',
      get_params args tr = (Ok (train, test, tp, ty, mp, out), tr') ->
      exists dl pl fl,
        drug_layers_list args = Some dl /\
        protein_layers_list args = Some pl /\
        fc_layers_list args = Some fl /\
        Forall2 (fun s l => parse_layers s = Ok l) dl (mp_drug_layers_list mp) /\
        Forall2 (fun s l => parse_layers s = Ok l) pl
          (mp_protein_layers_list mp) /\
        Forall2 (fun s l => parse_layers s = Ok l) fl (mp_fc_layers_list mp)).
Proof.
  split; [reflexivity|]. split; [apply parse_layers_render|].
  intros args tr train test tp ty mp out tr'
    (tr1 & tr2 & sets & Hdl & Hpl & Hfl & _)%get_params_run.
  unfold parse_layers_list in Hdl, Hpl, Hfl.
  destruct (drug_layers_list args) as [dl|]; [|done].
  destruct (protein_layers_list args) as [pl|]; [|done].
  destruct (fc_layers_list args) as [fl|]; [|done].
  exists dl, pl, fl. by rewrite <-!rmap_Ok.
Qed.

Lemma get_args_lists c (args : Args F) :
  get_args c = Ok args ->
  test_name args = options c !! "test_name" /\
  test_dti_dir args = options c !! "test_dti_dir" /\
  test_drug_dir args = options c !! "test_drug_dir" /\
  test_protein_dir args = options c !! "test_protein_dir" /\
  drug_layers_list args = options c !! "drug_layers_list" /\
  protein_layers_list args = options c !! "protein_layers_list" /\
  fc_layers_list args = options c !! "fc_layers_list".
Proof.
  unfold get_args.
  destruct (positionals c) as [|dti [|drug [|protein [|]]]]; try done.
  intros H.
  repeat (apply rbind_Ok in H as (? & _ & H)).
  injection H as <-. done.
Qed.

Lemma get_params_fails_without_lists (args : Args F) :
  test_name args = None \/ test_dti_dir args = None \/
  test_drug_dir args = None \/ test_protein_dir args = None \/
  drug_layers_list args = None \/ protein_layers_list args = None \/
  fc_layers_list args = None ->
  fails (get_params (T := T) args).
Proof.
  intros Hnone. unfold get_params.
  destruct (drug_layers_list args) as [dl|] eqn:Hdl;
    [|apply fails_bind_l, fails_raise].
  apply fails_bind_r; intros dl'.
  destruct (protein_layers_list args) as [pl|] eqn:Hpl;
    [|apply fails_bind_l, fails_raise].
  apply fails_bind_r; intros pl'.
  destruct (fc_layers_list args) as [fl|] eqn:Hfl;
    [|apply fails_bind_l, fails_raise].
  apply fails_bind_r; intros fl'.
  apply fails_bind_r; intros [].
  apply fails_bind_r; intros train.
  apply fails_bind_l.
  assert (zip_args (test_name args) (test_dti_dir args) (test_drug_dir args)
            (test_protein_dir args) = Raise TypeError) as ->;
    [|apply fails_raise].
  unfold zip_args.
  destruct Hnone as [->|[->|[->|[->|[?|[?|?]]]]]]; try done;
    repeat (match goal with |- context [of_option _ ?o] => destruct o end;
            simpl; try done).
Qed.

(** Claim C10.  The namespace holds for each of the four test-set
    options and the three layer-list options what the command line
    gives, so [None] when the option is omitted; and when one of the
    seven is omitted [get_params] raises: it returns no test-set mapping
    and no architecture descriptor. *)
Theorem get_params_fails_on_omitted_lists c (args : Args F) tr :
  get_args c = Ok args ->
  options c !! "test_name" = None \/ options c !! "test_dti_dir" = None \/
  options c !! "test_drug_dir" = None \/
  options c !! "test_protein_dir" = None \/
  options c !! "drug_layers_list" = None \/
  options c !! "protein_layers_list" = None \/
  options c !! "fc_layers_list" = None ->
  (test_name args = options c !! "test_name" /\
   test_dti_dir args = options c !! "test_dti_dir" /\
   test_drug_dir args = options c !! "test_drug_dir" /\
   test_protein_dir args = options c !! "test_protein_dir" /\
   drug_layers_list args = options c !! "drug_layers_list" /\
   protein_layers_list args = options c !! "protein_layers_list" /\
   fc_layers_list args = options c !! "fc_layers_list") /\
  exists e tr', get_params args tr = (Raise e, tr').
Proof.
  intros Hargs Hnone. pose proof (get_args_lists c args Hargs) as Hl.
  split; [done|].
  apply get_params_fails_without_lists.
  destruct Hl as (-> & -> & -> & -> & -> & -> & ->). done.
Qed.

Lemma parse_test_sets_each ty sets acc tr test tr' :
  parse_test_sets ty sets acc tr = (Ok test, tr') ->
  exists pairs,
    parse_each ty sets tr = (Ok pairs, tr') /\
    pairs.*1 = (fun s => s.1.1.1) <$> sets /\
    test = dict_of acc pairs.
Proof.
  revert acc tr. induction sets as [|[[[name dti] drug] prot] sets IH];
    intros acc tr; simpl.
  - intros [-> ->]%ret_Ok. exists []. done.
  - intros (data & tr1 & Hdata & Hrest)%bind_Ok.
    apply IH in Hrest as (pairs & Hpairs & Hnames & ->).
    exists ((name, data) :: pairs). split; [|split].
    + apply bind_Ok. exists data, tr1. split; [done|].
      apply bind_Ok. exists pairs, tr'. split; [done|]. by apply ret_Ok.
    + cbn. by f_equal.
    + done.
Qed.

(** Claim C6, as amended.  For the four test-set lists, [get_params]
    zips them by position up to the length [m] of the shortest one,
    lists of unequal length raising no error, and parses one test set
    per position, in order, each with the feature-type descriptor of the
    arguments, which is the one the training data is parsed with.  The
    mapping has one entry per distinct name among the first [m]: a name
    looks up the data parsed at its last position, so that the mapping
    has one entry per position when the first [m] names are distinct. *)
Theorem get_params_test_sets (args : Args F) names dtis drugs prots
    tr train test_dic tp ty mp out tr' :
  test_name args = Some names ->
  test_dti_dir args = Some dtis ->
  test_drug_dir args = Some drugs ->
  test_protein_dir args = Some prots ->
  get_params args tr = (Ok (train, test_dic, tp, ty, mp, out), tr') ->
  let m := shortest names dtis drugs prots in
  ty = type_params_of args /\
  zip_args (test_name args) (test_dti_dir args) (test_drug_dir args)
    (test_protein_dir args)
  = Ok (zip4 (take m names) (take m dtis) (take m drugs) (take m prots)) /\
  exists tr1 tr2 pairs,
    parse_data (dti_dir args) (drug_dir args) (protein_dir args)
      (ty_drug_vecs ty) (ty_drug_lens ty) (ty_prot_vec ty) (ty_prot_len ty)
      (parsing_train args) tr1 = (Ok train, tr2) /\
    parse_each ty
      (zip4 (take m names) (take m dtis) (take m drugs) (take m prots)) tr2
    = (Ok pairs, tr') /\
    pairs.*1 = take m names /\
    (forall n, dict_get test_dic n = entry_of pairs n) /\
    (forall n, n ∈ test_dic.*1 <-> n ∈ take m names) /\
    NoDup test_dic.*1 /\
    (NoDup (take m names) -> test_dic = pairs).
Proof.
  intros Hn Hd Hg Hp
    (tr1 & tr2 & sets & _ & _ & _ & Hty & _ & _ & _ & Htrain & Hsets
     & Htest)%get_params_run.
  intros m. rewrite Hn, Hd, Hg, Hp in Hsets |- *. simpl in Hsets.
  injection Hsets as <-. unfold m. rewrite zip4_take.
  split; [done|]. split; [done|].
  apply parse_test_sets_each in Htest as (pairs & Heach & Hnames & ->).
  rewrite zip4_names in Hnames.
  exists tr1, tr2, pairs. repeat split; try done.
  - intros n. rewrite dict_of_get. by destruct (entry_of pairs n).
  - rewrite dict_of_keys_elem, Hnames. simpl. rewrite elem_of_nil. tauto.
  - rewrite dict_of_keys_elem, Hnames. simpl. rewrite elem_of_nil. tauto.
  - apply dict_of_NoDup. simpl. apply NoDup_nil_2.
  - intros Hnd. apply dict_of_distinct. simpl. by rewrite Hnames.
Qed.
End BuilderClaims.

(** Claim C5 on arguments with the layer strings "100,50,10", "8", "4,2" and "2". *)
Lemma get_params_parses_layers_witness :
  exists dl pl fl,
    drug_layers_list uneven_args = Some dl /\
    protein_layers_list uneven_args = Some pl /\
    fc_layers_list uneven_args = Some fl /\
    Forall2 (fun s l => parse_layers s = Ok l) dl [[100; 50; 10]] /\
    Forall2 (fun s l => parse_layers s = Ok l) pl [[8]] /\
    Forall2 (fun s l => parse_layers s = Ok l) fl [[4; 2]; [2]].
Proof.
  apply (proj2 (proj2 (get_params_parses_layers (P := demo) (T := unit)))
           uneven_args [] demo_train [("t", demo_train); ("u", demo_train)]
           demo_train_params demo_type_params demo_model_params None
           (get_params (P := demo) (T := unit) uneven_args []).2).
  vm_compute. reflexivity.
Defined.

(** Claim C10 on a command line with the three positional words only. *)
Lemma get_params_fails_on_omitted_lists_witness :
  (test_name bare_args = options bare_cmd !! "test_name" /\
   test_dti_dir bare_args = options bare_cmd !! "test_dti_dir" /\
   test_drug_dir bare_args = options bare_cmd !! "test_drug_dir" /\
   test_protein_dir bare_args = options bare_cmd !! "test_protein_dir" /\
   drug_layers_list bare_args = options bare_cmd !! "drug_layers_list" /\
   protein_layers_list bare_args = options bare_cmd !! "protein_layers_list" /\
   fc_layers_list bare_args = options bare_cmd !! "fc_layers_list") /\
  exists e tr', get_params (P := demo) (T := unit) bare_args [] = (Raise e, tr').
Proof.
  apply (get_params_fails_on_omitted_lists (P := demo) (T := unit)
           bare_cmd bare_args []).
  - vm_compute. reflexivity.
  - left. reflexivity.
Defined.

(** Claim C6, as amended, on test-set lists of three, two, three and two entries. *)
Lemma get_params_test_sets_witness :
  let m := shortest ["t"; "u"; "v"] ["dti.csv"; "dti.csv"]
             ["drug.csv"; "drug.csv"; "x"] ["protein.csv"; "protein.csv"] in
  let test_dic := [("t", demo_train); ("u", demo_train)] in
  demo_type_params = type_params_of uneven_args /\
  zip_args (test_name uneven_args) (test_dti_dir uneven_args)
    (test_drug_dir uneven_args) (test_protein_dir uneven_args)
  = Ok (zip4 (take m ["t"; "u"; "v"]) (take m ["dti.csv"; "dti.csv"])
          (take m ["drug.csv"; "drug.csv"; "x"])
          (take m ["protein.csv"; "protein.csv"])) /\
  exists tr1 tr2 pairs,
    parse_data (P := demo) (T := unit) (dti_dir uneven_args)
      (drug_dir uneven_args) (protein_dir uneven_args)
      (ty_drug_vecs demo_type_params) (ty_drug_lens demo_type_params)
      (ty_prot_vec demo_type_params) (ty_prot_len demo_type_params)
      (parsing_train uneven_args) tr1 = (Ok demo_train, tr2) /\
    parse_each (P := demo) demo_type_params
      (zip4 (take m ["t"; "u"; "v"]) (take m ["dti.csv"; "dti.csv"])
         (take m ["drug.csv"; "drug.csv"; "x"])
         (take m ["protein.csv"; "protein.csv"])) tr2
    = (Ok pairs, (get_params (P := demo) (T := unit) uneven_args []).2) /\
    pairs.*1 = take m ["t"; "u"; "v"] /\
    (forall n, dict_get test_dic n = entry_of pairs n) /\
    (forall n, n ∈ test_dic.*1 <-> n ∈ take m ["t"; "u"; "v"]) /\
    NoDup test_dic.*1 /\
    (NoDup (take m ["t"; "u"; "v"]) -> test_dic = pairs).
Proof.
  apply (get_params_test_sets (P := demo) (T := unit) uneven_args
           ["t"; "u"; "v"] ["dti.csv"; "dti.csv"] ["drug.csv"; "drug.csv"; "x"]
           ["protein.csv"; "protein.csv"] [] demo_train
           [("t", demo_train); ("u", demo_train)]
           demo_train_params demo_type_params demo_model_params None
           (get_params (P := demo) (T := unit) uneven_args []).2).
  - reflexivity.
  - reflexivity.
  - reflexivity.
  - reflexivity.
  - vm_compute. reflexivity.
Defined.

(** Claim C6 as stated fails.  Two positions under the one name "t"
    give a mapping of one entry. *)
Lemma get_params_repeated_name :
  shortest ["t"; "t"] ["dti.csv"; "dti.csv"] ["drug.csv"; "drug.csv"]
    ["protein.csv"; "protein.csv"] = 2%nat /\
  exists train test_dic tp ty mp out tr',
    get_params (P := demo) (T := unit)
      (demo_args (Some ["t"; "t"]) (Some ["dti.csv"; "dti.csv"])
         (Some ["drug.csv"; "drug.csv"])
         (Some ["protein.csv"; "protein.csv"])) []
    = (Ok (train, test_dic, tp, ty, mp, out), tr') /\
    length test_dic = 1%nat.
Proof.
  split; [reflexivity|].
  do 7 eexists. split; [vm_compute; reflexivity|reflexivity].
Qed.

(** ** The result writer *)

Arguments pad : simpl never.

Section FrameFacts.
Context {V : Type}.
Implicit Types (c : list (option V)) (df : frame V).

Lemma pad_length n c : length (pad n c) = Nat.max (length c) n.
Proof. unfold pad. rewrite length_app, length_replicate. lia. Qed.

Lemma pad_pad n n' c : (n <= n')%nat -> pad n' (pad n c) = pad n' c.
Proof.
  intros Hn. unfold pad at 1 3. rewrite pad_length. unfold pad.
  rewrite <-app_assoc, <-replicate_add. do 2 f_equal. lia.
Qed.

Lemma pad_id n c : length c = n -> pad n c = c.
Proof. intros <-. unfold pad. by rewrite Nat.sub_diag, app_nil_r. Qed.

Lemma renumber_contents i (cols : list (col_label * list (option V))) :
  (renumber i cols).*2 = cols.*2.
Proof.
  revert i. induction cols as [|[k c] cols IH]; intros i; simpl; [done|].
  cbn. by rewrite IH.
Qed.

Lemma concat_columns_contents (a b : frame V) :
  (columns (concat_columns a b)).*2
  = pad (Nat.max (nrows a) (nrows b)) <$> ((columns a).*2 ++ (columns b).*2)%list.
Proof.
  unfold concat_columns. simpl. rewrite renumber_contents.
  rewrite <-fmap_app, <-!list_fmap_compose. done.
Qed.

Lemma temp_frame (name : string) (p : prediction V) n :
  column_like (predicted p) n -> column_like (plabel p) n ->
  (temp_df <~ frame_setitem empty_frame (LPair name "predicted")
                (np_squeeze (predicted p)) ;;
   frame_setitem temp_df (LPair name "label") (np_squeeze (plabel p)))
  = Ok {| nrows := n;
          columns := [ (LPair name "predicted", Some <$> data (predicted p));
                       (LPair name "label", Some <$> data (plabel p)) ] |}.
Proof.
  intros [Hs1 Hl1] [Hs2 Hl2].
  unfold np_squeeze in *. cbn [shape] in Hs1, Hs2.
  unfold frame_setitem. cbn [shape data]. rewrite Hs1.
  cbn [empty_frame nrows columns].
  destruct n as [|n]; cbn; rewrite Hs2; cbn; rewrite ?Nat.eqb_refl; cbn;
    by destruct (decide _) as [[=]|_].
Qed.

Lemma concat_columns_wf (a b : frame V) :
  frame_wf a -> frame_wf b -> frame_wf (concat_columns a b).
Proof.
  intros Ha Hb. unfold frame_wf in *. rewrite concat_columns_contents.
  apply Forall_fmap, Forall_app. cbn [nrows concat_columns].
  split; [revert Ha|revert Hb]; apply Forall_impl; intros c Hc; simpl;
    rewrite pad_length; lia.
Qed.

Lemma collect_results_spec ps df cols :
  Forall (fun np => well_shaped np.2) ps ->
  frame_wf df ->
  exists df',
    collect_results ps df cols = Ok (df', (cols ++ wide_names ps)%list) /\
    nrows df' = Nat.max (nrows df) (most_rows ps) /\
    (columns df').*2
    = ((pad (nrows df') <$> (columns df).*2) ++ wide_contents (nrows df') ps)%list.
Proof.
  intros Hps. revert df cols.
  induction Hps as [|[name p] ps (n & Hp & Hl) _ IH]; intros df cols Hwf.
  - exists df. simpl. rewrite app_nil_r, Nat.max_0_r. repeat split.
    rewrite app_nil_r. symmetry. unfold frame_wf in Hwf.
    induction Hwf as [|c cs Hc _ IHc]; [done|]. cbn.
    rewrite pad_id by done. by f_equal.
  - cbn [collect_results]. cbn [snd] in Hp, Hl.
    pose proof (temp_frame name p n Hp Hl) as Htemp.
    destruct (frame_setitem empty_frame (LPair name "predicted")
                (np_squeeze (predicted p))) as [t1|e] eqn:H1; [|done].
    cbn [rbind] in Htemp |- *. rewrite Htemp. cbn [rbind].
    set (temp := {| nrows := n; columns := _ |}).
    assert (frame_wf temp) as Htwf.
    { unfold frame_wf, temp. cbn. destruct Hp as [_ Hp], Hl as [_ Hl].
      repeat constructor; by rewrite length_fmap. }
    destruct (IH (concat_columns df temp)
                 (cols ++ [(name, "predicted"); (name, "label")])%list)
      as (df' & Hrun & Hrows & Hcols); [by apply concat_columns_wf|].
    exists df'. rewrite Hrun. split; [|split].
    + cbn. by rewrite <-app_assoc.
    + rewrite Hrows. unfold temp, most_rows.
      cbn [concat_columns nrows foldr snd]. destruct Hp as [_ Hp].
      rewrite Hp. lia.
    + assert (Nat.max (nrows df) (nrows temp) <= nrows df')%nat as Hle.
      { rewrite Hrows. cbn [concat_columns nrows]. lia. }
      rewrite Hcols, concat_columns_contents, <-list_fmap_compose.
      rewrite fmap_app, <-app_assoc. f_equal.
      * apply list_fmap_ext. intros i c _. simpl. by apply pad_pad.
      * unfold temp at 1. cbn. rewrite !pad_pad by done. done.
Qed.

Lemma wide_names_length (ps : list (string * prediction V)) :
  length (wide_names ps) = (2 * length ps)%nat.
Proof.
  unfold wide_names. induction ps as [|np ps IH]; [done|].
  cbn. cbn in IH. rewrite IH. lia.
Qed.

Lemma wide_contents_length n (ps : list (string * prediction V)) :
  length (wide_contents n ps) = (2 * length ps)%nat.
Proof.
  unfold wide_contents. induction ps as [|np ps IH]; [done|].
  cbn. cbn in IH. rewrite IH. lia.
Qed.

Lemma relabel_wide n (ps : list (string * prediction V))
    (cs : list (col_label * list (option V))) :
  cs.*2 = wide_contents n ps ->
  zip_with (fun (t : string * string) kc => (LPair t.1 t.2, kc.2))
    (wide_names ps) cs
  = ps ≫= fun np =>
      [ (LPair np.1 "predicted", pad n (Some <$> data (predicted np.2)));
        (LPair np.1 "label", pad n (Some <$> data (plabel np.2))) ].
Proof.
  revert cs. induction ps as [|np ps IH]; intros cs Hcs.
  - by destruct cs.
  - destruct cs as [|[k1 c1] [|[k2 c2] cs]]; try discriminate.
    cbn in Hcs |- *. injection Hcs as -> -> Hcs.
    do 2 f_equal. by apply IH.
Qed.

Lemma set_columns_wide ps df :
  ps <> [] ->
  nrows df = most_rows ps ->
  (columns df).*2 = wide_contents (most_rows ps) ps ->
  set_columns df (wide_names ps) = Ok (wide_table ps).
Proof.
  intros Hne Hrows Hcols. unfold set_columns.
  destruct (wide_names ps) as [|t ts] eqn:Hnames.
  { destruct ps; [done|discriminate]. }
  rewrite <-Hnames.
  assert (length (wide_names ps) = length (columns df)) as Hlen.
  { rewrite wide_names_length.
    assert (length (columns df) = length (columns df).*2) as ->
      by (by rewrite length_fmap).
    by rewrite Hcols, wide_contents_length. }
  rewrite Hlen, Nat.eqb_refl. f_equal. unfold wide_table. rewrite Hrows.
  f_equal. by apply relabel_wide.
Qed.
End FrameFacts.

Section WriterClaims.
Context `{O : Orchestrator}.
Implicit Types tr : list (event (frame V)).

(** Claim C7, as amended.  When [predict] returns a mapping that is not
    empty and in which the two arrays of every test set squeeze to one
    dimension of one length, the writer builds the wide table: two
    columns per test set, named by the test set and then by
    ['predicted'] or ['label'], each holding the values of its array in
    their order.  It writes that table under the output path exactly when
    the path is given and is not the empty string, and otherwise writes
    nothing and raises nothing.  For the single test set "A" with
    predicted [p1, p2] and label [l1, l2] the table has the columns
    (A, predicted) and (A, label) with those values in that order. *)
Theorem run_prediction_writes_table (mdl fitted : Model) tp output_file
    train test_dic tr (test_predicted : list (string * prediction V)) :
  model_fit mdl train (tp_n_epoch tp) (tp_batch_size tp) = Ok fitted ->
  model_predict fitted test_dic = Ok test_predicted ->
  test_predicted <> [] ->
  Forall (fun np => well_shaped np.2) test_predicted ->
  run_prediction mdl tp output_file train test_dic tr
  = (Ok tt,
     (tr ++ [EPrint "Prediction"; EPrint completed_line]
         ++ save_events output_file (wide_table test_predicted))%list) /\
  ((exists path table,
       EWrite path table ∈ save_events output_file (wide_table test_predicted))
   <-> given output_file = true) /\
  length (columns (wide_table test_predicted))
  = (2 * length test_predicted)%nat /\
  forall p1 p2 l1 l2 : V,
    wide_table
      [("A", {| predicted := {| shape := [2%nat]; data := [p1; p2] |};
                plabel := {| shape := [2%nat]; data := [l1; l2] |} |})]
    = {| nrows := 2;
         columns := [ (LPair "A" "predicted", [Some p1; Some p2]);
                      (LPair "A" "label", [Some l1; Some l2]) ] |}.
Proof.
  intros Hfit Hpred Hne Hshape. split; [|split; [|split]].
  - unfold run_prediction, bind, print, emit, lift, to_csv. rewrite Hfit, Hpred.
    destruct (collect_results_spec test_predicted empty_frame [] Hshape)
      as (df & Hrun & Hrows & Hcols); [by constructor|].
    rewrite Hrun. cbn [fst snd app].
    cbn [empty_frame nrows columns fmap list_fmap app] in Hrows, Hcols.
    rewrite Nat.max_0_l in Hrows. rewrite Hrows in Hcols.
    unfold save_events, ret.
    destruct output_file as [path|];
      [|by (rewrite <-?app_assoc; cbn; rewrite ?app_nil_r)].
    destruct (truthy path);
      [|by (rewrite <-?app_assoc; cbn; rewrite ?app_nil_r)].
    rewrite (set_columns_wide _ _ Hne Hrows Hcols). unfold emit.
    by rewrite <-?app_assoc.
  - unfold save_events, given. destruct output_file as [path|].
    + destruct (truthy path); split; try done.
      * intros _. eexists _, _. apply elem_of_cons. right.
        apply elem_of_cons. by left.
      * intros (? & ? & []%elem_of_nil).
    + split; [|done]. intros (? & ? & []%elem_of_nil).
  - unfold wide_table. cbn [columns].
    clear. generalize (most_rows test_predicted). intros n.
    induction test_predicted as [|np ps IH]; [done|]. cbn. cbn in IH.
    rewrite IH. lia.
  - reflexivity.
Qed.
End WriterClaims.

(** The writer on the single test set "A" with predicted [1, 9] and
    label [0, 1]. *)
Example run_prediction_demo :
  run_prediction
    (O := canned [("A", {| predicted := column [1; 9]; plabel := flat [0; 1] |})])
    tt demo_train_params (Some "out.csv") demo_train [] []
  = (Ok tt,
     [ EPrint "Prediction"; EPrint completed_line; EPrint "save to out.csv";
       EWrite "out.csv"
         {| nrows := 2;
            columns := [ (LPair "A" "predicted", [Some 1; Some 9]);
                         (LPair "A" "label", [Some 0; Some 1]) ] |} ]).
Proof. vm_compute. reflexivity. Qed.

Lemma two_sets_well_shaped : Forall (fun np => well_shaped np.2) two_sets.
Proof.
  repeat constructor.
  - exists 2%nat. by repeat split.
  - exists 3%nat. by repeat split.
Qed.

(** Claim C7, as amended, on two test sets of two and three rows, with
    the output path out.csv. *)
Lemma run_prediction_writes_table_witness :
  run_prediction (O := canned two_sets) tt demo_train_params (Some "out.csv")
    demo_train [] []
  = (Ok tt,
     ([] ++ [EPrint "Prediction"; EPrint completed_line]
         ++ save_events (Some "out.csv") (wide_table two_sets))%list) /\
  ((exists path table,
       EWrite path table ∈ save_events (Some "out.csv") (wide_table two_sets))
   <-> given (Some "out.csv") = true) /\
  length (columns (wide_table two_sets)) = (2 * length two_sets)%nat /\
  forall p1 p2 l1 l2 : Z,
    wide_table
      [("A", {| predicted := {| shape := [2%nat]; data := [p1; p2] |};
                plabel := {| shape := [2%nat]; data := [l1; l2] |} |})]
    = {| nrows := 2;
         columns := [ (LPair "A" "predicted", [Some p1; Some p2]);
                      (LPair "A" "label", [Some l1; Some l2]) ] |}.
Proof.
  apply (run_prediction_writes_table (O := canned two_sets) tt tt
           demo_train_params (Some "out.csv") demo_train [] [] two_sets).
  - reflexivity.
  - reflexivity.
  - discriminate.
  - exact two_sets_well_shaped.
Defined.

(** Claim C7 as stated fails.  For the empty mapping and an output path,
    naming the columns raises and nothing is written; for a test set
    whose two arrays differ in length, building its columns raises; and
    for the empty string as the output path nothing is written. *)
Lemma run_prediction_without_table :
  run_prediction (O := canned []) tt demo_train_params (Some "out.csv")
    demo_train [] []
  = (Raise TypeError,
     [EPrint "Prediction"; EPrint completed_line; EPrint "save to out.csv"]) /\
  run_prediction (O := canned uneven) tt demo_train_params (Some "out.csv")
    demo_train [] []
  = (Raise ValueError, [EPrint "Prediction"]) /\
  run_prediction (O := canned two_sets) tt demo_train_params (Some "")
    demo_train [] []
  = (Ok tt, [EPrint "Prediction"; EPrint completed_line]).
Proof. repeat split; vm_compute; reflexivity. Qed.

(** * Further properties *)

(** ** Exceptions of list comprehensions *)

Lemma rmap_Raise {A B} (f : A -> result B) l e :
  rmap f l = Raise e -> exists x, x ∈ l /\ f x = Raise e.
Proof.
  induction l as [|x l IH]; simpl; [done|].
  destruct (f x) as [y|e'] eqn:Hx; simpl.
  - destruct (rmap f l) as [ys|e'] eqn:Hl; simpl; [done|].
    intros [= ->]. destruct IH as (x' & Hin & Hx'); [done|].
    exists x'. split; [|done]. apply elem_of_cons. by right.
  - intros [= ->]. exists x. split; [|done]. apply elem_of_cons. by left.
Qed.

Lemma rmap_Raise_one {A B} (f : A -> result B) l e x e0 :
  (forall y e', f y = Raise e' -> e' = e) ->
  x ∈ l -> f x = Raise e0 -> rmap f l = Raise e.
Proof.
  intros Hall Hin Hx.
  destruct (rmap f l) as [ys|e'] eqn:Hl.
  - apply rmap_Ok in Hl. apply list_elem_of_lookup in Hin as (i & Hi).
    destruct (Forall2_lookup_l _ _ _ _ _ Hl Hi) as (y & _ & Hy).
    by rewrite Hx in Hy.
  - apply rmap_Raise in Hl as (y & _ & Hy). by rewrite (Hall _ _ Hy).
Qed.

(** ** The parser, its failures and its edge cases *)

Section ParserFurther.
Context `{P : Platform} {T : Type}.
Implicit Types tr : list (event T).

Lemma sum_from_Raise (acc : pynum F) cells e :
  sum_from acc cells = Raise e -> e = TypeError.
Proof.
  revert acc. induction cells as [|cell cells IH]; intros acc; [done|].
  cbn [sum_from].
  destruct (num_add acc cell) as [acc'|e'] eqn:Hadd; cbn [rbind].
  - apply IH.
  - intros [= <-]. by destruct cell, acc; simplify_eq/=.
Qed.

Lemma num_int_Raise (v : pynum F) e :
  num_int v = Raise e -> e = ValueError \/ e = OverflowError.
Proof.
  destruct v as [z|x]; simpl; [done|].
  destruct (float_trunc x); intros [= <-]; auto.
Qed.

Lemma parse_data_Raise dti_dir drug_dir protein_dir drug_vecs drug_lens
    prot_vec prot_len tr e tr' :
  parse_data dti_dir drug_dir protein_dir drug_vecs drug_lens prot_vec
    prot_len true tr = (Raise e, tr') ->
  (read_dti dti_dir = Raise e /\
   tr' = (tr ++ [EPrint (parsing_line dti_dir drug_dir); ERead dti_dir])%list) \/
  (exists dti_df,
     read_dti dti_dir = Ok dti_df /\
     read_indexed drug_dir "Compound_ID" = Raise e /\
     tr' = (tr ++ [EPrint (parsing_line dti_dir drug_dir); ERead dti_dir;
                   ERead drug_dir])%list) \/
  (exists dti_df drug_df,
     read_dti dti_dir = Ok dti_df /\
     read_indexed drug_dir "Compound_ID" = Ok drug_df /\
     read_indexed protein_dir "Protein_ID" = Raise e /\
     tr' = (tr ++ read_events dti_dir drug_dir protein_dir)%list) \/
  (exists dti_df drug_df protein_df,
     read_dti dti_dir = Ok dti_df /\
     read_indexed drug_dir "Compound_ID" = Ok drug_df /\
     read_indexed protein_dir "Protein_ID" = Ok protein_df /\
     (feature_loop dti_df drug_df protein_df drug_vecs prot_vec [] = Raise e \/
      (has_Label dti_df = false /\ e = KeyError) \/
      py_sum (Label <$> rows dti_df) = Raise e \/
      exists total,
        py_sum (Label <$> rows dti_df) = Ok total /\
        num_int total = Raise e) /\
     tr' = (tr ++ read_events dti_dir drug_dir protein_dir)%list) \/
  (exists dti_df drug_df protein_df total positive,
     read_dti dti_dir = Ok dti_df /\
     read_indexed drug_dir "Compound_ID" = Ok drug_df /\
     read_indexed protein_dir "Protein_ID" = Ok protein_df /\
     py_sum (Label <$> rows dti_df) = Ok total /\
     num_int total = Ok positive /\
     num_int (num_rsub (Z.of_nat (length (rows dti_df))) total) = Raise e /\
     tr' = (tr ++ read_events dti_dir drug_dir protein_dir
               ++ [EPrint (positive_line positive)])%list).
Proof.
  unfold parse_data, read_csv, read_csv_indexed, print, emit, lift, bind, ret,
    read_events.
  simpl. rewrite <-!app_assoc. simpl.
  destruct (read_dti dti_dir) as [dti_df|e1]; simpl.
  2: { intros [= -> <-]. by left. }
  destruct (read_indexed drug_dir "Compound_ID") as [drug_df|e2]; simpl.
  2: { intros [= -> <-]. right. left. by exists dti_df. }
  destruct (read_indexed protein_dir "Protein_ID") as [protein_df|e3]; simpl.
  2: { intros [= -> <-]. right. right. left. by exists dti_df, drug_df. }
  destruct (feature_loop dti_df drug_df protein_df drug_vecs prot_vec [])
    as [fs|e4] eqn:Hloop; simpl.
  2: { intros [= -> <-]. right. right. right. left.
       exists dti_df, drug_df, protein_df. repeat split; try done. by left. }
  unfold label_column.
  destruct (has_Label dti_df) eqn:Hlab; simpl.
  2: { intros [= <- <-]. right. right. right. left.
       exists dti_df, drug_df, protein_df. repeat split; try done.
       right. by left. }
  destruct (py_sum (Label <$> rows dti_df)) as [total|e5] eqn:Hsum; simpl.
  2: { intros [= -> <-]. right. right. right. left.
       exists dti_df, drug_df, protein_df. repeat split; try done.
       right. right. by left. }
  destruct (num_int total) as [positive|e6] eqn:Hpos; simpl.
  2: { intros [= -> <-]. right. right. right. left.
       exists dti_df, drug_df, protein_df. repeat split; try done.
       right. right. right. by exists total. }
  destruct (num_int (num_rsub (Z.of_nat (length (rows dti_df))) total))
    as [negative|e7] eqn:Hneg; simpl; [done|].
  intros [= -> <-]. right. right. right. right.
  exists dti_df, drug_df, protein_df, total, positive.
  repeat split; try done. by rewrite <-!app_assoc.
Qed.

Lemma drug_feature_Raise dti_df drug_df drug_vec e :
  drug_feature dti_df drug_df drug_vec = Raise e ->
  e = KeyError \/ e = AttributeError \/ e = ValueError.
Proof.
  unfold drug_feature, df_getitem.
  destruct (drug_df !! drug_vec) as [col|]; simpl; [|intros [= <-]; auto].
  destruct (series_map split_fp col) as [splits|e'] eqn:Hsp; simpl.
  - destruct (rmap _ _) as [rows|e'] eqn:Hrows; simpl.
    + unfold np_array. destruct (rectangular rows); [|intros [= <-]; auto].
      destruct (mapM _ rows); simpl; [done|intros [= <-]; auto].
    + intros [= ->]. apply rmap_Raise in Hrows as (x & _ & Hx).
      unfold dict_getitem in Hx. destruct (_ !! x); simpl in Hx; [done|].
      injection Hx as <-. auto.
  - intros [= ->]. unfold series_map in Hsp.
    apply rmap_Raise in Hsp as ([k c] & _ & Hx). simpl in Hx.
    destruct c; simpl in Hx; [done|]. injection Hx as <-. auto.
Qed.

Lemma protein_feature_Raise dti_df protein_df prot_vec e :
  protein_feature dti_df protein_df prot_vec = Raise e ->
  e = KeyError \/ e = AttributeError \/ e = ValueError.
Proof.
  unfold protein_feature, df_getitem.
  destruct (protein_df !! prot_vec) as [col|]; simpl; [|intros [= <-]; auto].
  destruct (series_map floats_of_seq col) as [vecs|e'] eqn:Hsp; simpl.
  - destruct (rmap _ _) as [rows|e'] eqn:Hrows; simpl.
    + unfold np_array. destruct (rectangular rows); [|intros [= <-]; auto].
      destruct (mapM _ rows); simpl; [done|intros [= <-]; auto].
    + intros [= ->]. apply rmap_Raise in Hrows as (x & _ & Hx).
      unfold dict_getitem in Hx. destruct (_ !! x); simpl in Hx; [done|].
      injection Hx as <-. auto.
  - intros [= ->]. unfold series_map in Hsp.
    apply rmap_Raise in Hsp as ([k c] & _ & Hx). simpl in Hx.
    destruct c as [s|x]; simpl in Hx.
    + destruct (rmap _ (str_split TAB s)) as [v|e'] eqn:Hs; simpl in Hx; [done|].
      injection Hx as ->. apply rmap_Raise in Hs as (w & _ & Hw).
      destruct (py_float w); simpl in Hw; [done|]. injection Hw as <-. auto.
    + injection Hx as <-. auto.
Qed.

Lemma feature_loop_Raise dti_df drug_df protein_df drug_vecs prot_vec acc e :
  feature_loop dti_df drug_df protein_df drug_vecs prot_vec acc = Raise e ->
  (exists v, v ∈ drug_vecs /\ drug_feature dti_df drug_df v = Raise e) \/
  (drug_vecs <> [] /\ protein_feature dti_df protein_df prot_vec = Raise e).
Proof.
  revert acc. induction drug_vecs as [|v vs IH]; intros acc; simpl; [done|].
  destruct (drug_feature dti_df drug_df v) as [d|e1] eqn:Hd; simpl.
  - destruct (protein_feature dti_df protein_df prot_vec) as [p|e2] eqn:Hp;
      simpl.
    + intros [(v' & Hin & Hv')|[_ [=]]]%IH. left. exists v'.
      split; [|done]. apply elem_of_cons. by right.
    + intros [= ->]. by right.
  - intros [= ->]. left. exists v. split; [|done]. apply elem_of_cons. by left.
Qed.

Lemma parse_data_first_name dti_dir drug_dir protein_dir drug_vec rest
    drug_lens prot_vec prot_len tr dti_df drug_df protein_df e :
  read_dti dti_dir = Ok dti_df ->
  read_indexed drug_dir "Compound_ID" = Ok drug_df ->
  read_indexed protein_dir "Protein_ID" = Ok protein_df ->
  drug_feature dti_df drug_df drug_vec = Raise e \/
  (exists d, drug_feature dti_df drug_df drug_vec = Ok d /\
             protein_feature dti_df protein_df prot_vec = Raise e) ->
  parse_data dti_dir drug_dir protein_dir (drug_vec :: rest) drug_lens
    prot_vec prot_len true tr
  = (Raise e, (tr ++ read_events dti_dir drug_dir protein_dir)%list).
Proof.
  intros Hd Hg Hp Hf.
  unfold parse_data, read_csv, read_csv_indexed, print, emit, lift, bind, ret,
    read_events.
  simpl. rewrite Hd, Hg, Hp. simpl. rewrite <-!app_assoc. simpl.
  destruct Hf as [->|(d & -> & ->)]; done.
Qed.
End ParserFurther.

Lemma rectangular_width {A} (rows : list (list A)) :
  rectangular rows = true <->
  exists width, Forall (fun row => length row = width) rows.
Proof.
  destruct rows as [|r rs]; simpl.
  - split; [|done]. intros _. by exists 0%nat.
  - split.
    + intros Hall. exists (length r). constructor; [done|].
      induction rs as [|r' rs IH]; [done|]. simpl in Hall.
      apply andb_true_iff in Hall as [Hr'%Nat.eqb_eq Hall].
      constructor; [done|]. by apply IH.
    + intros (w & Hw). inversion Hw as [|? ? <- Hrs]; subst. clear Hw.
      induction Hrs as [|r' rs Hr' _ IH]; [done|]. simpl.
      by rewrite IH, Hr', Nat.eqb_refl.
Qed.

Lemma entry_of_None {A} (s : list (string * A)) key :
  entry_of s key = None <-> key ∉ s.*1.
Proof.
  induction s as [|[k a] s IH]; simpl.
  - split; [|done]. intros _. apply not_elem_of_nil.
  - rewrite not_elem_of_cons, <-IH. destruct (entry_of s key) as [v|].
    + split; [done|]. by intros [_ ?].
    + destruct (decide (k = key)) as [->|Hne].
      * split; [done|]. by intros [? _].
      * split; [|done]. intros _. split; [congruence|done].
Qed.

Lemma sum_binary (l : list Z) :
  Forall (fun z => z = 0 \/ z = 1) l ->
  foldr Z.add 0 l = Z.of_nat (length (filter (fun z : Z => z = 1) l)) /\
  length l = Nat.add (length (filter (fun z : Z => z = 1) l))
                     (length (filter (fun z : Z => z = 0) l)).
Proof.
  induction 1 as [|z l Hz _ [IH Hlen]]; simpl; [done|].
  rewrite IH, !filter_cons.
  destruct Hz as [->| ->]; repeat case_decide; try done; simpl; lia.
Qed.

Section ParserExtras.
Context `{P : Platform} {T : Type}.
Implicit Types tr : list (event T).

(** With every cell of the column text, the drug feature array is built
    from the fields of the entries the interaction rows name. *)
Lemma drug_feature_text dti_df (drug_df : gmap string (Series F)) drug_vec
    series :
  drug_df !! drug_vec = Some series ->
  text_column series ->
  drug_feature dti_df drug_df drug_vec
  = (found <~ rmap (fun id =>
                      of_option KeyError
                        ((fun c : cell F =>
                            match c with
                            | CStr s => str_split TAB s
                            | CNum _ => []
                            end) <$> entry_of series id))
                (Compound_ID <$> rows dti_df) ;;
     np_array np_float64 found).
Proof.
  intros Hcol Htext. unfold drug_feature, df_getitem. rewrite Hcol.
  cbn [of_option rbind].
  set (g := fun c : cell F =>
              match c with CStr s => str_split TAB s | CNum _ => [] end).
  set (splits := (fun kc : string * cell F => (kc.1, g kc.2)) <$> series).
  assert (series_map split_fp series = Ok splits) as ->.
  { apply series_map_Ok. unfold splits. apply Forall2_fmap_r.
    apply Forall_Forall2_diag. revert Htext. apply Forall_impl.
    intros [k c] (s & Hs). simpl in Hs. subst c. done. }
  cbn [rbind]. f_equal.
  assert (forall id, dict_getitem (to_dict splits) id
                     = of_option KeyError (g <$> entry_of series id)) as Hget.
  { intros id. unfold dict_getitem. rewrite to_dict_lookup. unfold splits.
    by rewrite (entry_of_fmap g). }
  generalize (Compound_ID <$> rows dti_df). intros ids.
  induction ids as [|id ids IH]; [done|]. simpl. by rewrite Hget, IH.
Qed.

(** Property X1.  The arrays of a parse that returns are aligned with
    the labels: every feature array has one row for each interaction
    row, so as many rows as there are labels, and the rows of one array
    have one length. *)
Theorem parse_data_aligned dti_dir drug_dir protein_dir drug_vecs drug_lens
    prot_vec prot_len tr r tr' :
  parse_data dti_dir drug_dir protein_dir drug_vecs drug_lens prot_vec
    prot_len true tr = (Ok r, tr') ->
  Forall (fun arr : ndarray =>
            length arr = length (label r) /\
            exists width, Forall (fun row => length row = width) arr)
    (features r).
Proof.
  intros (dti_df & drug_df & protein_df & fs & total & positive & negative
          & _ & _ & _ & Hloop & _ & _ & _ & _ & -> & _)%parse_data_run.
  cbn [features label]. rewrite length_fmap.
  apply feature_loop_Ok in Hloop as (ds & Hds & Hfs).
  destruct drug_vecs as [|v vs]; [by subst fs|].
  destruct Hfs as (p & Hp & ->). cbn [app].
  apply protein_feature_sound in Hp as (_ & Hparr & Hprect).
  apply Forall_bind, list.Forall_forall. intros d Hd.
  apply list_elem_of_lookup in Hd as (i & Hi).
  destruct (Forall2_lookup_r _ _ _ _ _ Hds Hi) as (v' & _ & Hv').
  apply drug_feature_sound in Hv' as (_ & Hdarr & Hdrect).
  repeat constructor.
  - symmetry. by eapply Forall2_length.
  - by apply rectangular_width.
  - symmetry. by eapply Forall2_length.
  - by apply rectangular_width.
Qed.


(** Property X3.  Once the three files are read, a parse raises nothing
    but [KeyError], [AttributeError] and [ValueError] while it builds
    the features, [KeyError] for a table without labels, [TypeError]
    for labels that do not add up, and [ValueError] and [OverflowError]
    for a count that is no integer. *)
Theorem parse_data_error_kinds dti_dir drug_dir protein_dir drug_vecs
    drug_lens prot_vec prot_len tr dti_df drug_df protein_df e tr' :
  read_dti dti_dir = Ok dti_df ->
  read_indexed drug_dir "Compound_ID" = Ok drug_df ->
  read_indexed protein_dir "Protein_ID" = Ok protein_df ->
  parse_data dti_dir drug_dir protein_dir drug_vecs drug_lens prot_vec
    prot_len true tr = (Raise e, tr') ->
  e = KeyError \/ e = AttributeError \/ e = ValueError \/ e = TypeError \/
  e = OverflowError.
Proof.
  intros Hd Hg Hp
    [[H _]|[(? & _ & H & _)|[(? & ? & _ & _ & H & _)
     |[(dti_df' & drug_df' & protein_df' & _ & _ & _ & Hcase & _)
      |(? & ? & ? & total & positive & _ & _ & _ & _ & _ & Hneg & _)]]]]
    %parse_data_Raise; try congruence.
  - destruct Hcase as [Hl|[[_ ->]|[Hs|(total & _ & Hi)]]].
    + apply feature_loop_Raise in Hl as [(v & _ & Hv)|[_ Hv]].
      * apply drug_feature_Raise in Hv. tauto.
      * apply protein_feature_Raise in Hv. tauto.
    + by left.
    + apply sum_from_Raise in Hs. tauto.
    + apply num_int_Raise in Hi. tauto.
  - apply num_int_Raise in Hneg. tauto.
Qed.

(** Property X4.  With the three files read, the parse raises
    [KeyError], before any count is printed, when the first requested
    drug feature name is not a column of the drug table, when that
    column is text and an interaction row names a drug the column has
    no entry for, or when the drug feature array is built and the
    protein feature name is not a column of the protein table. *)
Theorem parse_data_KeyError dti_dir drug_dir protein_dir drug_vec rest
    drug_lens prot_vec prot_len tr dti_df drug_df protein_df :
  read_dti dti_dir = Ok dti_df ->
  read_indexed drug_dir "Compound_ID" = Ok drug_df ->
  read_indexed protein_dir "Protein_ID" = Ok protein_df ->
  drug_df !! drug_vec = None \/
  (exists series row,
     drug_df !! drug_vec = Some series /\ text_column series /\
     row ∈ rows dti_df /\ Compound_ID row ∉ series.*1) \/
  (exists d, drug_feature dti_df drug_df drug_vec = Ok d /\
             protein_df !! prot_vec = None) ->
  parse_data dti_dir drug_dir protein_dir (drug_vec :: rest) drug_lens
    prot_vec prot_len true tr
  = (Raise KeyError, (tr ++ read_events dti_dir drug_dir protein_dir)%list).
Proof.
  intros Hd Hg Hp Hbad. eapply parse_data_first_name; try done.
  destruct Hbad as [Hnone|[(series & row & Hcol & Htext & Hrow & Hno)
                           |(d & Hdrug & Hnone)]].
  - left. unfold drug_feature, df_getitem. by rewrite Hnone.
  - left. rewrite (drug_feature_text _ _ _ _ Hcol Htext).
    erewrite (rmap_Raise_one _ _ KeyError (Compound_ID row)); [done| | |].
    + intros id e'. destruct (entry_of series id); simpl; congruence.
    + by apply list_elem_of_fmap_2.
    + apply entry_of_None in Hno. rewrite Hno. done.
  - right. exists d. split; [done|].
    unfold protein_feature, df_getitem. by rewrite Hnone.
Qed.

(** Property X5.  A cell that pandas read as a number, anywhere in the
    column of the first requested drug feature name, makes the parse
    raise [AttributeError], whether or not an interaction row names the
    drug of that cell. *)
Theorem parse_data_AttributeError dti_dir drug_dir protein_dir drug_vec rest
    drug_lens prot_vec prot_len tr dti_df drug_df protein_df series id x :
  read_dti dti_dir = Ok dti_df ->
  read_indexed drug_dir "Compound_ID" = Ok drug_df ->
  read_indexed protein_dir "Protein_ID" = Ok protein_df ->
  drug_df !! drug_vec = Some series ->
  (id, CNum x) ∈ series ->
  parse_data dti_dir drug_dir protein_dir (drug_vec :: rest) drug_lens
    prot_vec prot_len true tr
  = (Raise AttributeError,
     (tr ++ read_events dti_dir drug_dir protein_dir)%list).
Proof.
  intros Hd Hg Hp Hcol Hin. eapply parse_data_first_name; try done.
  left. unfold drug_feature, df_getitem. rewrite Hcol. cbn [of_option rbind].
  unfold series_map.
  erewrite (rmap_Raise_one _ _ AttributeError (id, CNum x)); [done| |done|done].
  intros [k c] e'. destruct c; simpl; congruence.
Qed.

(** Property X6.  With the column of the first requested drug feature
    name text and an entry in it for every drug the interaction rows
    name, two rows whose drugs have vectors of different numbers of
    fields make the parse raise [ValueError]. *)
Theorem parse_data_ragged_ValueError dti_dir drug_dir protein_dir drug_vec
    rest drug_lens prot_vec prot_len tr dti_df drug_df protein_df series
    row1 row2 s1 s2 :
  read_dti dti_dir = Ok dti_df ->
  read_indexed drug_dir "Compound_ID" = Ok drug_df ->
  read_indexed protein_dir "Protein_ID" = Ok protein_df ->
  drug_df !! drug_vec = Some series ->
  text_column series ->
  Forall (fun row => Compound_ID row ∈ series.*1) (rows dti_df) ->
  row1 ∈ rows dti_df -> row2 ∈ rows dti_df ->
  entry_of series (Compound_ID row1) = Some (CStr s1) ->
  entry_of series (Compound_ID row2) = Some (CStr s2) ->
  length (str_split TAB s1) <> length (str_split TAB s2) ->
  parse_data dti_dir drug_dir protein_dir (drug_vec :: rest) drug_lens
    prot_vec prot_len true tr
  = (Raise ValueError, (tr ++ read_events dti_dir drug_dir protein_dir)%list).
Proof.
  intros Hd Hg Hp Hcol Htext Hall Hr1 Hr2 He1 He2 Hlen.
  eapply parse_data_first_name; try done.
  left. rewrite (drug_feature_text _ _ _ _ Hcol Htext).
  set (g := fun c : cell F =>
              match c with CStr s => str_split TAB s | CNum _ => [] end).
  destruct (rmap _ (Compound_ID <$> rows dti_df)) as [found|e] eqn:Hrows.
  - cbn [rbind]. unfold np_array.
    destruct (rectangular found) eqn:Hrect; [exfalso|done].
    apply rectangular_width in Hrect as (w & Hw).
    rewrite list.Forall_forall in Hw.
    apply rmap_Ok, Forall2_fmap_l in Hrows.
    apply list_elem_of_lookup in Hr1 as (i & Hi), Hr2 as (j & Hj).
    destruct (Forall2_lookup_l _ _ _ _ _ Hrows Hi) as (v1 & Hv1 & H1).
    destruct (Forall2_lookup_l _ _ _ _ _ Hrows Hj) as (v2 & Hv2 & H2).
    unfold compose in H1, H2. rewrite He1 in H1. rewrite He2 in H2.
    injection H1 as <-. injection H2 as <-.
    apply list_elem_of_lookup_2, Hw in Hv1, Hv2. congruence.
  - exfalso. apply rmap_Raise in Hrows as (id & Hin & Hid).
    apply list_elem_of_fmap in Hin as (row & -> & Hrow).
    rewrite list.Forall_forall in Hall. apply Hall in Hrow.
    destruct (entry_of series (Compound_ID row)) eqn:He; [done|].
    by apply entry_of_None in He.
Qed.

(** Property X7.  When the labels are integers and every label is 0
    or 1, the two counts a parse prints at its end are the number of
    rows labelled 1 and the number of rows labelled 0. *)
Theorem parse_data_binary_counts dti_dir drug_dir protein_dir drug_vecs
    drug_lens prot_vec prot_len tr r tr' (ls : list Z) :
  parse_data dti_dir drug_dir protein_dir drug_vecs drug_lens prot_vec
    prot_len true tr = (Ok r, tr') ->
  label r = LInt <$> ls ->
  Forall (fun l => l = 0 \/ l = 1) ls ->
  tr' = (tr ++ read_events dti_dir drug_dir protein_dir
            ++ [EPrint (positive_line
                          (Z.of_nat (length (filter (fun l : Z => l = 1) ls))));
                EPrint (negative_line
                          (Z.of_nat (length (filter (fun l : Z => l = 0) ls))))
               ])%list.
Proof.
  intros (dti_df & drug_df & protein_df & fs & total & positive & negative
          & _ & _ & _ & _ & _ & Hsum & Hpos & Hneg & -> & ->)%parse_data_run
    Hls Hbin.
  cbn [label] in Hls. rewrite Hls in Hsum.
  unfold py_sum in Hsum. rewrite sum_from_ints in Hsum.
  injection Hsum as <-. simpl in Hpos, Hneg.
  injection Hpos as <-. injection Hneg as <-.
  apply (f_equal length) in Hls. rewrite !length_fmap in Hls. rewrite Hls.
  destruct (sum_binary ls Hbin) as [-> Hlen]. rewrite Hlen.
  unfold read_events. cbn [app].
  rewrite Nat2Z.inj_add, Z.add_simpl_l. done.
Qed.
End ParserExtras.

(** Property X1 on the files of [demo], for the feature name fp1. *)
Lemma parse_data_aligned_witness :
  Forall (fun arr : list (list Z) =>
            length arr = length [LInt (F := Z) 1; LInt 0] /\
            exists width, Forall (fun row => length row = width) arr)
    [[[1; 2]; [3; 4]]; [[7; 8; 9]; [7; 8; 9]]].
Proof.
  apply (parse_data_aligned (P := demo) (T := unit)
           "dti.csv" "drug.csv" "protein.csv" ["fp1"] None "seq" 2500 []
           (@Build_parsed Z [[[1; 2]; [3; 4]]; [[7; 8; 9]; [7; 8; 9]]]
              [LInt 1; LInt 0])
           (parse_events (P := demo) "dti.csv" "drug.csv" "protein.csv" demo_dti)).
  vm_compute. reflexivity.
Defined.


(** Property X3 on an interaction table that names a drug the drug
    table does not have. *)
Lemma parse_data_error_kinds_witness :
  KeyError = KeyError \/ KeyError = AttributeError \/ KeyError = ValueError \/
  KeyError = TypeError \/ KeyError = OverflowError.
Proof.
  apply (parse_data_error_kinds (P := stray) (T := unit)
           "dti.csv" "drug.csv" "protein.csv" ["fp1"] None "seq" 2500 []
           stray_dti demo_drugs demo_proteins KeyError
           (read_events "dti.csv" "drug.csv" "protein.csv"));
    vm_compute; reflexivity.
Defined.

(** Property X4 on the files of [demo], for a feature name that is not
    a column of the drug table. *)
Lemma parse_data_KeyError_witness :
  parse_data (P := demo) (T := unit) "dti.csv" "drug.csv" "protein.csv"
    ["fp9"; "fp1"] None "seq" 2500 true []
  = (Raise KeyError,
     ([] ++ read_events "dti.csv" "drug.csv" "protein.csv")%list).
Proof.
  apply (parse_data_KeyError (P := demo) (T := unit)
           "dti.csv" "drug.csv" "protein.csv" "fp9" ["fp1"] None "seq" 2500 []
           demo_dti demo_drugs demo_proteins).
  - vm_compute. reflexivity.
  - vm_compute. reflexivity.
  - vm_compute. reflexivity.
  - left. vm_compute. reflexivity.
Defined.

(** Property X5 on a drug table whose column has no text for the drug
    C, which no interaction row names. *)
Lemma parse_data_AttributeError_witness :
  parse_data (P := faulty) (T := unit) "dti.csv" "drug.csv" "protein.csv"
    ["gap"] None "seq" 2500 true []
  = (Raise AttributeError,
     ([] ++ read_events "dti.csv" "drug.csv" "protein.csv")%list).
Proof.
  apply (parse_data_AttributeError (P := faulty) (T := unit)
           "dti.csv" "drug.csv" "protein.csv" "gap" [] None "seq" 2500 []
           demo_dti faulty_drugs demo_proteins
           [("A", CStr (tab_sep "1" "2")); ("B", CStr (tab_sep "3" "4"));
            ("C", CNum 0)] "C" 0).
  - vm_compute. reflexivity.
  - vm_compute. reflexivity.
  - vm_compute. reflexivity.
  - vm_compute. reflexivity.
  - apply elem_of_cons; right. apply elem_of_cons; right.
    apply elem_of_cons; left. reflexivity.
Defined.

(** Property X6 on a drug table where the drug A has two fields and
    the drug B has one. *)
Lemma parse_data_ragged_ValueError_witness :
  parse_data (P := faulty) (T := unit) "dti.csv" "drug.csv" "protein.csv"
    ["ragged"] None "seq" 2500 true []
  = (Raise ValueError,
     ([] ++ read_events "dti.csv" "drug.csv" "protein.csv")%list).
Proof.
  apply (parse_data_ragged_ValueError (P := faulty) (T := unit)
           "dti.csv" "drug.csv" "protein.csv" "ragged" [] None "seq" 2500 []
           demo_dti faulty_drugs demo_proteins
           [("A", CStr (tab_sep "1" "2")); ("B", CStr "3")]
           (row "A" "X" (LInt 1)) (row "B" "X" (LInt 0)) (tab_sep "1" "2") "3").
  - vm_compute. reflexivity.
  - vm_compute. reflexivity.
  - vm_compute. reflexivity.
  - vm_compute. reflexivity.
  - repeat constructor; eexists; reflexivity.
  - apply (bool_decide_unpack _). vm_compute. exact I.
  - apply elem_of_cons; left. reflexivity.
  - apply elem_of_cons; right. apply elem_of_cons; left. reflexivity.
  - vm_compute. reflexivity.
  - vm_compute. reflexivity.
  - vm_compute. lia.
Defined.

(** Property X7 on the files of [demo]: one row labelled 1 and one row
    labelled 0. *)
Lemma parse_data_binary_counts_witness :
  parse_events (P := demo) (T := unit) "dti.csv" "drug.csv" "protein.csv" demo_dti
  = ([] ++ read_events "dti.csv" "drug.csv" "protein.csv"
        ++ [EPrint (positive_line
                      (Z.of_nat (length (filter (fun l : Z => l = 1) [1; 0]))));
            EPrint (negative_line
                      (Z.of_nat (length (filter (fun l : Z => l = 0) [1; 0]))))
           ])%list.
Proof.
  apply (parse_data_binary_counts (P := demo) (T := unit)
           "dti.csv" "drug.csv" "protein.csv" ["fp1"] None "seq" 2500 []
           (@Build_parsed Z [[[1; 2]; [3; 4]]; [[7; 8; 9]; [7; 8; 9]]]
              [LInt 1; LInt 0])
           (parse_events (P := demo) "dti.csv" "drug.csv" "protein.csv" demo_dti)
           [1; 0]).
  - vm_compute. reflexivity.
  - reflexivity.
  - constructor; [right; reflexivity|].
    constructor; [left; reflexivity|]. constructor.
Defined.

(** ** The argument and parameter builder, further *)

Lemma rbind_Raise {A B} (r : result A) (k : A -> result B) e :
  rbind r k = Raise e <-> r = Raise e \/ exists a, r = Ok a /\ k a = Raise e.
Proof.
  destruct r as [a|e']; simpl; split.
  - eauto.
  - by intros [[=]|(a' & [= <-] & ?)].
  - intros [= ->]. by left.
  - by intros [[= ->]|(a' & [=] & _)].
Qed.

Section SummaryFacts.
Context `{P : Platform} {T : Type}.
Implicit Types tr : list (event T).

Lemma print_all_run lines tr :
  print_all lines tr = (Ok tt, (tr ++ (EPrint <$> lines))%list).
Proof.
  revert tr. induction lines as [|l ls IH]; intros tr; simpl.
  - by rewrite app_nil_r.
  - unfold bind, print, emit. rewrite IH, <-app_assoc. done.
Qed.

Lemma print_parameter_summary_run target params tr :
  print_parameter_summary target params tr
  = (Ok tt, (tr ++ (EPrint <$> summary_lines target params))%list).
Proof.
  unfold print_parameter_summary, bind, print, emit.
  rewrite print_all_run. unfold summary_lines.
  rewrite !fmap_app, <-!app_assoc. done.
Qed.

Lemma string_length_app (s t : string) :
  String.length (s +:+ t) = (String.length s + String.length t)%nat.
Proof. induction s as [|c s IH]; simpl; [done|]. by rewrite IH. Qed.

Lemma ljust_length n s :
  String.length (ljust n s) = Nat.max n (String.length s).
Proof.
  unfold ljust. rewrite string_length_app.
  assert (forall k, String.length (spaces k) = k) as ->.
  { induction k as [|k IH]; simpl; [done|]. by rewrite IH. }
  lia.
Qed.

(** Property X8.  The parameter summary never fails: it prints a rule,
    the title, a rule, one line for each parameter in the order of the
    dictionary, and a closing rule, so four lines more than there are
    parameters.  A parameter line holds the name filled up to twenty
    characters and the value filled up to ten; a longer name or value
    is printed whole. *)
Theorem print_parameter_summary_lines target
    (params : list (string * pyval F)) tr :
  print_parameter_summary target params tr
  = (Ok tt, (tr ++ (EPrint <$> summary_lines target params))%list) /\
  length (summary_lines target params) = (4 + length params)%nat /\
  forall i kv,
    params !! i = Some kv ->
    summary_lines target params !! (3 + i)%nat
    = Some (ljust 20 kv.1 +:+ " : " +:+ ljust 10 (py_str kv.2)) /\
    String.length (ljust 20 kv.1 +:+ " : " +:+ ljust 10 (py_str kv.2))
    = (Nat.max 20 (String.length kv.1) + 3
       + Nat.max 10 (String.length (py_str kv.2)))%nat.
Proof.
  split; [apply print_parameter_summary_run|]. split.
  - unfold summary_lines. rewrite !length_app, length_fmap. simpl. lia.
  - intros i kv Hi. split.
    + unfold summary_lines.
      rewrite lookup_app_r by (simpl; lia).
      replace (3 + i - length [rule; target +:+ " summary"; rule])%nat
        with i by (simpl; lia).
      rewrite lookup_app_l by (rewrite length_fmap; by eapply lookup_lt_Some).
      by rewrite list_lookup_fmap, Hi.
    + rewrite !string_length_app, !ljust_length. simpl. lia.
Qed.
End SummaryFacts.

Section BuilderExtras.
Context `{P : Platform} {T : Type}.
Implicit Types tr : list (event T).

Lemma get_args_fields c (args : Args F) :
  get_args c = Ok args ->
  opt_typed c "parsing_train" (fun w => Some (truthy w)) true
  = Ok (parsing_train args) /\
  drug_vecs args = default [] (options c !! "drug_vecs") /\
  opt_typed c "n_epoch" conv_int 10 = Ok (n_epoch args) /\
  opt_typed c "batch_size" conv_int 32 = Ok (batch_size args).
Proof.
  unfold get_args.
  destruct (positionals c) as [|dti [|drug [|protein [|]]]]; try done.
  intros H.
  apply rbind_Ok in H as (pt & Hpt & H).
  apply rbind_Ok in H as (wl & _ & H).
  apply rbind_Ok in H as (dl & _ & H).
  apply rbind_Ok in H as (pv & _ & H).
  apply rbind_Ok in H as (pl & _ & H).
  apply rbind_Ok in H as (lr & _ & H).
  apply rbind_Ok in H as (ne & Hne & H).
  apply rbind_Ok in H as (act & _ & H).
  apply rbind_Ok in H as (dr & _ & H).
  apply rbind_Ok in H as (bs & Hbs & H).
  apply rbind_Ok in H as (dc & _ & H).
  apply rbind_Ok in H as (mo & _ & H).
  apply rbind_Ok in H as (out & _ & H).
  injection H as <-. done.
Qed.

Lemma opt_one_Raise c dest e : opt_one c dest = Raise e -> e = SystemExit.
Proof.
  unfold opt_one. destruct (options c !! dest) as [[|w [|]]|]; congruence.
Qed.

Lemma opt_typed_Raise {A} c dest (conv : string -> option A) d e :
  opt_typed c dest conv d = Raise e -> e = SystemExit.
Proof.
  unfold opt_typed. intros [H|([w|] & _ & H)]%rbind_Raise.
  - by eapply opt_one_Raise.
  - unfold typed in H. destruct (conv w); simpl in H; congruence.
  - done.
Qed.

(** Property X9.  [--parsing-train] takes its word through [bool]: the
    parsing of the training data is switched off only by the empty
    word; every other word, [False] and [0] among them, leaves it on,
    as does leaving the option out. *)
Theorem get_args_parsing_train c (args : Args F) :
  get_args c = Ok args ->
  parsing_train args = false <-> options c !! "parsing_train" = Some [""].
Proof.
  intros (Hpt & _)%get_args_fields. unfold opt_typed, opt_one in Hpt.
  destruct (options c !! "parsing_train") as [[|w [|]]|]; simpl in Hpt;
    try done.
  - injection Hpt as <-. destruct w; simpl; split; congruence.
  - injection Hpt as <-. split; congruence.
Qed.

(** Property X10.  The command line parser raises nothing but
    [SystemExit]: a wrong number of positional words, an option with a
    wrong number of words and a word that does not convert all end the
    program. *)
Theorem get_args_only_exits c e :
  get_args c = Raise e -> e = SystemExit.
Proof.
  unfold get_args.
  destruct (positionals c) as [|dti [|drug [|protein [|]]]]; try congruence.
  intros H.
  repeat match type of H with
         | rbind _ _ = Raise _ =>
             apply rbind_Raise in H as [H|(? & _ & H)];
             [first [ by eapply opt_typed_Raise | by eapply opt_one_Raise
                    | idtac ] |]
         end; [|done].
  destruct (opt_many c "drug_lens") as [ws|]; [|done].
  apply rbind_Raise in H as [H|(? & _ & H)]; [|done].
  apply rmap_Raise in H as (w & _ & H). unfold typed in H.
  destruct (conv_int w); simpl in H; congruence.
Qed.

(** Property X11.  The numbers of epochs and the batch size go from
    the command line to the training parameters unchanged: a number
    written in decimal is the number [get_params] returns, and an
    option left out gives 10 epochs and a batch size of 32. *)
Theorem get_params_epochs_round_trip c (args : Args F) (epochs batch : option nat)
    tr train test tp ty mp out tr' :
  get_args c = Ok args ->
  options c !! "n_epoch" = (fun n : nat => [pretty n]) <$> epochs ->
  options c !! "batch_size" = (fun n : nat => [pretty n]) <$> batch ->
  get_params args tr = (Ok (train, test, tp, ty, mp, out), tr') ->
  tp = {| tp_n_epoch := Z.of_nat (default 10%nat epochs);
          tp_batch_size := Z.of_nat (default 32%nat batch) |}.
Proof.
  intros (_ & _ & Hne & Hbs)%get_args_fields He Hb
    (_ & _ & _ & _ & _ & _ & _ & _ & -> & _)%get_params_run.
  unfold opt_typed, opt_one in Hne, Hbs. rewrite He in Hne. rewrite Hb in Hbs.
  f_equal.
  - destruct epochs as [n|]; simpl in Hne; [|by injection Hne as <-].
    unfold typed, conv_int in Hne.
    destruct (int (pretty n)) as [z|] eqn:Hz; simpl in Hne; [|done].
    injection Hne as <-. by apply int_pretty_Ok.
  - destruct batch as [n|]; simpl in Hbs; [|by injection Hbs as <-].
    unfold typed, conv_int in Hbs.
    destruct (int (pretty n)) as [z|] eqn:Hz; simpl in Hbs; [|done].
    injection Hbs as <-. by apply int_pretty_Ok.
Qed.
End BuilderExtras.

Lemma int_Raise w e : int w = Raise e -> e = ValueError.
Proof.
  unfold int, of_option.
  destruct (if (int_max_str_digits <? count_digits (strip w))%nat
            then None else _); congruence.
Qed.

Lemma parse_layers_Raise s e : parse_layers s = Raise e -> e = ValueError.
Proof.
  unfold parse_layers. intros (w & _ & Hw)%rmap_Raise. by eapply int_Raise.
Qed.

Lemma parse_layers_list_Raise l e :
  parse_layers_list l = Raise e -> e = TypeError \/ e = ValueError.
Proof.
  destruct l as [l|]; simpl; [|intros [= <-]; by left].
  intros (s & _ & Hs)%rmap_Raise. right. by eapply parse_layers_Raise.
Qed.

Lemma parse_layers_list_bad l :
  l = None \/ (exists ss s e, l = Some ss /\ s ∈ ss /\ parse_layers s = Raise e) ->
  exists e, parse_layers_list l = Raise e.
Proof.
  intros [->|(ss & s & e & -> & Hin & Hs)]; simpl; [by eexists|].
  exists ValueError. eapply rmap_Raise_one; [|done..].
  apply parse_layers_Raise.
Qed.

Lemma Forall_snd {A B} (Q : B -> Prop) (l : list (A * B)) :
  Forall Q l.*2 <-> Forall (fun p => Q p.2) l.
Proof. apply Forall_fmap. Qed.

Section DictOrder.
Context {A : Type}.
Implicit Types d acc pairs : list (string * A).

Lemma dict_set_keys d k v :
  (dict_set d k v).*1 = if decide (k ∈ d.*1) then d.*1 else (d.*1 ++ [k])%list.
Proof.
  induction d as [|[k' v'] d IH]; [done|].
  cbn [dict_set]. rewrite string_eqb_decide.
  case_bool_decide as Hk.
  - subst k'. rewrite decide_True; [done|]. rewrite fmap_cons.
    apply elem_of_cons. by left.
  - rewrite !fmap_cons, IH. cbn [fst].
    destruct (decide (k ∈ d.*1)) as [Hin|Hin].
    + rewrite decide_True; [done|]. apply elem_of_cons. by right.
    + rewrite decide_False; [done|]. rewrite elem_of_cons.
      intros [->|?]; done.
Qed.

Lemma filter_first_occurrences_ne (Q : string -> Prop)
    `{!forall x, Decision (Q x)} k (l : list string) :
  ~ Q k -> filter Q (filter (fun y => y ≠ k) l) = filter Q l.
Proof.
  intros Hk. induction l as [|x l IH]; [done|].
  rewrite !filter_cons. destruct (decide (x ≠ k)) as [Hne|Heq].
  - rewrite filter_cons. destruct (decide (Q x)); by rewrite IH.
  - apply dec_stable in Heq. subst x. by rewrite decide_False, IH.
Qed.

Lemma dict_of_keys acc pairs :
  (dict_of acc pairs).*1
  = (acc.*1 ++ filter (fun k => k ∉ acc.*1) (first_occurrences pairs.*1))%list.
Proof.
  revert acc. induction pairs as [|[k v] pairs IH]; intros acc.
  - simpl. by rewrite app_nil_r.
  - cbn [dict_of foldl fst snd]. fold (dict_of (dict_set acc k v) pairs).
    rewrite IH, dict_set_keys. cbn [fmap list_fmap first_occurrences fst].
    rewrite filter_cons. destruct (decide (k ∈ acc.*1)) as [Hin|Hin].
    + rewrite decide_False by (by intros ?).
      by rewrite filter_first_occurrences_ne by (by intros ?).
    + rewrite decide_True by done. rewrite <-app_assoc. cbn [app]. do 2 f_equal.
      rewrite list_filter_filter. apply list_filter_iff. intros x.
      rewrite elem_of_app, list_elem_of_singleton. tauto.
Qed.

Lemma dict_set_values (Q : A -> Prop) d k v :
  Forall Q d.*2 -> Q v -> Forall Q (dict_set d k v).*2.
Proof.
  intros Hd Hv. induction d as [|[k' v'] d IH]; simpl.
  - by repeat constructor.
  - inversion Hd; subst. destruct (String.eqb k' k); constructor; auto.
Qed.

Lemma dict_of_values (Q : A -> Prop) acc pairs :
  Forall Q acc.*2 -> Forall Q pairs.*2 -> Forall Q (dict_of acc pairs).*2.
Proof.
  revert acc. induction pairs as [|[k v] pairs IH]; intros acc Hacc Hp;
    [done|].
  inversion Hp; subst. apply IH; [|done]. by apply dict_set_values.
Qed.
End DictOrder.

Section BuilderExtras2.
Context `{P : Platform} {T : Type}.
Implicit Types tr : list (event T).

Lemma parse_each_data ty sets tr pairs tr' :
  parse_each ty sets tr = (Ok pairs, tr') ->
  Forall2 (fun (s : string * string * string * string) nd =>
             nd.1 = s.1.1.1 /\
             exists tr1 tr2,
               parse_data s.1.1.2 s.1.2 s.2 (ty_drug_vecs ty) (ty_drug_lens ty)
                 (ty_prot_vec ty) (ty_prot_len ty) true tr1
               = (Ok nd.2, tr2 : list (event T)))
    sets pairs.
Proof.
  revert tr pairs. induction sets as [|[[[name dti] drug] prot] sets IH];
    intros tr pairs; cbn [parse_each].
  - intros [-> _]%ret_Ok. constructor.
  - intros (data & tr1 & Hdata & H)%bind_Ok.
    apply bind_Ok in H as (others & tr2 & Hothers & [-> ->]%ret_Ok).
    constructor; [|by eapply IH]. split; [done|]. by exists tr, tr1.
Qed.

Lemma get_params_layers_Raise (args : Args F) tr :
  (exists e, parse_layers_list (drug_layers_list args) = Raise e) \/
  (exists e, parse_layers_list (protein_layers_list args) = Raise e) \/
  (exists e, parse_layers_list (fc_layers_list args) = Raise e) ->
  exists e, get_params args tr = (Raise e, tr) /\
            (e = TypeError \/ e = ValueError).
Proof.
  intros Hbad. unfold get_params, bind, lift.
  destruct (parse_layers_list (drug_layers_list args)) as [dl|e1] eqn:H1.
  2: { exists e1. split; [done|]. by eapply parse_layers_list_Raise. }
  destruct (parse_layers_list (protein_layers_list args)) as [pl|e2] eqn:H2.
  2: { exists e2. split; [done|]. by eapply parse_layers_list_Raise. }
  destruct (parse_layers_list (fc_layers_list args)) as [fl|e3] eqn:H3.
  2: { exists e3. split; [done|]. by eapply parse_layers_list_Raise. }
  by destruct Hbad as [[? ?]|[[? ?]|[? ?]]].
Qed.

(** Property X12.  When the command line names no drug feature, the
    data [get_params] returns has no features: the features list of the
    training data and of every test set is empty, whatever the tables
    hold. *)
Theorem get_params_without_drug_vecs c (args : Args F) tr train test tp ty mp
    out tr' :
  get_args c = Ok args ->
  options c !! "drug_vecs" = None ->
  get_params args tr = (Ok (train, test, tp, ty, mp, out), tr') ->
  features train = [] /\ Forall (fun nd => features nd.2 = []) test.
Proof.
  intros (_ & Hvecs & _)%get_args_fields Hnone
    (tr1 & tr2 & sets & _ & _ & _ & -> & _ & _ & _ & Htrain & _ & Htest)
    %get_params_run.
  rewrite Hnone in Hvecs. simpl in Hvecs.
  cbn [type_params_of ty_drug_vecs ty_drug_lens ty_prot_vec ty_prot_len]
    in Htrain.
  rewrite Hvecs in Htrain.
  assert (forall a b c' dl pv pl b' (tra trb : list (event T)) r,
            parse_data a b c' [] dl pv pl b' tra = (Ok r, trb) ->
            features r = []) as Hempty.
  { intros a b c' dl pv pl [|] tra trb r.
    - by intros (? & ? & ? & ? & ? & ? & ? & _ & _ & _ & [= <-] & _ & _ & _
                 & _ & -> & _)%parse_data_run.
    - by intros [= <- _]. }
  split; [by eapply Hempty|].
  apply parse_test_sets_each in Htest as (pairs & Heach & _ & ->).
  apply parse_each_data in Heach.
  cbn [type_params_of ty_drug_vecs ty_drug_lens ty_prot_vec ty_prot_len]
    in Heach.
  rewrite Hvecs in Heach.
  apply (Forall_snd (fun d : parsed F => features d = [])).
  apply dict_of_values; [constructor|].
  apply (Forall_snd (fun d : parsed F => features d = [])).
  eapply Forall2_Forall_r; [exact Heach|].
  apply Forall_true. intros s nd (_ & tra & trb & Hrun). by eapply Hempty.
Qed.

(** Property X13.  The layer strings are read before anything else
    happens: when one of the three layer lists is left out, or holds a
    string that does not parse, [get_params] raises [TypeError] or
    [ValueError] and leaves the trace as it was, with no line printed
    and no file read. *)
Theorem get_params_rejects_layers_first (args : Args F) tr layers :
  layers = drug_layers_list args \/ layers = protein_layers_list args \/
  layers = fc_layers_list args ->
  layers = None \/
  (exists ss s e, layers = Some ss /\ s ∈ ss /\ parse_layers s = Raise e) ->
  exists e, get_params args tr = (Raise e, tr) /\
            (e = TypeError \/ e = ValueError).
Proof.
  intros Hwhich Hbad%parse_layers_list_bad. apply get_params_layers_Raise.
  destruct Hwhich as [<-|[<-|<-]]; auto.
Qed.

(** Property X14.  A layer string with an empty field raises
    [ValueError]: the empty string, a comma at its start or at its end,
    and two commas in a row are refused. *)
Theorem parse_layers_empty_field s :
  "" ∈ str_split COMMA s -> parse_layers s = Raise ValueError.
Proof.
  intros Hin. unfold parse_layers.
  eapply (rmap_Raise_one _ _ _ "" ValueError); [|done|done].
  apply int_Raise.
Qed.
End BuilderExtras2.

Section BuilderExtras3.
Context `{P : Platform} {T : Type}.
Implicit Types tr : list (event T).

Lemma get_params_trace (args : Args F) tr train test tp ty mp out tr' :
  get_params args tr = (Ok (train, test, tp, ty, mp, out), tr') ->
  exists dl pl fl tr2 sets,
    parse_layers_list (drug_layers_list args) = Ok dl /\
    parse_layers_list (protein_layers_list args) = Ok pl /\
    parse_layers_list (fc_layers_list args) = Ok fl /\
    mp = model_params_of args dl pl fl /\
    ty = type_params_of args /\
    parse_data (dti_dir args) (drug_dir args) (protein_dir args)
      (drug_vecs args) (drug_lens args) (prot_vec args) (prot_len args)
      (parsing_train args)
      (tr ++ (EPrint <$> summary_lines "Model parameters" (model_items mp)))%list
    = (Ok train, tr2) /\
    zip_args (test_name args) (test_dti_dir args) (test_drug_dir args)
      (test_protein_dir args) = Ok sets /\
    parse_test_sets ty sets [] tr2 = (Ok test, tr').
Proof.
  unfold get_params. intros H.
  apply bind_Ok in H as (dl & ? & [Hdl ->]%lift_Ok & H).
  apply bind_Ok in H as (pl & ? & [Hpl ->]%lift_Ok & H).
  apply bind_Ok in H as (fl & ? & [Hfl ->]%lift_Ok & H).
  apply bind_Ok in H as ([] & tr1 & Hsum & H).
  rewrite print_parameter_summary_run in Hsum. injection Hsum as <-.
  apply bind_Ok in H as (train' & tr2 & Htrain & H).
  apply bind_Ok in H as (sets & ? & [Hsets ->]%lift_Ok & H).
  apply bind_Ok in H as (test' & tr3 & Htest & H).
  apply ret_Ok in H as [[= -> -> -> -> -> ->] ->].
  exists dl, pl, fl, tr2, sets. done.
Qed.

(** Property X15.  That a test-set list was left out is found only
    after the summary has been printed and the training data parsed:
    with layer lists that parse and training data that parses,
    [get_params] raises [TypeError], and the trace is the one the
    summary and the training parse leave. *)
Theorem get_params_checks_tests_last (args : Args F) tr dl pl fl train tr2 :
  parse_layers_list (drug_layers_list args) = Ok dl ->
  parse_layers_list (protein_layers_list args) = Ok pl ->
  parse_layers_list (fc_layers_list args) = Ok fl ->
  test_name args = None \/ test_dti_dir args = None \/
  test_drug_dir args = None \/ test_protein_dir args = None ->
  parse_data (dti_dir args) (drug_dir args) (protein_dir args)
    (drug_vecs args) (drug_lens args) (prot_vec args) (prot_len args)
    (parsing_train args)
    (tr ++ (EPrint <$> summary_lines "Model parameters"
                         (model_items (model_params_of args dl pl fl))))%list
  = (Ok train, tr2) ->
  get_params args tr = (Raise TypeError, tr2).
Proof.
  intros Hdl Hpl Hfl Hnone Htrain. unfold get_params, bind, lift.
  rewrite Hdl, Hpl, Hfl, print_parameter_summary_run.
  change (parse_data _ _ _ _ _ _ _ _ _) with
    (parse_data (dti_dir args) (drug_dir args) (protein_dir args)
       (drug_vecs args) (drug_lens args) (prot_vec args) (prot_len args)
       (parsing_train args)
       (tr ++ (EPrint <$> summary_lines "Model parameters"
                 (model_items (model_params_of args dl pl fl))))%list).
  rewrite Htrain.
  assert (zip_args (test_name args) (test_dti_dir args) (test_drug_dir args)
            (test_protein_dir args) = Raise TypeError) as ->; [|done].
  unfold zip_args.
  destruct Hnone as [->|[->|[->| ->]]]; try done;
    repeat (match goal with |- context [of_option _ ?o] => destruct o end;
            simpl; try done).
Qed.

(** Property X16.  With the parsing of the training data switched off,
    [get_params] returns training data with no features and no labels
    and reads no training file: after the summary, the trace holds the
    parses of the test sets and nothing else. *)
Theorem get_params_skips_training (args : Args F) tr train test tp ty mp out
    tr' :
  parsing_train args = false ->
  get_params args tr = (Ok (train, test, tp, ty, mp, out), tr') ->
  train = {| features := []; label := [] |} /\
  exists sets pairs,
    zip_args (test_name args) (test_dti_dir args) (test_drug_dir args)
      (test_protein_dir args) = Ok sets /\
    parse_each ty sets
      (tr ++ (EPrint <$> summary_lines "Model parameters" (model_items mp)))%list
    = (Ok pairs, tr') /\
    test = dict_of [] pairs.
Proof.
  intros Hoff (dl & pl & fl & tr2 & sets & _ & _ & _ & _ & _ & Htrain & Hsets
               & Htest)%get_params_trace.
  rewrite Hoff in Htrain. injection Htrain as <- <-. split; [done|].
  apply parse_test_sets_each in Htest as (pairs & Heach & _ & ->).
  by exists sets, pairs.
Qed.

(** Property X17.  The test sets are kept in the order of the command
    line: the names of the mapping [get_params] returns are the names
    zipped, without repetition, each at the place where it occurs
    first. *)
Theorem get_params_test_order (args : Args F) names dtis drugs prots
    tr train test tp ty mp out tr' :
  test_name args = Some names ->
  test_dti_dir args = Some dtis ->
  test_drug_dir args = Some drugs ->
  test_protein_dir args = Some prots ->
  get_params args tr = (Ok (train, test, tp, ty, mp, out), tr') ->
  test.*1 = first_occurrences (take (shortest names dtis drugs prots) names).
Proof.
  intros Hn Hd Hg Hp
    (tr1 & tr2 & sets & _ & _ & _ & _ & _ & _ & _ & _ & Hsets & Htest)
    %get_params_run.
  rewrite Hn, Hd, Hg, Hp in Hsets. simpl in Hsets. injection Hsets as <-.
  apply parse_test_sets_each in Htest as (pairs & _ & Hnames & ->).
  rewrite zip4_names in Hnames. rewrite dict_of_keys, Hnames. simpl.
  generalize (first_occurrences (take (shortest names dtis drugs prots) names)).
  intros l. induction l as [|k l IH]; [done|].
  rewrite filter_cons, decide_True by apply not_elem_of_nil. by rewrite IH.
Qed.
End BuilderExtras3.

(** Property X8 on the summary of one parameter: its line is the
    fourth, and has 33 characters. *)
Lemma print_parameter_summary_lines_witness :
  summary_lines (P := demo) "Model parameters" [("n_epoch", PInt 10)]
    !! (3 + 0)%nat
  = Some (ljust 20 "n_epoch" +:+ " : "
          +:+ ljust 10 (py_str (Platform := demo) (PInt 10))) /\
  String.length (ljust 20 "n_epoch" +:+ " : "
                 +:+ ljust 10 (py_str (Platform := demo) (PInt 10)))
  = (Nat.max 20 (String.length "n_epoch") + 3
     + Nat.max 10 (String.length (py_str (Platform := demo) (PInt 10))))%nat.
Proof.
  apply (proj2 (proj2 (print_parameter_summary_lines (P := demo) (T := unit)
                         "Model parameters" [("n_epoch", PInt 10)] []))
           0%nat ("n_epoch", PInt 10)).
  reflexivity.
Defined.

(** Property X9 on a command line with [--parsing-train False]: the
    training data is parsed. *)
Lemma get_args_parsing_train_witness :
  parsing_train (custom_args true [] 10) = false <->
  options (custom_cmd {[ "parsing_train" := ["False"] ]}) !! "parsing_train"
  = Some [""].
Proof.
  apply (get_args_parsing_train (P := demo)
           (custom_cmd {[ "parsing_train" := ["False"] ]})
           (custom_args true [] 10)).
  vm_compute. reflexivity.
Defined.

(** Property X10 on a command line with one positional word. *)
Lemma get_args_only_exits_witness : SystemExit = SystemExit.
Proof.
  apply (get_args_only_exits (P := demo)
           {| positionals := ["dti.csv"]; options := ∅; switches := [] |}
           SystemExit).
  vm_compute. reflexivity.
Defined.

(** Property X11 on a command line with [--n-epoch 7] and no batch
    size. *)
Lemma get_params_epochs_round_trip_witness :
  {| tp_n_epoch := 7; tp_batch_size := 32 |}
  = {| tp_n_epoch := Z.of_nat (default 10%nat (Some 7%nat));
       tp_batch_size := Z.of_nat (default 32%nat None) |}.
Proof.
  apply (get_params_epochs_round_trip (P := demo) (T := unit)
           (custom_cmd {[ "n_epoch" := ["7"] ]}) (custom_args true [] 7)
           (Some 7%nat) None []
           (@Build_parsed Z [] [LInt 1; LInt 0]) [("t", @Build_parsed Z [] [LInt 1; LInt 0])]
           {| tp_n_epoch := 7; tp_batch_size := 32 |}
           {| ty_drug_vecs := []; ty_drug_lens := None; ty_prot_vec := "seq";
              ty_prot_len := 2500 |}
           (model_params_of (custom_args true [] 7)
              [[100; 50; 10]] [[8]] [[4; 2]; [2]])
           None
           (get_params (P := demo) (T := unit) (custom_args true [] 7) []).2).
  - vm_compute. reflexivity.
  - vm_compute. reflexivity.
  - vm_compute. reflexivity.
  - vm_compute. reflexivity.
Defined.

(** Property X12 on a command line without [--drug-vecs]. *)
Lemma get_params_without_drug_vecs_witness :
  features (@Build_parsed Z [] [LInt 1; LInt 0]) = [] /\
  Forall (fun nd : string * parsed Z => features nd.2 = [])
    [("t", @Build_parsed Z [] [LInt 1; LInt 0])].
Proof.
  apply (get_params_without_drug_vecs (P := demo) (T := unit)
           (custom_cmd ∅) (custom_args true [] 10) []
           (@Build_parsed Z [] [LInt 1; LInt 0]) [("t", @Build_parsed Z [] [LInt 1; LInt 0])]
           {| tp_n_epoch := 10; tp_batch_size := 32 |}
           {| ty_drug_vecs := []; ty_drug_lens := None; ty_prot_vec := "seq";
              ty_prot_len := 2500 |}
           (model_params_of (custom_args true [] 10)
              [[100; 50; 10]] [[8]] [[4; 2]; [2]])
           None
           (get_params (P := demo) (T := unit) (custom_args true [] 10) []).2).
  - vm_compute. reflexivity.
  - vm_compute. reflexivity.
  - vm_compute. reflexivity.
Defined.

(** Property X13 on arguments without layer lists. *)
Lemma get_params_rejects_layers_first_witness :
  exists e, get_params (P := demo) (T := unit) bare_args [] = (Raise e, []) /\
            (e = TypeError \/ e = ValueError).
Proof.
  apply (get_params_rejects_layers_first (P := demo) (T := unit) bare_args []
           None).
  - left. reflexivity.
  - left. reflexivity.
Defined.

(** Property X14 on a string with two commas in a row. *)
Lemma parse_layers_empty_field_witness :
  parse_layers "100,,10" = Raise ValueError.
Proof.
  apply (parse_layers_empty_field "100,,10").
  apply (bool_decide_unpack _). vm_compute. exact I.
Defined.

(** Property X15 on arguments over the files of [demo] without
    test-set lists. *)
Lemma get_params_checks_tests_last_witness :
  get_params (P := demo) (T := unit) (demo_args None None None None) []
  = (Raise TypeError,
     ([] ++ (EPrint <$> summary_lines (P := demo) "Model parameters"
                          (model_items (P := demo) demo_model_params))
         ++ parse_events (P := demo) "dti.csv" "drug.csv" "protein.csv" demo_dti)%list).
Proof.
  apply (get_params_checks_tests_last (P := demo) (T := unit)
           (demo_args None None None None) []
           [[100; 50; 10]] [[8]] [[4; 2]; [2]] demo_train).
  - vm_compute. reflexivity.
  - vm_compute. reflexivity.
  - vm_compute. reflexivity.
  - left. reflexivity.
  - vm_compute. reflexivity.
Defined.

(** Property X16 on arguments over the files of [demo] with the
    parsing of the training data switched off. *)
Lemma get_params_skips_training_witness :
  @Build_parsed Z [] [] = {| features := []; label := [] |} /\
  exists sets pairs,
    zip_args (Some ["t"]) (Some ["dti.csv"]) (Some ["drug.csv"])
      (Some ["protein.csv"]) = Ok sets /\
    parse_each (P := demo) (T := unit) demo_type_params sets
      ([] ++ (EPrint <$> summary_lines (P := demo) "Model parameters"
                           (model_items (P := demo) demo_model_params)))%list
    = (Ok pairs,
       ((EPrint <$> summary_lines (P := demo) "Model parameters"
                      (model_items (P := demo) demo_model_params))
          ++ parse_events (P := demo) "dti.csv" "drug.csv" "protein.csv" demo_dti)%list) /\
    [("t", demo_train)] = dict_of [] pairs.
Proof.
  apply (get_params_skips_training (P := demo) (T := unit)
           (custom_args false ["fp1"] 10) [] (@Build_parsed Z [] [])
           [("t", demo_train)] demo_train_params demo_type_params
           demo_model_params None
           ((EPrint <$> summary_lines (P := demo) "Model parameters"
                          (model_items (P := demo) demo_model_params))
              ++ parse_events (P := demo) "dti.csv" "drug.csv" "protein.csv" demo_dti)%list).
  - reflexivity.
  - vm_compute. reflexivity.
Defined.

(** Property X17 on test-set lists that name t, u and t again. *)
Lemma get_params_test_order_witness :
  ["t"; "u"] = first_occurrences
                 (take (shortest ["t"; "u"; "t"] ["dti.csv"; "dti.csv"; "dti.csv"]
                          ["drug.csv"; "drug.csv"; "drug.csv"]
                          ["protein.csv"; "protein.csv"; "protein.csv"])
                    ["t"; "u"; "t"]).
Proof.
  apply (get_params_test_order (P := demo) (T := unit)
           (demo_args (Some ["t"; "u"; "t"])
              (Some ["dti.csv"; "dti.csv"; "dti.csv"])
              (Some ["drug.csv"; "drug.csv"; "drug.csv"])
              (Some ["protein.csv"; "protein.csv"; "protein.csv"]))
           ["t"; "u"; "t"] ["dti.csv"; "dti.csv"; "dti.csv"]
           ["drug.csv"; "drug.csv"; "drug.csv"]
           ["protein.csv"; "protein.csv"; "protein.csv"] []
           demo_train [("t", demo_train); ("u", demo_train)]
           demo_train_params demo_type_params demo_model_params None
           (get_params (P := demo) (T := unit)
              (demo_args (Some ["t"; "u"; "t"])
                 (Some ["dti.csv"; "dti.csv"; "dti.csv"])
                 (Some ["drug.csv"; "drug.csv"; "drug.csv"])
                 (Some ["protein.csv"; "protein.csv"; "protein.csv"])) []).2).
  - reflexivity.
  - reflexivity.
  - reflexivity.
  - reflexivity.
  - vm_compute. reflexivity.
Defined.

(** ** The result writer, whatever the model returns *)

Section FrameKeys.
Context {V : Type}.
Implicit Types (df : frame V) (cols : list (col_label * list (option V))).

Lemma set_column_keys cols key col :
  (set_column cols key col).*1
  = if decide (key ∈ cols.*1) then cols.*1 else (cols.*1 ++ [key])%list.
Proof.
  induction cols as [|[k c] cols IH]; [done|].
  cbn [set_column]. destruct (decide (k = key)) as [->|Hne].
  - rewrite decide_True; [done|]. rewrite fmap_cons. apply elem_of_cons.
    by left.
  - rewrite !fmap_cons, IH. cbn [fst].
    destruct (decide (key ∈ cols.*1)) as [Hin|Hin].
    + rewrite decide_True; [done|]. apply elem_of_cons. by right.
    + rewrite decide_False; [done|]. rewrite elem_of_cons.
      intros [->|?]; done.
Qed.

Lemma frame_setitem_Raise df key value e :
  frame_setitem df key value = Raise e -> e = ValueError.
Proof.
  unfold frame_setitem.
  destruct (shape value) as [|n [|]], (data value) as [|x [|]];
    repeat case_match; congruence.
Qed.

Lemma frame_setitem_keys df key value df' :
  frame_setitem df key value = Ok df' ->
  (columns df').*1
  = if decide (key ∈ (columns df).*1) then (columns df).*1
    else ((columns df).*1 ++ [key])%list.
Proof.
  assert (forall n, ((fun kc : col_label * list (option V) =>
                        (kc.1, pad n kc.2)) <$> columns df).*1
                    = (columns df).*1) as Hpad.
  { intros n. by rewrite <-list_fmap_compose. }
  unfold frame_setitem. intros H.
  destruct (shape value) as [|n [|]].
  - destruct (data value) as [|x [|]]; try done. injection H as <-.
    cbn [columns]. by rewrite set_column_keys.
  - destruct (_ && _).
    + injection H as <-. cbn [columns]. by rewrite set_column_keys, Hpad.
    + destruct (Nat.eqb n (nrows df)); [|done]. injection H as <-.
      cbn [columns]. by rewrite set_column_keys.
  - by destruct (data value) as [|x [|]].
Qed.

Lemma concat_columns_length (a b : frame V) :
  length (columns (concat_columns a b))
  = (length (columns a) + length (columns b))%nat.
Proof.
  unfold concat_columns. cbn [columns].
  assert (forall i cols, length (renumber (V := V) i cols) = length cols) as ->.
  { intros i cols. revert i. induction cols as [|[k c] cols IH]; intros i;
      simpl; [done|]. by rewrite IH. }
  by rewrite length_fmap, length_app.
Qed.

Lemma collect_results_Raise ps df names e :
  collect_results ps df names = Raise e -> e = ValueError.
Proof.
  revert df names. induction ps as [|[name p] ps IH]; intros df names;
    cbn [collect_results]; [done|].
  intros [H|(t1 & _ & H)]%rbind_Raise; [by eapply frame_setitem_Raise|].
  apply rbind_Raise in H as [H|(t2 & _ & H)]; [by eapply frame_setitem_Raise|].
  by eapply IH.
Qed.

Lemma collect_results_Ok ps df names df' names' :
  collect_results ps df names = Ok (df', names') ->
  names' = (names ++ wide_names ps)%list /\
  length (columns df') = (length (columns df) + 2 * length ps)%nat.
Proof.
  revert df names. induction ps as [|[name p] ps IH]; intros df names;
    cbn [collect_results].
  - intros [= <- <-]. rewrite app_nil_r. simpl. split; [done|lia].
  - intros (t1 & H1 & H)%rbind_Ok.
    apply rbind_Ok in H as (t2 & H2 & H).
    apply IH in H as [-> Hlen]. split.
    + rewrite <-app_assoc. done.
    + rewrite Hlen, concat_columns_length.
      apply frame_setitem_keys in H1, H2.
      rewrite decide_False in H1 by apply not_elem_of_nil.
      cbn [empty_frame columns fmap list_fmap app] in H1. rewrite H1 in H2.
      rewrite decide_False in H2.
      2: { rewrite list_elem_of_singleton. congruence. }
      apply (f_equal length) in H2. rewrite length_fmap in H2. rewrite H2.
      simpl. lia.
Qed.

Lemma set_columns_names df (tuples : list (string * string)) :
  tuples <> [] ->
  length tuples = length (columns df) ->
  exists table,
    set_columns df tuples = Ok table /\
    nrows table = nrows df /\
    (columns table).*1 = (fun t => LPair t.1 t.2) <$> tuples /\
    (columns table).*2 = (columns df).*2.
Proof.
  intros Hne Hlen. unfold set_columns. destruct tuples as [|t ts]; [done|].
  rewrite Hlen, Nat.eqb_refl. eexists. split; [done|]. split; [done|].
  cbn [columns]. revert Hlen. generalize (t :: ts). generalize (columns df).
  clear. intros cs. induction cs as [|[k c] cs IH]; intros [|t ts]; try done.
  intros [= Hlen]. destruct (IH ts Hlen) as [H1 H2]. cbn.
  cbn in H1, H2. by rewrite H1, H2.
Qed.
End FrameKeys.

Section WriterExtras.
Context `{O : Orchestrator}.
Implicit Types tr : list (event (frame V)).

Lemma run_prediction_collected mdl fitted tp output_file train test_dic tr
    ps df cols :
  model_fit mdl train (tp_n_epoch tp) (tp_batch_size tp) = Ok fitted ->
  model_predict fitted test_dic = Ok ps ->
  collect_results ps empty_frame [] = Ok (df, cols) ->
  (given output_file = false /\
   run_prediction mdl tp output_file train test_dic tr
   = (Ok tt, (tr ++ [EPrint "Prediction"; EPrint completed_line])%list)) \/
  (exists path,
     output_file = Some path /\ truthy path = true /\
     ((ps = [] /\
       run_prediction mdl tp output_file train test_dic tr
       = (Raise TypeError,
          (tr ++ [EPrint "Prediction"; EPrint completed_line;
                  EPrint ("save to " +:+ path)])%list)) \/
      (ps <> [] /\
       exists table,
         run_prediction mdl tp output_file train test_dic tr
         = (Ok tt,
            (tr ++ [EPrint "Prediction"; EPrint completed_line;
                    EPrint ("save to " +:+ path); EWrite path table])%list) /\
         nrows table = nrows df /\
         (columns table).*1 = (fun t => LPair t.1 t.2) <$> wide_names ps /\
         (columns table).*2 = (columns df).*2))).
Proof.
  intros Hfit Hpred Hcol.
  unfold run_prediction, bind, print, emit, lift, to_csv, ret.
  rewrite Hfit, Hpred, Hcol. cbn [fst snd].
  apply collect_results_Ok in Hcol as [-> Hlen]. cbn in Hlen.
  rewrite <-!app_assoc. cbn [app].
  destruct output_file as [path|]; [|by left].
  destruct (truthy path) eqn:Hpath; [|left; split; [exact Hpath|done]].
  right. exists path. split; [done|]. split; [done|].
  destruct ps as [|np ps]; [left; by rewrite <-!app_assoc|].
  right. split; [done|].
  destruct (set_columns_names df (wide_names (np :: ps)))
    as (table & -> & Hrows & Hnames & Hcols).
  - by destruct np.
  - by rewrite wide_names_length, Hlen.
  - exists table. unfold emit. by rewrite <-!app_assoc.
Qed.

Lemma run_prediction_not_collected mdl fitted tp output_file train test_dic
    tr ps e :
  model_fit mdl train (tp_n_epoch tp) (tp_batch_size tp) = Ok fitted ->
  model_predict fitted test_dic = Ok ps ->
  collect_results ps empty_frame [] = Raise e ->
  run_prediction mdl tp output_file train test_dic tr
  = (Raise e, (tr ++ [EPrint "Prediction"])%list).
Proof.
  unfold run_prediction, bind, print, emit, lift. by intros -> -> ->.
Qed.

(** Property X18.  An exception of [fit], of [predict] or of the
    building of the table is raised right after the line 'Prediction',
    whether or not an output path is given: the completion line is not
    printed and nothing is written. *)
Theorem run_prediction_raises_early mdl tp output_file train test_dic tr e :
  model_fit mdl train (tp_n_epoch tp) (tp_batch_size tp) = Raise e \/
  (exists fitted,
     model_fit mdl train (tp_n_epoch tp) (tp_batch_size tp) = Ok fitted /\
     (model_predict fitted test_dic = Raise e \/
      exists ps,
        model_predict fitted test_dic = Ok ps /\
        collect_results ps empty_frame [] = Raise e)) ->
  run_prediction mdl tp output_file train test_dic tr
  = (Raise e, (tr ++ [EPrint "Prediction"])%list).
Proof.
  unfold run_prediction, bind, print, emit, lift.
  intros [->|(fitted & -> & [->|(ps & -> & ->)])]; done.
Qed.

(** Property X19.  With [fit] and [predict] returning, and the write
    to the file taken to succeed, the writer raises nothing but
    [ValueError], while it builds the table, and [TypeError]; it raises
    [TypeError] exactly when [predict] returns the empty mapping and an
    output path is given. *)
Theorem run_prediction_error_kinds mdl fitted tp output_file train test_dic
    tr ps :
  model_fit mdl train (tp_n_epoch tp) (tp_batch_size tp) = Ok fitted ->
  model_predict fitted test_dic = Ok ps ->
  (forall e tr',
      run_prediction mdl tp output_file train test_dic tr = (Raise e, tr') ->
      (e = ValueError /\ tr' = (tr ++ [EPrint "Prediction"])%list) \/
      e = TypeError) /\
  ((exists tr',
       run_prediction mdl tp output_file train test_dic tr
       = (Raise TypeError, tr')) <->
   ps = [] /\ given output_file = true).
Proof.
  intros Hfit Hpred.
  destruct (collect_results ps empty_frame []) as [[df cols]|e0] eqn:Hcol.
  - destruct (run_prediction_collected mdl fitted tp output_file train
                test_dic tr ps df cols Hfit Hpred Hcol)
      as [[Hno ->]|(path & -> & Hpath & [[-> ->]|[Hne (table & -> & _)]])].
    + split; [done|]. split; [by intros [? [=]]|]. intros [_ ?]. congruence.
    + split; [intros e tr' [= <- _]; by right|].
      split; [|by eexists]. intros _. simpl. by rewrite Hpath.
    + split; [done|]. split; [by intros [? [=]]|]. by intros [? _].
  - pose proof (collect_results_Raise _ _ _ _ Hcol) as ->.
    rewrite (run_prediction_not_collected mdl fitted tp output_file train
               test_dic tr ps ValueError Hfit Hpred Hcol).
    split; [intros e tr' [= <- <-]; by left|].
    split; [by intros [? [=]]|]. intros [-> _]. done.
Qed.
End WriterExtras.

Section WriterExtras2.
Context `{O : Orchestrator}.
Implicit Types tr : list (event (frame V)).

Lemma run_prediction_cases mdl tp output_file train test_dic tr :
  (exists e,
     run_prediction mdl tp output_file train test_dic tr
     = (Raise e, (tr ++ [EPrint "Prediction"])%list)) \/
  (given output_file = false /\
   run_prediction mdl tp output_file train test_dic tr
   = (Ok tt, (tr ++ [EPrint "Prediction"; EPrint completed_line])%list)) \/
  (exists path,
     output_file = Some path /\ truthy path = true /\
     (run_prediction mdl tp output_file train test_dic tr
      = (Raise TypeError,
         (tr ++ [EPrint "Prediction"; EPrint completed_line;
                 EPrint ("save to " +:+ path)])%list) \/
      exists table,
        run_prediction mdl tp output_file train test_dic tr
        = (Ok tt,
           (tr ++ [EPrint "Prediction"; EPrint completed_line;
                   EPrint ("save to " +:+ path); EWrite path table])%list))).
Proof.
  destruct (model_fit mdl train (tp_n_epoch tp) (tp_batch_size tp))
    as [fitted|e] eqn:Hfit.
  2: { left. exists e. unfold run_prediction, bind, print, emit, lift.
       by rewrite Hfit. }
  destruct (model_predict fitted test_dic) as [ps|e] eqn:Hpred.
  2: { left. exists e. unfold run_prediction, bind, print, emit, lift.
       by rewrite Hfit, Hpred. }
  destruct (collect_results ps empty_frame []) as [[df cols]|e] eqn:Hcol.
  2: { left. exists e. by eapply run_prediction_not_collected. }
  destruct (run_prediction_collected mdl fitted tp output_file train
              test_dic tr ps df cols Hfit Hpred Hcol)
    as [?|(path & ? & ? & [[_ ?]|[_ (table & ? & _)]])].
  - right. by left.
  - right. right. exists path. repeat split; try done. by left.
  - right. right. exists path. repeat split; try done. right. by exists table.
Qed.

(** Property X20.  The writer writes at most once, and only as its
    last step: an event that writes a file is the last event of the
    run, the run has returned without an exception, and the file is
    the output path, which is not the empty string.  A run that raises
    in [fit], in [predict] or on the table has written nothing. *)
Theorem run_prediction_writes_once mdl tp output_file train test_dic tr r tr' :
  run_prediction mdl tp output_file train test_dic tr = (r, tr') ->
  exists evs,
    tr' = (tr ++ evs)%list /\
    forall i path table,
      evs !! i = Some (EWrite path table) ->
      r = Ok tt /\ output_file = Some path /\ path <> "" /\
      S i = length evs.
Proof.
  intros Hrun.
  destruct (run_prediction_cases mdl tp output_file train test_dic tr)
    as [(e & H)|[(_ & H)|(path & -> & Hpath & [H|(table & H)])]];
    rewrite H in Hrun; injection Hrun as <- <-; eexists; (split; [done|]);
    intros i p t Hi.
  - by destruct i as [|[|]].
  - by destruct i as [|[|[|]]].
  - by destruct i as [|[|[|[|]]]].
  - destruct i as [|[|[|[|[|]]]]]; try done. injection Hi as <- <-.
    repeat split; try done. by intros ->.
Qed.

(** Property X21.  Whatever the shapes of the arrays [predict]
    returns, a table that is written has two columns for each test
    set, named by the test set and then ['predicted'] or ['label'], in
    the order of the mapping; it is written after the completion line
    and the line that names the output path. *)
Theorem run_prediction_header mdl fitted tp output_file train test_dic tr ps
    tr' :
  model_fit mdl train (tp_n_epoch tp) (tp_batch_size tp) = Ok fitted ->
  model_predict fitted test_dic = Ok ps ->
  given output_file = true ->
  run_prediction mdl tp output_file train test_dic tr = (Ok tt, tr') ->
  exists path table,
    output_file = Some path /\
    tr' = (tr ++ [EPrint "Prediction"; EPrint completed_line;
                  EPrint ("save to " +:+ path); EWrite path table])%list /\
    (columns table).*1 = (fun t => LPair t.1 t.2) <$> wide_names ps /\
    length (columns table) = (2 * length ps)%nat.
Proof.
  intros Hfit Hpred Hgiven Hrun.
  destruct (collect_results ps empty_frame []) as [[df cols]|e] eqn:Hcol.
  2: { by rewrite (run_prediction_not_collected _ _ _ _ _ _ _ _ _ Hfit Hpred
                     Hcol) in Hrun. }
  destruct (run_prediction_collected mdl fitted tp output_file train
              test_dic tr ps df cols Hfit Hpred Hcol)
    as [[Hno _]|(path & -> & _ & [[_ H]|[_ (table & H & _ & Hnames & _)]])].
  - congruence.
  - by rewrite H in Hrun.
  - rewrite H in Hrun. injection Hrun as <-. exists path, table.
    repeat split; try done.
    apply (f_equal length) in Hnames.
    by rewrite !length_fmap, wide_names_length in Hnames.
Qed.
End WriterExtras2.

(** Property X18 on a test set whose two arrays differ in length, with
    and without an output path. *)
Lemma run_prediction_raises_early_witness :
  run_prediction (O := canned uneven) tt demo_train_params None
    demo_train [] []
  = (Raise ValueError, ([] ++ [EPrint "Prediction"])%list).
Proof.
  apply (run_prediction_raises_early (O := canned uneven) tt
           demo_train_params None demo_train [] [] ValueError).
  right. exists tt. split; [reflexivity|]. right. exists uneven.
  split; [reflexivity|]. vm_compute. reflexivity.
Defined.

(** Property X19 on the empty mapping. *)
Lemma run_prediction_error_kinds_witness :
  (forall e tr',
      run_prediction (O := canned []) tt demo_train_params (Some "out.csv")
        demo_train [] [] = (Raise e, tr') ->
      (e = ValueError /\ tr' = ([] ++ [EPrint "Prediction"])%list) \/
      e = TypeError) /\
  ((exists tr',
       run_prediction (O := canned []) tt demo_train_params (Some "out.csv")
         demo_train [] [] = (Raise TypeError, tr')) <->
   @nil (string * prediction Z) = [] /\ given (Some "out.csv") = true).
Proof.
  apply (run_prediction_error_kinds (O := canned []) tt tt demo_train_params
           (Some "out.csv") demo_train [] [] []).
  - reflexivity.
  - reflexivity.
Defined.

(** Property X20 on two test sets and the output path out.csv. *)
Lemma run_prediction_writes_once_witness :
  exists evs,
    [EPrint "Prediction"; EPrint completed_line; EPrint "save to out.csv";
     EWrite "out.csv" (wide_table two_sets)] = ([] ++ evs)%list /\
    forall i path table,
      evs !! i = Some (EWrite path table) ->
      Ok tt = Ok tt /\ Some "out.csv" = Some path /\ path <> "" /\
      S i = length evs.
Proof.
  apply (run_prediction_writes_once (O := canned two_sets) tt
           demo_train_params (Some "out.csv") demo_train [] []).
  vm_compute. reflexivity.
Defined.

(** Property X21 on two test sets and the output path out.csv. *)
Lemma run_prediction_header_witness :
  exists path table,
    Some "out.csv" = Some path /\
    [EPrint "Prediction"; EPrint completed_line; EPrint "save to out.csv";
     EWrite "out.csv" (wide_table two_sets)]
    = ([] ++ [EPrint "Prediction"; EPrint completed_line;
              EPrint ("save to " +:+ path); EWrite path table])%list /\
    (columns table).*1 = (fun t => LPair t.1 t.2) <$> wide_names two_sets /\
    length (columns table) = (2 * length two_sets)%nat.
Proof.
  apply (run_prediction_header (O := canned two_sets) tt tt
           demo_train_params (Some "out.csv") demo_train [] [] two_sets).
  - reflexivity.
  - reflexivity.
  - reflexivity.
  - vm_compute. reflexivity.
Defined.

(** ** The validation runner *)

Lemma first_occurrences_NoDup (l : list string) :
  NoDup l -> first_occurrences l = l.
Proof.
  induction l as [|x l IH]; [done|]. intros Hnd.
  pose proof (NoDup_cons_1_1 _ _ Hnd) as Hx.
  pose proof (NoDup_cons_1_2 _ _ Hnd) as Hl.
  cbn [first_occurrences]. rewrite IH by done. f_equal.
  clear -Hx. induction l as [|y l IH]; [done|].
  apply not_elem_of_cons in Hx as [Hne Hx].
  rewrite filter_cons, decide_True by done. by rewrite IH.
Qed.

Lemma entry_of_NoDup {A} (s : list (string * A)) k v :
  NoDup s.*1 -> (k, v) ∈ s -> entry_of s k = Some v.
Proof.
  induction s as [|[k' v'] s IH]; intros Hnd Hin.
  - by apply elem_of_nil in Hin.
  - rewrite fmap_cons in Hnd.
    pose proof (NoDup_cons_1_1 _ _ Hnd) as Hk.
    pose proof (NoDup_cons_1_2 _ _ Hnd) as Hs.
    cbn [entry_of]. apply elem_of_cons in Hin as [[= <- <-]|Hin].
    + destruct (entry_of s k) as [w|] eqn:He.
      * apply entry_of_Some_elem in He. done.
      * by rewrite decide_True.
    + by rewrite (IH Hs Hin).
Qed.

Section ValidationFacts.
Context `{W : Validator} {T : Type}.
Implicit Types tr : list (event T).

(** The dictionary the summary of the validation parameters prints. *)
Lemma validation_summary_items tp (output_file : option string) :
  dict_set (dict_update [] (train_params_items tp)) "output_file"
    (p_opt PStr output_file)
  = [ ("n_epoch", PInt (tp_n_epoch tp));
      ("batch_size", PInt (tp_batch_size tp));
      ("output_file", p_opt PStr output_file) ].
Proof. reflexivity. Qed.

(** Property X22.  The validation runner prints 'Validation' and the
    summary of three parameters, the number of epochs, the batch size
    and the output file, and never the data; it then calls
    [validation], and prints the completion line exactly when
    [validation] returns.  An exception of [validation] is raised
    unchanged. *)
Theorem run_validation_trace m tp output_file train test_dic tr r tr' :
  run_validation m tp output_file train test_dic tr = (r, tr') ->
  tr' = (tr ++ [EPrint "Validation"]
            ++ (EPrint <$> summary_lines "Validation parameters"
                             [ ("n_epoch", PInt (tp_n_epoch tp));
                               ("batch_size", PInt (tp_batch_size tp));
                               ("output_file", p_opt PStr output_file) ])
            ++ match r with
               | Ok _ => [EPrint validation_completed_line]
               | Raise _ => []
               end)%list.
Proof.
  unfold run_validation. rewrite validation_summary_items.
  unfold bind at 1. unfold print at 1, emit.
  unfold bind at 1. rewrite print_parameter_summary_run.
  unfold bind, lift, print, emit.
  destruct (model_validation m _) as [[]|e]; intros [= <- <-];
    by rewrite <-!app_assoc, ?app_nil_r.
Qed.

(** Property X23.  [validation] is called with the keywords n_epoch,
    batch_size, output_file, features and label, in this order, and
    then one keyword for each test set whose name is none of the five,
    in the order of the mapping.  Every test set is passed under its
    name: a test set named like one of the five takes the place of
    that parameter or of the training data.  The other keywords hold
    the training parameters, the output file and the features and
    labels of the training data. *)
Theorem run_validation_keywords m tp output_file train test_dic tr :
  NoDup test_dic.*1 ->
  exists kwargs,
    (run_validation m tp output_file train test_dic tr).1
    = rbind (model_validation m kwargs) (fun _ => Ok tt) /\
    kwargs.*1
    = (reserved_keys ++ filter (fun n => n ∉ reserved_keys) test_dic.*1)%list /\
    (forall n d, (n, d) ∈ test_dic -> dict_get kwargs n = Some (KData d)) /\
    (forall n,
        n ∉ test_dic.*1 ->
        dict_get kwargs n
        = dict_get [ ("n_epoch", KVal (PInt (tp_n_epoch tp)));
                     ("batch_size", KVal (PInt (tp_batch_size tp)));
                     ("output_file", KVal (p_opt PStr output_file));
                     ("features", KFeatures (features train));
                     ("label", KLabel (label train)) ] n).
Proof.
  intros Hnd.
  set (base := [ ("n_epoch", KVal (PInt (tp_n_epoch tp)));
                 ("batch_size", KVal (PInt (tp_batch_size tp)));
                 ("output_file", KVal (p_opt PStr output_file));
                 ("features", KFeatures (features train));
                 ("label", KLabel (label train)) ]).
  set (pairs := (fun nd : string * parsed F => (nd.1, KData nd.2)) <$> test_dic).
  assert (pairs.*1 = test_dic.*1) as Hkeys.
  { unfold pairs. by rewrite <-list_fmap_compose. }
  exists (dict_of base pairs). split; [|split; [|split]].
  - unfold run_validation. rewrite validation_summary_items.
    unfold bind at 1. unfold print at 1, emit.
    unfold bind at 1. rewrite print_parameter_summary_run.
    unfold bind, lift, print, emit.
    change (dict_update (dict_update _ (parsed_items train)) _)
      with (dict_of base pairs).
    by destruct (model_validation m (dict_of base pairs)) as [[]|e].
  - rewrite dict_of_keys, Hkeys, first_occurrences_NoDup by done. done.
  - intros n d Hin. rewrite dict_of_get.
    rewrite (entry_of_NoDup pairs n (KData d)); [done|by rewrite Hkeys|].
    unfold pairs.
    by apply (list_elem_of_fmap_2
                (fun nd : string * parsed F => (nd.1, KData nd.2)) _ (n, d)).
  - intros n Hn. rewrite dict_of_get.
    assert (entry_of pairs n = None) as ->; [|done].
    apply entry_of_None. by rewrite Hkeys.
Qed.
End ValidationFacts.

(** Property X22 on a validation that returns. *)
Lemma run_validation_trace_witness :
  (run_validation (W := accepting) (T := unit) tt demo_train_params None
     demo_train [("t", demo_train)] []).2
  = ([] ++ [EPrint "Validation"]
        ++ (EPrint <$> summary_lines (P := demo) "Validation parameters"
                         [ ("n_epoch", PInt 10); ("batch_size", PInt 32);
                           ("output_file", PNone) ])
        ++ [EPrint validation_completed_line])%list.
Proof.
  apply (run_validation_trace (W := accepting) (T := unit) tt
           demo_train_params None demo_train [("t", demo_train)] [] (Ok tt)).
  vm_compute. reflexivity.
Defined.

(** Property X23 on a test set named label, which takes the place of
    the training labels. *)
Lemma run_validation_keywords_witness :
  exists kwargs,
    (run_validation (W := accepting) (T := unit) tt demo_train_params None
       demo_train [("label", demo_train)] []).1
    = rbind (model_validation (Validator := accepting) tt kwargs)
        (fun _ => Ok tt) /\
    kwargs.*1
    = (reserved_keys ++ filter (fun n => n ∉ reserved_keys) ["label"])%list /\
    (forall n d, (n, d) ∈ [("label", demo_train)] ->
                 dict_get kwargs n = Some (KData d)) /\
    (forall n,
        n ∉ ["label"] ->
        dict_get kwargs n
        = dict_get [ ("n_epoch", KVal (PInt 10));
                     ("batch_size", KVal (PInt 32));
                     ("output_file", KVal PNone);
                     ("features", KFeatures (features demo_train));
                     ("label", KLabel (label demo_train)) ] n).
Proof.
  apply (run_validation_keywords (W := accepting) (T := unit) tt
           demo_train_params None demo_train [("label", demo_train)] []).
  apply (bool_decide_unpack _). vm_compute. exact I.
Defined.

(** ** Layer sizes of either sign *)

Lemma pretty_pos_nat (p : positive) : pretty p = pretty (Pos.to_nat p).
Proof.
  unfold pretty at 2, pretty_nat. by rewrite positive_nat_N.
Qed.

(** A decimal number as [pretty] writes it: digits, after a minus sign
    for a negative number. *)
Lemma pretty_Z_shape (z : Z) :
  exists (sign : bool) (n : nat),
    pretty z = (if sign then String "-" (pretty n) else pretty n) /\
    z = (if sign then - Z.of_nat n else Z.of_nat n).
Proof.
  destruct z as [|p|p].
  - by exists false, 0%nat.
  - exists false, (Pos.to_nat p). split; [apply pretty_pos_nat|].
    by rewrite positive_nat_Z.
  - exists true, (Pos.to_nat p). split.
    + change (pretty (Z.neg p)) with ("-" +:+ pretty p).
      by rewrite pretty_pos_nat.
    + by rewrite positive_nat_Z.
Qed.

Lemma int_pretty_Z (z : Z) :
  (count_digits (pretty z) <= int_max_str_digits)%nat ->
  int (pretty z) = Ok z.
Proof.
  destruct (pretty_Z_shape z) as ([|] & n & -> & ->).
  - pose proof (pretty_nat_all_digits n) as Hd.
    pose proof (pretty_nat_value n) as Hv.
    cbn [count_digits]. change (digit_of "-") with (@None Z). cbv iota.
    intros Hlen%Nat.ltb_ge.
    unfold int, strip. cbn [lstrip]. change (is_space "-") with false.
    cbv iota. cbn [rstrip]. rewrite (all_digits_rstrip _ Hd).
    revert Hlen Hv. destruct (pretty n) as [|c r]; [done|]. intros Hlen Hv.
    cbn [count_digits] in *. change (digit_of "-") with (@None Z). cbv iota.
    rewrite Hlen. cbn. cbn in Hv. by rewrite Hv.
  - rewrite count_digits_all by apply pretty_nat_all_digits. apply int_pretty.
Qed.

Lemma str_split_pretty_Z (z : Z) t :
  str_split COMMA (pretty z) = [pretty z] /\
  str_split COMMA (pretty z +:+ String COMMA t)
  = pretty z :: str_split COMMA t.
Proof.
  destruct (pretty_Z_shape z) as ([|] & n & -> & _).
  - pose proof (pretty_nat_all_digits n) as Hd.
    change (String "-" (pretty n) +:+ String COMMA t)
      with (String "-" (pretty n +:+ String COMMA t)).
    cbn [str_split]. change (Ascii.eqb "-" COMMA) with false. cbv iota.
    by rewrite (str_split_digits _ Hd), (str_split_digits_app _ t Hd).
  - split; [apply str_split_digits|apply str_split_digits_app];
      apply pretty_nat_all_digits.
Qed.

(** Property X24.  The layer sizes are not checked: every list of
    integers that is not empty, with zero and negative numbers among
    them, each of no more digits than [int] reads (4300, the sign not
    counted), written in decimal with commas between the numbers,
    parses to itself. *)
Theorem parse_layers_any_integers (sizes : list Z) :
  sizes <> [] ->
  Forall (fun z => (count_digits (pretty z) <= int_max_str_digits)%nat)
    sizes ->
  parse_layers (str_join COMMA (pretty <$> sizes)) = Ok sizes.
Proof.
  intros Hne Hlen. unfold parse_layers.
  assert (str_split COMMA (str_join COMMA (pretty <$> sizes))
          = pretty <$> sizes) as ->.
  { clear Hlen. induction sizes as [|z [|z' sizes] IH]; [done| |].
    - apply str_split_pretty_Z. exact "".
    - change (str_join COMMA (pretty <$> z :: z' :: sizes))
        with (pretty z +:+ String COMMA (str_join COMMA (pretty <$> z' :: sizes))).
      rewrite (proj2 (str_split_pretty_Z z _)), IH by done. done. }
  apply rmap_Ok, Forall2_fmap_l, Forall_Forall2_diag.
  revert Hlen. apply Forall_impl. intros z. apply int_pretty_Z.
Qed.

(** Property X24 on the sizes -5, 0 and 12. *)
Lemma parse_layers_any_integers_witness :
  parse_layers (str_join COMMA (pretty <$> [-5; 0; 12])) = Ok [-5; 0; 12].
Proof.
  apply (parse_layers_any_integers [-5; 0; 12]); [discriminate|].
  repeat constructor; vm_compute; lia.
Defined.
